(** * KRMC pharmacy dashboard: the aggregation pipeline of [eda_streamlit.py]

    The script is a straight-line pandas program.  Every data frame is
    modelled as a list of records (row order is the frame's row order), every
    pandas primitive the script calls ([groupby], [drop_duplicates],
    [sort_values], [merge], [unstack]/[stack], [rolling]) as a list function,
    and every named frame of the script as a definition of the same name that
    composes those primitives the way the script does.

    Conventions of the model:
    - monetary amounts, quantities and means are exact rationals ([Q]); the
      rounding of binary floating point is not modelled;
    - the result of pandas' true division is a [float64] value that is either
      finite (a rational), an infinity or not-a-number;
    - columns hold no missing values on input (the script never fills the
      input's gaps itself);
    - [sort_values] is modelled as a stable sort, and [groupby] yields its
      groups in ascending key order (pandas' default [sort=True]). *)

From Stdlib Require Import String Ascii DecimalString Bool ZArith QArith Lia List.
From Stdlib Require Import Permutation Sorting.Sorted.
Import ListNotations.

Local Open Scope string_scope.
Local Open Scope list_scope.
Local Open Scope Z_scope.

(** ** Keys: what pandas groups and sorts by *)

Class Key (K : Type) : Type := {
  eqb : K -> K -> bool;
  leb : K -> K -> bool;
  eqb_eq : forall a b, eqb a b = true <-> a = b;
  leb_total : forall a b, leb a b = true \/ leb b a = true;
  leb_antisym : forall a b, leb a b = true -> leb b a = true -> a = b;
  leb_trans : forall a b c, leb a b = true -> leb b c = true -> leb a c = true
}.

Lemma Z_leb_total (a b : Z) : (a <=? b) = true \/ (b <=? a) = true.
Proof. rewrite !Z.leb_le. lia. Qed.

Lemma Z_leb_antisym (a b : Z) : (a <=? b) = true -> (b <=? a) = true -> a = b.
Proof. rewrite !Z.leb_le. lia. Qed.

Lemma Z_leb_trans (a b c : Z) :
  (a <=? b) = true -> (b <=? c) = true -> (a <=? c) = true.
Proof. rewrite !Z.leb_le. lia. Qed.

#[export] Instance Key_Z : Key Z :=
  {| eqb := Z.eqb; leb := Z.leb;
     eqb_eq := Z.eqb_eq; leb_total := Z_leb_total;
     leb_antisym := Z_leb_antisym; leb_trans := Z_leb_trans |}.

(** Python compares strings code point by code point, as [String.leb] does. *)
Lemma string_leb_trans (a b c : string) :
  String.leb a b = true -> String.leb b c = true -> String.leb a c = true.
Proof.
  unfold String.leb. revert b c.
  induction a as [ | x a IH ]; intros [ | y b ] [ | z c ]; simpl;
    try reflexivity; try discriminate.
  specialize (IH b c). unfold Ascii.compare.
  destruct (N.compare_spec (N_of_ascii x) (N_of_ascii y)) as [ Hxy | Hxy | Hxy ];
    destruct (N.compare_spec (N_of_ascii y) (N_of_ascii z)) as [ Hyz | Hyz | Hyz ];
    destruct (N.compare_spec (N_of_ascii x) (N_of_ascii z)) as [ Hxz | Hxz | Hxz ];
    try discriminate; try reflexivity; try lia; auto.
Qed.

#[export] Instance Key_string : Key string :=
  {| eqb := String.eqb; leb := String.leb;
     eqb_eq := String.eqb_eq; leb_total := String.leb_total;
     leb_antisym := String.leb_antisym; leb_trans := string_leb_trans |}.

Lemma eqb_spec {K} `{Key K} (a b : K) : reflect (a = b) (eqb a b).
Proof. apply iff_reflect. symmetry. apply eqb_eq. Qed.

(** Several group keys compare lexicographically, first key first. *)
Definition prod_eqb {K1 K2} `{Key K1} `{Key K2} (a b : K1 * K2) : bool :=
  eqb (fst a) (fst b) && eqb (snd a) (snd b).

Definition prod_leb {K1 K2} `{Key K1} `{Key K2} (a b : K1 * K2) : bool :=
  if eqb (fst a) (fst b) then leb (snd a) (snd b) else leb (fst a) (fst b).

Section ProdOrder.
Context {K1 K2 : Type} `{Key K1} `{Key K2}.

Lemma prod_eqb_eq (a b : K1 * K2) : prod_eqb a b = true <-> a = b.
Proof.
  unfold prod_eqb. rewrite andb_true_iff, !eqb_eq.
  destruct a, b; simpl. split.
  - intros [ -> -> ]. reflexivity.
  - intros E. inversion E. auto.
Qed.

Lemma prod_leb_total (a b : K1 * K2) : prod_leb a b = true \/ prod_leb b a = true.
Proof.
  unfold prod_leb. destruct a as [ a1 a2 ], b as [ b1 b2 ]; simpl.
  destruct (eqb_spec a1 b1) as [ -> | Hne ].
  - destruct (eqb_spec b1 b1) as [ _ | Hne ]; [ apply leb_total | congruence ].
  - destruct (eqb_spec b1 a1) as [ E | _ ]; [ congruence | apply leb_total ].
Qed.

Lemma prod_leb_antisym (a b : K1 * K2) :
  prod_leb a b = true -> prod_leb b a = true -> a = b.
Proof.
  unfold prod_leb. destruct a as [ a1 a2 ], b as [ b1 b2 ]; simpl.
  destruct (eqb_spec a1 b1) as [ -> | Hne ].
  - destruct (eqb_spec b1 b1) as [ _ | Hne ]; [ | congruence ].
    intros H1 H2. f_equal. apply leb_antisym; assumption.
  - destruct (eqb_spec b1 a1) as [ E | _ ]; [ congruence | ].
    intros H1 H2. exfalso. apply Hne. apply leb_antisym; assumption.
Qed.

Lemma prod_leb_trans (a b c : K1 * K2) :
  prod_leb a b = true -> prod_leb b c = true -> prod_leb a c = true.
Proof.
  unfold prod_leb.
  destruct a as [ a1 a2 ], b as [ b1 b2 ], c as [ c1 c2 ]; simpl.
  destruct (eqb_spec a1 b1) as [ -> | Hab ];
    destruct (eqb_spec b1 c1) as [ -> | Hbc ]; intros H1 H2.
  - eapply leb_trans; eassumption.
  - exact H2.
  - destruct (eqb_spec a1 c1) as [ E | _ ]; [ congruence | exact H1 ].
  - destruct (eqb_spec a1 c1) as [ -> | _ ].
    + exfalso. apply Hab. apply leb_antisym; assumption.
    + eapply leb_trans; eassumption.
Qed.

End ProdOrder.

#[export] Instance Key_prod {K1 K2} `{Key K1} `{Key K2} : Key (K1 * K2) :=
  {| eqb := prod_eqb; leb := prod_leb;
     eqb_eq := prod_eqb_eq; leb_total := prod_leb_total;
     leb_antisym := prod_leb_antisym; leb_trans := prod_leb_trans |}.

(** ** Calendar dates ([datetime.date]) *)

Record date : Type := mkdate { year : Z; month : Z; day : Z }.

(** [datetime._is_leap] *)
Definition is_leap (y : Z) : bool :=
  (y mod 4 =? 0) && (negb (y mod 100 =? 0) || (y mod 400 =? 0)).

(** [datetime._days_before_year] *)
Definition days_before_year (y : Z) : Z :=
  let y' := y - 1 in y' * 365 + y' / 4 - y' / 100 + y' / 400.

(** [datetime._DAYS_BEFORE_MONTH], indexed by the month number. *)
Definition DAYS_BEFORE_MONTH (m : Z) : Z :=
  match m with
  | 1 => 0 | 2 => 31 | 3 => 59 | 4 => 90 | 5 => 120 | 6 => 151
  | 7 => 181 | 8 => 212 | 9 => 243 | 10 => 273 | 11 => 304 | 12 => 334
  | _ => 0
  end.

(** [datetime._days_before_month] *)
Definition days_before_month (y m : Z) : Z :=
  DAYS_BEFORE_MONTH m + (if (2 <? m) && is_leap y then 1 else 0).

(** [date.toordinal]: 1 January of year 1 is day 1. *)
Definition toordinal (d : date) : Z :=
  days_before_year (year d) + days_before_month (year d) (month d) + day d.

(** [date.weekday]: Monday is 0 and Sunday is 6. *)
Definition weekday (d : date) : Z := (toordinal d + 6) mod 7.

Definition date_key (d : date) : Z * (Z * Z) := (year d, (month d, day d)).

Lemma date_key_inj (a b : date) : date_key a = date_key b -> a = b.
Proof. destruct a, b. unfold date_key. simpl. intros E. inversion E. reflexivity. Qed.

(** Dates compare as (year, month, day). *)
Definition date_eqb (a b : date) : bool := eqb (date_key a) (date_key b).
Definition date_leb (a b : date) : bool := leb (date_key a) (date_key b).

Lemma date_eqb_eq (a b : date) : date_eqb a b = true <-> a = b.
Proof.
  unfold date_eqb. rewrite eqb_eq. split.
  - apply date_key_inj.
  - intros ->. reflexivity.
Qed.

Lemma date_leb_total (a b : date) : date_leb a b = true \/ date_leb b a = true.
Proof. apply leb_total. Qed.

Lemma date_leb_antisym (a b : date) :
  date_leb a b = true -> date_leb b a = true -> a = b.
Proof. intros H1 H2. apply date_key_inj. apply leb_antisym; assumption. Qed.

Lemma date_leb_trans (a b c : date) :
  date_leb a b = true -> date_leb b c = true -> date_leb a c = true.
Proof. apply leb_trans. Qed.

#[export] Instance Key_date : Key date :=
  {| eqb := date_eqb; leb := date_leb;
     eqb_eq := date_eqb_eq; leb_total := date_leb_total;
     leb_antisym := date_leb_antisym; leb_trans := date_leb_trans |}.

(** ** The transaction table *)

(** One row of the CSV file, after [pd.to_datetime(...).dt.date] has cut the
    script date down to a calendar date. *)
Record Row : Type := mkRow {
  Script_Date : date;
  Sctno : Z;
  Item_Description : string;
  Qty : Q;
  Retail : Q;
  Cost : Q;
  Dispenser : string;
  Doctor : string;
  Medical_Aid : string
}.

Definition DataFrame : Type := list Row.

(** [df["Year"] = df["Script Date"].dt.year] *)
Definition Year (r : Row) : Z := year (Script_Date r).

(** [x < y] on amounts. *)
Definition Qlt_bool (x y : Q) : bool := negb (Qle_bool y x).

(** ** The pandas primitives the script uses *)

(** [sort_values]: [le a b] says that [a] may stand before [b]; rows that
    compare equal keep their order. *)
Fixpoint insert_sorted {A} (le : A -> A -> bool) (a : A) (l : list A) : list A :=
  match l with
  | [] => [a]
  | b :: l' => if le a b then a :: l else b :: insert_sorted le a l'
  end.

Definition sort_values {A} (le : A -> A -> bool) (l : list A) : list A :=
  fold_right (insert_sorted le) [] l.

Section Primitives.
Context {A B K : Type} `{Key K}.

(** [Series.unique()]: the distinct values, in order of first appearance. *)
Fixpoint unique (l : list K) : list K :=
  match l with
  | [] => []
  | k :: l' => k :: filter (fun k' => negb (eqb k' k)) (unique l')
  end.

(** [Series.isin(values)] *)
Definition isin (k : K) (values : list K) : bool := existsb (eqb k) values.

(** [DataFrame.drop_duplicates(subset=key, keep="first")] *)
Fixpoint drop_duplicates (key : A -> K) (df : list A) : list A :=
  match df with
  | [] => []
  | r :: df' =>
      r :: filter (fun r' => negb (eqb (key r') (key r))) (drop_duplicates key df')
  end.

(** [groupby(key)] with the default [sort=True]: one group per distinct key,
    groups in ascending key order, each group's rows in frame order. *)
Definition groupby (key : A -> K) (df : list A) : list (K * list A) :=
  map (fun k => (k, filter (fun r => eqb (key r) k) df))
      (sort_values leb (unique (map key df))).

(** [pd.merge(left, right, on=key)], an inner join: every left row paired with
    every right row of the same key, in left order. *)
Definition merge (keyL : A -> K) (keyR : B -> K) (left : list A) (right : list B)
  : list (A * B) :=
  flat_map (fun l => map (fun r => (l, r))
                         (filter (fun r => eqb (keyR r) (keyL l)) right)) left.

End Primitives.

(** [ascending=False] on an integer column; [ascending=True] on a key. *)
Definition descending {A} (col : A -> Z) (a b : A) : bool := col b <=? col a.
Definition ascending {A K} `{Key K} (col : A -> K) (a b : A) : bool :=
  leb (col a) (col b).

(** [.head(n)] *)
Definition head {A} (n : nat) (l : list A) : list A := firstn n l.

(** [.count()] of a group (no missing values: every row counts). *)
Definition count {A} (g : list A) : Z := Z.of_nat (length g).

(** Sums and means of a numeric column. *)
Definition Qsum (l : list Q) : Q := fold_left Qplus l 0%Q.
Definition Zsum (l : list Z) : Z := fold_left Z.add l 0.
Definition Qmean (l : list Q) : Q := (Qsum l / inject_Z (Z.of_nat (length l)))%Q.

(** [astype(str)] on an integer column. *)
Definition astype_str (n : Z) : string := NilZero.string_of_int (Z.to_int n).

(** ** Exceptions *)

Inductive exn : Type := ValueError.

Inductive result (A : Type) : Type :=
| Ok (a : A)
| Raise (e : exn).
Arguments Ok {A} a.
Arguments Raise {A} e.

Definition bind {A B} (m : result A) (f : A -> result B) : result B :=
  match m with
  | Ok a => f a
  | Raise e => Raise e
  end.

Notation "x <- m ;; k" := (bind m (fun x => k))
  (at level 61, m at next level, right associativity).

(** ** 1. Data cleaner and financial analysis *)

(** [df = df[df["Retail"] < 65000]]: the table every later frame is built
    from ([df_fa] is a copy of it). *)
Definition df_clean (raw : DataFrame) : DataFrame :=
  filter (fun r => Qlt_bool (Retail r) 65000) raw.

(** [total_retail_sales = df[df['Year']==2023]["Retail"].sum()] *)
Definition total_retail_sales (df : DataFrame) : Q :=
  Qsum (map Retail (filter (fun r => Year r =? 2023) df)).

(** [total_cost_sales = df[df['Year']==2023]["Cost"].sum()] *)
Definition total_cost_sales (df : DataFrame) : Q :=
  Qsum (map Cost (filter (fun r => Year r =? 2023) df)).

(** [df_fa["gross_profit"] = df_fa["Retail"] - df_fa["Cost"]] *)
Definition gross_profit (r : Row) : Q := (Retail r - Cost r)%Q.

(** [df_fa_gp = df_fa.groupby("Script Date")[[..., "gross_profit"]].sum()],
    the [gross_profit] column with its date. *)
Definition df_fa_gp (df : DataFrame) : list (date * Q) :=
  map (fun g => (fst g, Qsum (map gross_profit (snd g)))) (groupby Script_Date df).

(** [Series.rolling(window=w).mean()], with pandas' sliding sum: each step adds
    the value that enters the window, takes away the one that leaves it, and
    yields a mean once [w] observations are inside ([min_periods] is the window
    size).  [incoming] is what is left of the series, [outgoing] the series
    from the window's oldest value on. *)
Fixpoint roll_mean (w : nat) (incoming outgoing : list Q) (i : nat)
    (sum_x : Q) (nobs : nat) : list (option Q) :=
  match incoming with
  | [] => []
  | x :: incoming' =>
      let '(sum_x', nobs', outgoing') :=
        if (w <=? i)%nat then
          match outgoing with
          | y :: outgoing' => ((sum_x + x - y)%Q, nobs, outgoing')
          | [] => ((sum_x + x)%Q, S nobs, [])
          end
        else ((sum_x + x)%Q, S nobs, outgoing) in
      (if (w <=? nobs')%nat
       then Some (sum_x' / inject_Z (Z.of_nat nobs'))%Q else None)
      :: roll_mean w incoming' outgoing' (S i) sum_x' nobs'
  end.

Definition rolling_mean (w : nat) (s : list Q) : list (option Q) :=
  roll_mean w s s 0 0%Q 0.

(** [df_fa_gp["gross_profit_moving_avg"]] *)
Definition gross_profit_moving_avg (rolling_window : nat) (df : DataFrame)
  : list (option Q) :=
  rolling_mean rolling_window (map snd (df_fa_gp df)).

(** ** 2. Operational analysis *)

(** A row of [df_disp]: the number of scripts a dispenser handled on a day. *)
Record DispRow : Type := mkDispRow {
  disp_Script_Date : date;
  disp_Dispenser : string;
  disp_Sctno : Z
}.

Definition disp_index (r : DispRow) : date * string :=
  (disp_Script_Date r, disp_Dispenser r).

(** [df_disp = df.drop_duplicates(subset=["Sctno"])
               .groupby(["Script Date", "Dispenser"])["Sctno"].count()
               .reset_index()] *)
Definition df_disp (df : DataFrame) : list DispRow :=
  map (fun g => mkDispRow (fst (fst g)) (snd (fst g)) (count (snd g)))
      (groupby (fun r => (Script_Date r, Dispenser r)) (drop_duplicates Sctno df)).

(** The frame between [unstack] and [stack]: one line per date, one column
    per dispenser, a cell without a value where the pair was not observed. *)
Record Wide : Type := mkWide {
  wide_index : list date;
  wide_columns : list string;
  wide_cells : list (list (option Z))
}.

Fixpoint has_duplicates {K} `{Key K} (l : list K) : bool :=
  match l with
  | [] => false
  | k :: l' => isin k l' || has_duplicates l'
  end.

(** [set_index(["Script Date", "Dispenser"]).unstack("Dispenser")]; pandas
    refuses to reshape an index that holds an entry twice. *)
Definition unstack (t : list DispRow) : result Wide :=
  if has_duplicates (map disp_index t) then Raise ValueError
  else
    let idx := sort_values leb (unique (map disp_Script_Date t)) in
    let cols := sort_values leb (unique (map disp_Dispenser t)) in
    Ok (mkWide idx cols
          (map (fun d =>
                  map (fun c =>
                         option_map disp_Sctno
                           (find (fun r => eqb (disp_index r) (d, c)) t))
                      cols)
               idx)).

(** [.fillna(v)] *)
Definition fillna (v : Z) (w : Wide) : Wide :=
  mkWide (wide_index w) (wide_columns w)
         (map (map (fun c => match c with Some x => Some x | None => Some v end))
              (wide_cells w)).

(** [.stack("Dispenser").reset_index()]: back to one row per (date,
    dispenser); a cell without a value yields no row. *)
Definition stack (w : Wide) : list DispRow :=
  flat_map (fun line =>
              flat_map (fun cell =>
                          match snd cell with
                          | Some v => [mkDispRow (fst line) (fst cell) v]
                          | None => []
                          end)
                       (combine (wide_columns w) (snd line)))
           (combine (wide_index w) (wide_cells w)).

(** [df_disp_all_days]: "if there are days missing for a dispenser, fill
    with 0". *)
Definition df_disp_all_days (t : list DispRow) : result (list DispRow) :=
  w <- unstack t ;; Ok (stack (fillna 0 w)).

(** [groupby(key)[col].transform(f)]: [f] runs on each group, and every row
    receives the value [f] gave at the row's place in its group. *)
Fixpoint transform_from {A B K} `{Key K} (key : A -> K) (f : list A -> list B)
    (d : B) (whole seen rest : list A) : list B :=
  match rest with
  | [] => []
  | r :: rest' =>
      let same := fun r' => eqb (key r') (key r) in
      nth (length (filter same seen)) (f (filter same whole)) d
      :: transform_from key f d whole (seen ++ [r]) rest'
  end.

Definition transform {A B K} `{Key K} (key : A -> K) (f : list A -> list B)
    (d : B) (df : list A) : list B :=
  transform_from key f d df [] df.

(** [df_disp_all_days["Sctno_moving_avg"]] *)
Definition Sctno_moving_avg (disp_roll_window : nat) (grid : list DispRow)
  : list (option Q) :=
  transform disp_Dispenser
            (fun x => rolling_mean disp_roll_window
                        (map (fun r => inject_Z (disp_Sctno r)) x))
            None grid.

(** [calculate_hours_open(row)] *)
Definition calculate_hours_open (row : DispRow) : Z :=
  let day_of_week := weekday (disp_Script_Date row) in
  let year := year (disp_Script_Date row) in
  if day_of_week =? 6 then 0
  else if day_of_week =? 5 then 4
  else if year <? 2023 then 9 else 11.

(** The values of a float column. *)
Inductive float64 : Type :=
| Finite (q : Q)
| PosInf
| NegInf
| NaN.

(** [a / b] on two integer columns (numpy's true division: no exception). *)
Definition true_divide (a b : Z) : float64 :=
  if b =? 0 then
    if a =? 0 then NaN else if 0 <? a then PosInf else NegInf
  else Finite (inject_Z a / inject_Z b)%Q.

Definition float_add (a b : float64) : float64 :=
  match a, b with
  | Finite x, Finite y => Finite (x + y)%Q
  | NaN, _ | _, NaN => NaN
  | PosInf, NegInf | NegInf, PosInf => NaN
  | PosInf, _ | _, PosInf => PosInf
  | NegInf, _ | _, NegInf => NegInf
  end.

(** [.mean()] of a float column. *)
Definition float_mean (l : list float64) : float64 :=
  match fold_left float_add l (Finite 0) with
  | Finite s => Finite (s / inject_Z (Z.of_nat (length l)))%Q
  | other => other
  end.

(** [df_disp] with its column [no_of_hours_open]. *)
Record HoursRow : Type := mkHoursRow {
  hours_row : DispRow;
  no_of_hours_open : Z
}.

(** [df_disp] with its columns [no_of_hours_open] and [rate_of_scripts]. *)
Record RateRow : Type := mkRateRow {
  rate_row : HoursRow;
  rate_of_scripts : float64
}.

(** [df_disp["no_of_hours_open"] = df_disp.apply(calculate_hours_open, axis=1)] *)
Definition with_no_of_hours_open (t : list DispRow) : list HoursRow :=
  map (fun r => mkHoursRow r (calculate_hours_open r)) t.

(** [df_disp["rate_of_scripts"] = df_disp["Sctno"] / df_disp["no_of_hours_open"]] *)
Definition with_rate_of_scripts (t : list HoursRow) : list RateRow :=
  map (fun r => mkRateRow r (true_divide (disp_Sctno (hours_row r))
                                         (no_of_hours_open r))) t.

(** [df_disp = df_disp[df_disp["no_of_hours_open"] != 0]] *)
Definition open_days (t : list RateRow) : list RateRow :=
  filter (fun r => negb (no_of_hours_open (rate_row r) =? 0)) t.

Definition rate_Dispenser (r : RateRow) : string :=
  disp_Dispenser (hours_row (rate_row r)).

(** [df_disp.groupby("Dispenser")["rate_of_scripts"].mean().reset_index()] *)
Definition mean_rate_by_dispenser (t : list RateRow) : list (string * float64) :=
  map (fun g => (fst g, float_mean (map rate_of_scripts (snd g))))
      (groupby rate_Dispenser t).

(** The frame the division of line 222 runs on, and the frame the mean of
    line 224 runs on. *)
Definition df_disp_divided (df : DataFrame) : list RateRow :=
  with_rate_of_scripts (with_no_of_hours_open (df_disp df)).

Definition df_disp_open (df : DataFrame) : list RateRow :=
  open_days (df_disp_divided df).

(** [df_disp_sr_mean], as the script computes it: divide, drop, average. *)
Definition df_disp_sr_mean (df : DataFrame) : list (string * float64) :=
  mean_rate_by_dispenser (df_disp_open df).

(** The other order, as the specification words it: drop the rows with no
    opening hours, divide, average. *)
Definition drop_zero_hours (t : list HoursRow) : list HoursRow :=
  filter (fun r => negb (no_of_hours_open r =? 0)) t.

Definition df_disp_sr_mean_drop_first (df : DataFrame) : list (string * float64) :=
  mean_rate_by_dispenser
    (with_rate_of_scripts (drop_zero_hours (with_no_of_hours_open (df_disp df)))).

(** ** 3. Product analysis *)

(** [df["Year"] = df["Year"].astype(str)] *)
Definition Year_str (r : Row) : string := astype_str (Year r).

Record ProductSales : Type := mkProductSales {
  ps_Item_Description : string;
  ps_Year : string;
  ps_Retail : Q;
  ps_Cost : Q
}.

Record ProductVolume : Type := mkProductVolume {
  pv_Item_Description : string;
  pv_Year : string;
  Volume : Z
}.

(** [df.groupby(["Item Description", "Year"])[["Retail", "Cost"]].sum()] *)
Definition df_product_sales (df : DataFrame) : list ProductSales :=
  map (fun g => mkProductSales (fst (fst g)) (snd (fst g))
                  (Qsum (map Retail (snd g))) (Qsum (map Cost (snd g))))
      (groupby (fun r => (Item_Description r, Year_str r)) df).

(** [df.groupby(["Item Description", "Year"])["Sctno"].count()], renamed
    to [Volume]. *)
Definition df_product_volume (df : DataFrame) : list ProductVolume :=
  map (fun g => mkProductVolume (fst (fst g)) (snd (fst g)) (count (snd g)))
      (groupby (fun r => (Item_Description r, Year_str r)) df).

(** [pd.merge(df_product_sales, df_product_volume,
              on=["Item Description", "Year"])] *)
Definition df_product_sales_volume (df : DataFrame)
  : list (ProductSales * ProductVolume) :=
  merge (fun s => (ps_Item_Description s, ps_Year s))
        (fun v => (pv_Item_Description v, pv_Year v))
        (df_product_sales df) (df_product_volume df).

(** [df.groupby(["Item Description"])[["Retail", "Cost"]].sum()]: the totals
    of a product over all years (Retail, Cost). *)
Definition df_product_sales_exc_year (df : DataFrame) : list (string * (Q * Q)) :=
  map (fun g => (fst g, (Qsum (map Retail (snd g)), Qsum (map Cost (snd g)))))
      (groupby Item_Description df).

(** [df.groupby(["Item Description"])["Sctno"].count()]: the total volume
    of a product over all years. *)
Definition df_product_volume_exc_year (df : DataFrame) : list (string * Z) :=
  map (fun g => (fst g, count (snd g))) (groupby Item_Description df).

(** [pd.merge(df_product_sales, df_product_volume, on=["Item Description"])]:
    the script joins the two per-year frames here, not the two frames it
    has just built without the year. *)
Definition df_product_sales_volume_exc_year (df : DataFrame)
  : list (ProductSales * ProductVolume) :=
  merge ps_Item_Description pv_Item_Description
        (df_product_sales df) (df_product_volume df).

(** [top_10_products] *)
Definition top_10_products (df : DataFrame) : list string :=
  map (fun r => ps_Item_Description (fst r))
      (head 10
         (drop_duplicates (fun r => ps_Item_Description (fst r))
            (sort_values (descending (fun r => Volume (snd r)))
               (df_product_sales_volume_exc_year df)))).

(** [df_product_sales_volume_top_10]: the data of the grouped bar chart. *)
Definition df_product_sales_volume_top_10 (df : DataFrame)
  : list (ProductSales * ProductVolume) :=
  filter (fun r => isin (ps_Item_Description (fst r)) (top_10_products df))
         (df_product_sales_volume df).

(** [dt.to_period("M").astype(str)]: year, dash, month on two digits. *)
Definition period_M_str (d : date) : string :=
  let pad := if month d <? 10 then "0" else "" in
  (astype_str (year d) ++ "-" ++ pad ++ astype_str (month d))%string.

(** [df["Script Date Month"]] *)
Definition Script_Date_Month (r : Row) : string := period_M_str (Script_Date r).

(** [pd.to_datetime(col).dt.month] on a ["YYYY-MM"] string. *)
Definition dt_month (s : string) : Z :=
  match String.index 0 "-" s with
  | Some n =>
      match NilZero.uint_of_string (substring (S n) 2 s) with
      | Some u => Z.of_uint u
      | None => 0
      end
  | None => 0
  end.

(** [.replace({1: "Jan", ..., 12: "Dec"})]; [dt.month] yields no other
    number, which would stay as it is. *)
Definition month_label (m : Z) : string :=
  match m with
  | 1 => "Jan" | 2 => "Feb" | 3 => "Mar" | 4 => "Apr"
  | 5 => "May" | 6 => "Jun" | 7 => "Jul" | 8 => "Aug"
  | 9 => "Sep" | 10 => "Oct" | 11 => "Nov" | 12 => "Dec"
  | _ => astype_str m
  end.

(** A row of the monthly per-product frames: [M] is the type of the [Month]
    column (a number, later a label), [V] that of the value column. *)
Record Monthly (M V : Type) : Type := mkMonthly {
  m_Script_Date_Month : string;
  m_Item_Description : string;
  m_Year : string;
  m_value : V;
  m_Month : M
}.
Arguments mkMonthly {M V}.
Arguments m_Script_Date_Month {M V}.
Arguments m_Item_Description {M V}.
Arguments m_Year {M V}.
Arguments m_value {M V}.
Arguments m_Month {M V}.

Definition replace_Month {V} (r : Monthly Z V) : Monthly string V :=
  mkMonthly (m_Script_Date_Month r) (m_Item_Description r) (m_Year r)
            (m_value r) (month_label (m_Month r)).

(** The shared shape of [df_product_monthly_volume_year] and
    [df_product_monthly_qty_year]: group by (month bucket, product, year),
    aggregate, add the month number, sort by [["Year", "Month"]], replace the
    number by its label. *)
Definition monthly_by_year {V} (agg : list Row -> V) (df : DataFrame)
  : list (Monthly string V) :=
  map replace_Month
      (sort_values (ascending (fun r => (m_Year r, m_Month r)))
         (map (fun g =>
                 let sdm := fst (fst g) in
                 mkMonthly sdm (fst (snd (fst g))) (snd (snd (fst g)))
                           (agg (snd g)) (dt_month sdm))
              (groupby (fun r => (Script_Date_Month r,
                                  (Item_Description r, Year_str r))) df))).

Definition df_product_monthly_volume_year (df : DataFrame) : list (Monthly string Z) :=
  monthly_by_year count df.

Definition df_product_monthly_qty_year (df : DataFrame) : list (Monthly string Q) :=
  monthly_by_year (fun g => Qsum (map Qty g)) df.

Definition monthly_key {V} (r : Monthly string V)
  : string * (string * (string * string)) :=
  (m_Month r, (m_Item_Description r, (m_Script_Date_Month r, m_Year r))).

(** [df_product_monthly_volume_year.merge(df_product_monthly_qty_year,
      on=["Month", "Item Description", "Script Date Month", "Year"])] *)
Definition df_product_monthly_volume_quantity_year (df : DataFrame)
  : list (Monthly string Z * Monthly string Q) :=
  merge monthly_key monthly_key
        (df_product_monthly_volume_year df) (df_product_monthly_qty_year df).

(** A row of [temp_df] in the year comparison. *)
Record TempRow : Type := mkTempRow {
  t_Month : string;
  t_Year : string;
  t_Sctno : Q;
  t_Qty : Q
}.

(** [temp_df]: the selected product's rows,
    [[["Month", "Sctno", "Qty", "Year"]].groupby(["Month", "Year"]).mean()
     .reset_index()]. *)
Definition temp_df (df : DataFrame) (item : string) : list TempRow :=
  map (fun g => mkTempRow (fst (fst g)) (snd (fst g))
                  (Qmean (map (fun r => inject_Z (m_value (fst r))) (snd g)))
                  (Qmean (map (fun r => m_value (snd r)) (snd g))))
      (groupby (fun r => (m_Month (fst r), m_Year (fst r)))
         (filter (fun r => eqb (m_Item_Description (fst r)) item)
                 (df_product_monthly_volume_quantity_year df))).

(** A [go.Scatter] trace. *)
Record Scatter : Type := mkScatter {
  scatter_x : list string;
  scatter_y : list Q;
  scatter_name : string;
  secondary_y : bool
}.

(** The loop [for year in years_to_compare]: two traces per year. *)
Definition year_comparison_traces (df : DataFrame) (item : string)
    (years_to_compare : list string) : list Scatter :=
  flat_map (fun year =>
              let temp_df_year :=
                filter (fun r => eqb (t_Year r) year) (temp_df df item) in
              [ mkScatter (map t_Month temp_df_year) (map t_Sctno temp_df_year)
                          ("Volume " ++ year)%string false;
                mkScatter (map t_Month temp_df_year) (map t_Qty temp_df_year)
                          ("Quantity " ++ year)%string true ])
           years_to_compare.

Record MedicalAidRow : Type := mkMedicalAidRow {
  ma_Medical_Aid : string;
  ma_Item_Description : string;
  ma_Sctno : Z
}.

(** [df.groupby(["Medical Aid", "Item Description"])["Sctno"].count()] *)
Definition df_product_medical_aid (df : DataFrame) : list MedicalAidRow :=
  map (fun g => mkMedicalAidRow (fst (fst g)) (snd (fst g)) (count (snd g)))
      (groupby (fun r => (Medical_Aid r, Item_Description r)) df).

(** [groupby(key)["Sctno"].sum().sort_values(ascending=False)] *)
Definition sum_Sctno_descending {A} (key : A -> string) (Sctno : A -> Z)
    (t : list A) : list (string * Z) :=
  sort_values (descending snd)
    (map (fun g => (fst g, Zsum (map Sctno (snd g)))) (groupby key t)).

(** [medical_aids] *)
Definition medical_aids (df : DataFrame) : list string :=
  map fst (sum_Sctno_descending ma_Medical_Aid ma_Sctno (df_product_medical_aid df)).

(** [temp_top_5_products], for the selected [medical_aid]. *)
Definition temp_top_5_products (df : DataFrame) (medical_aid : string)
  : list (string * Z) :=
  head 5
    (sum_Sctno_descending ma_Item_Description ma_Sctno
       (filter (fun r => eqb (ma_Medical_Aid r) medical_aid)
               (df_product_medical_aid df))).

(** ** 4. Doctor analysis *)

Definition krmc_doctors : list string :=
  ["FERNANDES"; "CHEUNG"; "WISE"; "BOSMAN"; "OLIVIER"; "SMITH"; "ASMAL"].

(** [list.remove(x)]: takes the first [x] out, [ValueError] when there is
    none. *)
Fixpoint list_remove (v : string) (l : list string) : result (list string) :=
  match l with
  | [] => Raise ValueError
  | a :: l' =>
      if eqb a v then Ok l'
      else (l'' <- list_remove v l' ;; Ok (a :: l''))
  end.

(** [external_doctors
       = df[~df["Doctor"].isin(krmc_doctors)]["Doctor"].unique().tolist()]
    followed by [external_doctors.remove("KRMC DISPENSARY")]. *)
Definition external_doctors (df : DataFrame) : result (list string) :=
  list_remove "KRMC DISPENSARY"
    (unique (map Doctor (filter (fun r => negb (isin (Doctor r) krmc_doctors)) df))).

(** [df_external_doctors = df[df["Doctor"].isin(external_doctors)]] *)
Definition df_external_doctors (df : DataFrame) : result DataFrame :=
  ext <- external_doctors df ;;
  Ok (filter (fun r => isin (Doctor r) ext) df).

Record DoctorMonth : Type := mkDoctorMonth {
  dm_Script_Date_Month : string;
  dm_Doctor : string;
  dm_Sctno : Z
}.

(** [df_external_doctors.groupby(["Script Date Month", "Doctor"])["Sctno"]
      .count().reset_index()] *)
Definition df_external_doctors_monthly_volume (df : DataFrame)
  : result (list DoctorMonth) :=
  ext <- df_external_doctors df ;;
  Ok (map (fun g => mkDoctorMonth (fst (fst g)) (snd (fst g)) (count (snd g)))
          (groupby (fun r => (Script_Date_Month r, Doctor r)) ext)).

(** [top_5_external_doctors] *)
Definition top_5_external_doctors (df : DataFrame) : result (list string) :=
  vol <- df_external_doctors_monthly_volume df ;;
  Ok (map fst (head 5 (sum_Sctno_descending dm_Doctor dm_Sctno vol))).

(** ** Reference notions of the specification *)

(** Line-item volume: the number of rows of a product. *)
Definition line_item_volume (df : DataFrame) (item : string) : Z :=
  count (filter (fun r => eqb (Item_Description r) item) df).

(** The top 10 by total line-item volume, as the specification words it:
    the per-product totals, sorted by falling volume, one row per product,
    the first ten. *)
Definition top_10_by_total_volume (df : DataFrame) : list string :=
  map fst (head 10 (drop_duplicates fst
                      (sort_values (descending snd) (df_product_volume_exc_year df)))).

(** A payer's rows of a product. *)
Definition payer_product_rows (df : DataFrame) (medical_aid item : string)
  : DataFrame :=
  filter (fun r => eqb (Medical_Aid r) medical_aid && eqb (Item_Description r) item)
         df.

(** Line-item volume of a product for a payer: all the rows. *)
Definition payer_line_items (df : DataFrame) (medical_aid item : string) : Z :=
  count (payer_product_rows df medical_aid item).

(** Script volume of a product for a payer: the distinct script identifiers. *)
Definition script_volume (df : DataFrame) (medical_aid item : string) : Z :=
  count (unique (map Sctno (payer_product_rows df medical_aid item))).

(** Script volume the way [df_disp] counts scripts: rows that repeat a
    script identifier are dropped from the table, then rows are counted. *)
Definition script_volume_dedup (df : DataFrame) (medical_aid item : string) : Z :=
  count (payer_product_rows (drop_duplicates Sctno df) medical_aid item).

(** The distinct values of a column, for counting them. *)
Definition key_eq_dec {K} `{Key K} (a b : K) : {a = b} + {a <> b} :=
  match eqb a b as c return (eqb a b = c -> {a = b} + {a <> b}) with
  | true => fun E => left (proj1 (eqb_eq a b) E)
  | false => fun E =>
      right (fun Heq => eq_true_false_abs _ (proj2 (eqb_eq a b) Heq) E)
  end eq_refl.

Definition distinct {K} `{Key K} (l : list K) : list K := nodup key_eq_dec l.

(** What a cell of the filled grid holds: the observed count, or 0. *)
Definition cell_value (t : list DispRow) (d : date) (c : string) : Z :=
  match find (fun r => eqb (disp_index r) (d, c)) t with
  | Some r => disp_Sctno r
  | None => 0
  end.

(** ** Sample tables *)

Definition line_item (d : date) (sctno : Z) (item dispenser doctor medical_aid : string)
  : Row :=
  mkRow d sctno item 1%Q 10%Q 6%Q dispenser doctor medical_aid.

(** [n] line items of a product on one day, scripts numbered from [sctno]. *)
Fixpoint line_items (n : nat) (d : date) (sctno : Z) (item : string) : DataFrame :=
  match n with
  | O => []
  | S n' => line_item d sctno item "D1" "WISE" "CASH"
            :: line_items n' d (sctno + 1) item
  end.

(** Eleven products: [P01] to [P10] sell 3, 5, ..., 21 items, all in 2022;
    [Q] sells 2 items in 2020 and 2 in 2021. *)
Definition df_eleven_products : DataFrame :=
  line_items 3 (mkdate 2022 5 2) 100 "P01" ++
  line_items 5 (mkdate 2022 5 2) 200 "P02" ++
  line_items 7 (mkdate 2022 5 2) 300 "P03" ++
  line_items 9 (mkdate 2022 5 2) 400 "P04" ++
  line_items 11 (mkdate 2022 5 2) 500 "P05" ++
  line_items 13 (mkdate 2022 5 2) 600 "P06" ++
  line_items 15 (mkdate 2022 5 2) 700 "P07" ++
  line_items 17 (mkdate 2022 5 2) 800 "P08" ++
  line_items 19 (mkdate 2022 5 2) 900 "P09" ++
  line_items 21 (mkdate 2022 5 2) 1000 "P10" ++
  line_items 2 (mkdate 2020 5 4) 1100 "Q" ++
  line_items 2 (mkdate 2021 5 3) 1200 "Q".

(** One product sold once in every month of 2022. *)
Definition df_twelve_months : DataFrame :=
  map (fun m => line_item (mkdate 2022 m 15) m "ASPIRIN" "D1" "WISE" "CASH")
      [1; 2; 3; 4; 5; 6; 7; 8; 9; 10; 11; 12].

(** One payer, two products: three line items of one script, and two scripts
    of one line item each. *)
Definition df_one_payer : DataFrame :=
  [ line_item (mkdate 2022 3 7) 1 "ASPIRIN" "D1" "WISE" "DISCOVERY";
    line_item (mkdate 2022 3 7) 1 "ASPIRIN" "D1" "WISE" "DISCOVERY";
    line_item (mkdate 2022 3 7) 1 "ASPIRIN" "D1" "WISE" "DISCOVERY";
    line_item (mkdate 2022 3 8) 2 "PANADO" "D1" "WISE" "DISCOVERY";
    line_item (mkdate 2022 3 9) 3 "PANADO" "D1" "WISE" "DISCOVERY" ].

(** A Saturday, a Sunday and a Monday of March 2022, two dispensers. *)
Definition df_weekend : DataFrame :=
  [ line_item (mkdate 2022 3 12) 1 "ASPIRIN" "D1" "WISE" "CASH";
    line_item (mkdate 2022 3 13) 2 "ASPIRIN" "D2" "KRMC DISPENSARY" "CASH";
    line_item (mkdate 2022 3 14) 3 "PANADO" "D1" "MOLEFE" "CASH";
    line_item (mkdate 2022 3 14) 4 "PANADO" "D1" "WISE" "CASH" ].

(** ** Totals of the financial analysis *)

(** [gross_profit = df_fa["Retail"].sum() - df_fa["Cost"].sum()] *)
Definition gross_profit_total (df : DataFrame) : Q :=
  (Qsum (map Retail df) - Qsum (map Cost df))%Q.

(** ** The password gate *)

(** [st.session_state], with the two keys the script reads and writes; a
    key is present or absent. *)
Record session_state : Type := mkSession {
  password : option string;
  password_correct : option bool
}.

Inductive session_exn : Type := KeyError | TypeError.

(** What [check_password] puts on the page. *)
Inductive element : Type :=
| text_input_Password
| error_Password_incorrect.

(** A [str] is a string of the model; a character above 127 stands for what
    is not ASCII in it. *)
Definition ascii_only (s : string) : bool :=
  forallb (fun c => (N_of_ascii c <? 128)%N) (list_ascii_of_string s).

(** [hmac.compare_digest(a, b)] on two [str]: whether they are equal, a
    [TypeError] when one of them is not ASCII only. *)
Definition compare_digest (a b : string) : session_exn + bool :=
  if ascii_only a && ascii_only b then inr (String.eqb a b) else inl TypeError.

(** [password_entered()], the [on_change] callback of the text input;
    [secret] is [st.secrets["password"]]. *)
Definition password_entered (secret : string) (s : session_state)
  : session_exn + session_state :=
  match password s with
  | None => inl KeyError
  | Some p =>
      match compare_digest p secret with
      | inl e => inl e
      | inr true => inr (mkSession None (Some true))
      | inr false => inr (mkSession (Some p) (Some false))
      end
  end.

(** [check_password()]: the value returned, the elements shown and the
    session state it leaves.  A text input with [key="password"] that is shown
    holds its value under that key, the empty string at first. *)
Definition check_password (s : session_state) : bool * list element * session_state :=
  if match password_correct s with Some b => b | None => false end
  then (true, [], s)
  else
    let s' := mkSession (match password s with Some p => Some p | None => Some "" end)
                        (password_correct s) in
    (false,
     text_input_Password
       :: match password_correct s with
          | Some _ => [error_Password_incorrect]
          | None => []
          end,
     s').

(** The user types [p] into the text input: the widget's value is stored
    under its key, the callback runs, and the script runs again. *)
Definition submit (secret p : string) (s : session_state)
  : session_exn + (bool * list element * session_state) :=
  match password_entered secret (mkSession (Some p) (password_correct s)) with
  | inl e => inl e
  | inr s' => inr (check_password s')
  end.


(** ** More of the product analysis *)

(** [products]: what the product select box offers. *)
Definition products (df : DataFrame) : list string :=
  map (fun r => ps_Item_Description (fst r))
      (drop_duplicates (fun r => ps_Item_Description (fst r))
         (sort_values (descending (fun r => Volume (snd r)))
            (df_product_sales_volume df))).

(** [ascending=False] on a float column. *)
Definition descending_Q {A} (col : A -> Q) (a b : A) : bool :=
  Qle_bool (col b) (col a).

Record ProductGrossProfit : Type := mkProductGrossProfit {
  gp_Item_Description : string;
  gp_Retail : Q;
  gp_Cost : Q;
  Gross_Profit : Q
}.

(** [df_products_gross_profit]: the sums of [Retail] and [Cost] per product,
    and [Gross Profit = Retail - Cost]. *)
Definition df_products_gross_profit (df : DataFrame) : list ProductGrossProfit :=
  map (fun g =>
         let retail := Qsum (map Retail (snd g)) in
         let cost := Qsum (map Cost (snd g)) in
         mkProductGrossProfit (fst g) retail cost (retail - cost)%Q)
      (groupby Item_Description df).

(** [df_products_gross_profit_top_10] *)
Definition df_products_gross_profit_top_10 (df : DataFrame)
  : list ProductGrossProfit :=
  head 10 (sort_values (descending_Q Gross_Profit) (df_products_gross_profit df)).

(** A row of the monthly frames of one product: [V] is the type of the value
    column ([Sctno] or [Qty]); [Month] is the number [dt.month] gives. *)
Record ProductMonth (V : Type) : Type := mkProductMonth {
  pm_Script_Date_Month : string;
  pm_Item_Description : string;
  pm_value : V;
  pm_Month : Z
}.
Arguments mkProductMonth {V}.
Arguments pm_Script_Date_Month {V}.
Arguments pm_Item_Description {V}.
Arguments pm_value {V}.
Arguments pm_Month {V}.

(** The shared shape of [df_product_monthly_volume] and
    [df_product_monthly_qty]: group by (month bucket, product), aggregate, add
    the month number of the bucket. *)
Definition monthly {V} (agg : list Row -> V) (df : DataFrame) : list (ProductMonth V) :=
  map (fun g => mkProductMonth (fst (fst g)) (snd (fst g)) (agg (snd g))
                               (dt_month (fst (fst g))))
      (groupby (fun r => (Script_Date_Month r, Item_Description r)) df).

Definition df_product_monthly_volume (df : DataFrame) : list (ProductMonth Z) :=
  monthly count df.

Definition df_product_monthly_qty (df : DataFrame) : list (ProductMonth Q) :=
  monthly (fun g => Qsum (map Qty g)) df.

(** The first [temp_df] of the selected product (lines 311-313): the data
    of the "Monthly Volume" line chart, x the month bucket and y the count. *)
Definition monthly_volume_of_item (df : DataFrame) (item : string)
  : list (ProductMonth Z) :=
  filter (fun r => eqb (pm_Item_Description r) item) (df_product_monthly_volume df).

Definition product_month_key {V} (r : ProductMonth V) : Z * (string * string) :=
  (pm_Month r, (pm_Item_Description r, pm_Script_Date_Month r)).

(** [df_product_monthly_volume.merge(df_product_monthly_qty,
      on=["Month", "Item Description", "Script Date Month"])] *)
Definition df_product_monthly_volume_quantity (df : DataFrame)
  : list (ProductMonth Z * ProductMonth Q) :=
  merge product_month_key product_month_key
        (df_product_monthly_volume df) (df_product_monthly_qty df).

(** The second [temp_df] of the selected product (lines 382-385):
    [[["Month", "Sctno", "Qty"]].groupby("Month").mean().reset_index()], the
    month number with the mean volume and the mean quantity. *)
Definition monthly_average_of_item (df : DataFrame) (item : string)
  : list (Z * (Q * Q)) :=
  map (fun g => (fst g,
                 (Qmean (map (fun r => inject_Z (pm_value (fst r))) (snd g)),
                  Qmean (map (fun r => pm_value (snd r)) (snd g)))))
      (groupby (fun r => pm_Month (fst r))
         (filter (fun r => eqb (pm_Item_Description (fst r)) item)
                 (df_product_monthly_volume_quantity df))).

(** ** More of the doctor analysis *)

(** [df_int_docs_gp]: the daily gross profit of each roster doctor. *)
Record DoctorDay : Type := mkDoctorDay {
  dd_Doctor : string;
  dd_Script_Date : date;
  dd_gross_profit : Q
}.

Definition df_int_docs_gp (df : DataFrame) : list DoctorDay :=
  map (fun g => mkDoctorDay (fst (fst g)) (snd (fst g))
                            (Qsum (map gross_profit (snd g))))
      (groupby (fun r => (Doctor r, Script_Date r))
               (filter (fun r => isin (Doctor r) krmc_doctors) df)).

(** [df_int_docs_gp["gross_profit_moving_avg"]] *)
Definition doctor_gross_profit_moving_avg (dr_gp_rolling_window : nat)
    (df : DataFrame) : list (option Q) :=
  transform dd_Doctor
            (fun x => rolling_mean dr_gp_rolling_window (map dd_gross_profit x))
            None (df_int_docs_gp df).

(** [df_krmc_doctors = df[df["Doctor"] == krmc_doctor]] (line 686) *)
Definition df_krmc_doctors (df : DataFrame) (krmc_doctor : string) : DataFrame :=
  filter (fun r => eqb (Doctor r) krmc_doctor) df.

Record DoctorItem : Type := mkDoctorItem {
  di_Doctor : string;
  di_Item_Description : string;
  di_Sctno : Z
}.

(** [df_krmc_doctors_top_5]: the line items of the selected doctor per
    (doctor, product). *)
Definition df_krmc_doctors_top_5 (df : DataFrame) (krmc_doctor : string)
  : list DoctorItem :=
  map (fun g => mkDoctorItem (fst (fst g)) (snd (fst g)) (count (snd g)))
      (groupby (fun r => (Doctor r, Item_Description r))
               (df_krmc_doctors df krmc_doctor)).

(** The body of the loop [for doctor in krmc_doctors], and the last
    [temp_df] of the script (lines 778-785): the top 5 of one doctor's rows. *)
Definition doctor_top_5 (df : DataFrame) (krmc_doctor doctor : string)
  : list (string * Z) :=
  head 5
    (sum_Sctno_descending di_Item_Description di_Sctno
       (filter (fun r => eqb (di_Doctor r) doctor)
               (df_krmc_doctors_top_5 df krmc_doctor))).

(** [doctor_items_dict]: the loop assigns one entry per roster doctor. *)
Definition doctor_items_dict (df : DataFrame) (krmc_doctor : string)
  : list (string * list string) :=
  map (fun doctor => (doctor, map fst (doctor_top_5 df krmc_doctor doctor)))
      krmc_doctors.

(** [dict.get(key, default)] *)
Definition dict_get {V} (d : list (string * V)) (key : string) (default : V) : V :=
  match find (fun kv => eqb (fst kv) key) d with
  | Some kv => snd kv
  | None => default
  end.

(** [df_int_docs_ma] after its first [groupby]: the line items of a roster
    doctor per (month bucket, doctor, product), with the month number of the
    bucket. *)
Record DoctorBucket : Type := mkDoctorBucket {
  db_Script_Date_Month : string;
  db_Doctor : string;
  db_Item_Description : string;
  db_Sctno : Z;
  db_Month : Z
}.

Definition df_int_docs_ma_buckets (df : DataFrame) : list DoctorBucket :=
  map (fun g =>
         let sdm := fst (fst g) in
         mkDoctorBucket sdm (fst (snd (fst g))) (snd (snd (fst g)))
                        (count (snd g)) (dt_month sdm))
      (groupby (fun r => (Script_Date_Month r, (Doctor r, Item_Description r)))
               (filter (fun r => isin (Doctor r) krmc_doctors) df)).

(** A row of [df_int_docs_ma] after its second [groupby]; [M] is the type of
    the [Month] column, a number and then a label. *)
Record DoctorMonthMean (M : Type) : Type := mkDoctorMonthMean {
  dmm_Month : M;
  dmm_Doctor : string;
  dmm_Item_Description : string;
  dmm_Sctno : Q
}.
Arguments mkDoctorMonthMean {M}.
Arguments dmm_Month {M}.
Arguments dmm_Doctor {M}.
Arguments dmm_Item_Description {M}.
Arguments dmm_Sctno {M}.

(** [df_int_docs_ma]: the mean count per (month number, doctor, product),
    sorted by [["Doctor", "Month"]], the month number replaced by its label. *)
Definition df_int_docs_ma (df : DataFrame) : list (DoctorMonthMean string) :=
  map (fun r => mkDoctorMonthMean (month_label (dmm_Month r)) (dmm_Doctor r)
                                  (dmm_Item_Description r) (dmm_Sctno r))
      (sort_values (ascending (fun r => (dmm_Doctor r, dmm_Month r)))
         (map (fun g =>
                 mkDoctorMonthMean (fst (fst g)) (fst (snd (fst g)))
                   (snd (snd (fst g)))
                   (Qmean (map (fun b => inject_Z (db_Sctno b)) (snd g))))
              (groupby (fun b => (db_Month b, (db_Doctor b, db_Item_Description b)))
                       (df_int_docs_ma_buckets df)))).

Record ItemMonth : Type := mkItemMonth {
  im_Item_Description : string;
  im_Month : string;
  im_Sctno : Q
}.

(** The categories of [pd.Categorical(..., ordered=True)]. *)
Definition month_categories : list string :=
  ["Jan"; "Feb"; "Mar"; "Apr"; "May"; "Jun";
   "Jul"; "Aug"; "Sep"; "Oct"; "Nov"; "Dec"].

(** The code of a value in a categorical column: its place among the
    categories, no code for a value that is not a category. *)
Fixpoint category_code (categories : list string) (v : string) : option nat :=
  match categories with
  | [] => None
  | c :: categories' =>
      if eqb v c then Some O
      else option_map S (category_code categories' v)
  end.

(** The order [sort_values] uses on a categorical column: by code, the
    values without a code last. *)
Definition codes_leb (a b : option nat) : bool :=
  match a, b with
  | Some i, Some j => (i <=? j)%nat
  | Some _, None => true
  | None, Some _ => false
  | None, None => true
  end.

(** The frame of the "Top 5 Products by Month" line chart:
    [temp_df.sort_values(by=["Month"])] with [Month] categorical. *)
Definition top_5_products_by_month (df : DataFrame) (krmc_doctor : string)
  : list ItemMonth :=
  sort_values
    (fun a b => codes_leb (category_code month_categories (im_Month a))
                          (category_code month_categories (im_Month b)))
    (filter (fun r => isin (im_Item_Description r)
                           (dict_get (doctor_items_dict df krmc_doctor) krmc_doctor []))
       (map (fun g => mkItemMonth (fst (fst g)) (snd (fst g))
                                  (Qsum (map dmm_Sctno (snd g))))
            (groupby (fun r => (dmm_Item_Description r, dmm_Month r))
                     (filter (fun r => eqb (dmm_Doctor r) krmc_doctor)
                             (df_int_docs_ma df))))).

(** * Properties *)

(** ** Keys *)

Lemma eqb_refl {K} `{Key K} (a : K) : eqb a a = true.
Proof. apply eqb_eq. reflexivity. Qed.

Lemma eqb_neq {K} `{Key K} (a b : K) : eqb a b = false <-> a <> b.
Proof.
  split.
  - intros E Heq. apply eqb_eq in Heq. congruence.
  - intros Hne. destruct (eqb a b) eqn:E; [ | reflexivity ].
    apply eqb_eq in E. contradiction.
Qed.

Lemma eqb_sym {K} `{Key K} (a b : K) : eqb a b = eqb b a.
Proof.
  destruct (eqb a b) eqn:E1, (eqb b a) eqn:E2; try reflexivity.
  - apply eqb_eq in E1. subst. rewrite eqb_refl in E2. discriminate.
  - apply eqb_eq in E2. subst. rewrite eqb_refl in E1. discriminate.
Qed.

Lemma Qlt_bool_iff (a b : Q) : Qlt_bool a b = true <-> (a < b)%Q.
Proof.
  unfold Qlt_bool. rewrite negb_true_iff. split.
  - intros E. apply Qnot_le_lt. intros Hle.
    apply Qle_bool_iff in Hle. congruence.
  - intros Hlt. destruct (Qle_bool b a) eqn:E; [ | reflexivity ].
    apply Qle_bool_iff in E. exfalso. apply (Qlt_not_le _ _ Hlt E).
Qed.

(** ** [sort_values] *)

Section SortValues.
Context {A : Type} (le : A -> A -> bool).

Lemma insert_sorted_perm (a : A) (l : list A) :
  Permutation (insert_sorted le a l) (a :: l).
Proof.
  induction l as [ | b l IH ]; simpl.
  - apply Permutation_refl.
  - destruct (le a b).
    + apply Permutation_refl.
    + apply perm_trans with (b :: a :: l).
      * apply perm_skip. exact IH.
      * apply perm_swap.
Qed.

Lemma sort_values_perm (l : list A) : Permutation (sort_values le l) l.
Proof.
  induction l as [ | a l IH ]; simpl.
  - apply perm_nil.
  - apply perm_trans with (a :: sort_values le l).
    + apply insert_sorted_perm.
    + apply perm_skip. exact IH.
Qed.

Lemma sort_values_In (a : A) (l : list A) : In a (sort_values le l) <-> In a l.
Proof.
  split; apply Permutation_in.
  - apply sort_values_perm.
  - apply Permutation_sym, sort_values_perm.
Qed.

Lemma sort_values_length (l : list A) : length (sort_values le l) = length l.
Proof. apply Permutation_length, sort_values_perm. Qed.

Lemma sort_values_NoDup (l : list A) : NoDup l -> NoDup (sort_values le l).
Proof.
  intros Hnd. eapply Permutation_NoDup; [ | exact Hnd ].
  apply Permutation_sym, sort_values_perm.
Qed.

Hypothesis le_total : forall a b, le a b = true \/ le b a = true.
Hypothesis le_trans : forall a b c, le a b = true -> le b c = true -> le a c = true.

Lemma insert_sorted_sorted (a : A) (l : list A) :
  StronglySorted (fun u v => le u v = true) l ->
  StronglySorted (fun u v => le u v = true) (insert_sorted le a l).
Proof.
  induction 1 as [ | b l Hs IH Hb ]; simpl.
  - constructor; constructor.
  - destruct (le a b) eqn:E.
    + constructor.
      * constructor; assumption.
      * constructor; [ exact E | ].
        rewrite Forall_forall in *. intros c Hc.
        apply le_trans with b; auto.
    + constructor; [ exact IH | ].
      rewrite Forall_forall in *. intros c Hc.
      apply (Permutation_in _ (insert_sorted_perm a l)) in Hc.
      destruct Hc as [ <- | Hc ]; [ | auto ].
      destruct (le_total a b) as [ Hab | Hba ]; congruence.
Qed.

Lemma sort_values_sorted (l : list A) :
  StronglySorted (fun u v => le u v = true) (sort_values le l).
Proof.
  induction l as [ | a l IH ]; simpl.
  - constructor.
  - apply insert_sorted_sorted. exact IH.
Qed.

End SortValues.

(** ** [unique] and [groupby] *)

Section GroupBy.
Context {A K : Type} `{Key K}.

Lemma unique_In (k : K) (l : list K) : In k (unique l) <-> In k l.
Proof.
  induction l as [ | a l IH ]; simpl.
  - reflexivity.
  - rewrite filter_In, IH, negb_true_iff, eqb_neq.
    destruct (key_eq_dec a k) as [ -> | Hne ].
    + intuition.
    + split.
      * intros [ E | [ Hin _ ] ]; auto.
      * intros [ E | Hin ]; [ contradiction | ]. right. split; congruence.
Qed.

Lemma unique_NoDup (l : list K) : NoDup (unique l).
Proof.
  induction l as [ | a l IH ]; simpl.
  - constructor.
  - constructor.
    + rewrite filter_In, eqb_refl. simpl. intros [ _ E ]. discriminate.
    + apply NoDup_filter. exact IH.
Qed.

Lemma groupby_keys (key : A -> K) (df : list A) :
  map fst (groupby key df) = sort_values leb (unique (map key df)).
Proof.
  unfold groupby. rewrite map_map. simpl. apply map_id.
Qed.

Lemma groupby_In (key : A -> K) (df : list A) (k : K) (g : list A) :
  In (k, g) (groupby key df) <->
  In k (map key df) /\ g = filter (fun r => eqb (key r) k) df.
Proof.
  unfold groupby. rewrite in_map_iff. split.
  - intros (k' & E & Hin). inversion E; subst.
    rewrite sort_values_In, unique_In in Hin. auto.
  - intros [ Hin -> ]. exists k. split; [ reflexivity | ].
    rewrite sort_values_In, unique_In. exact Hin.
Qed.

Lemma groupby_NoDup (key : A -> K) (df : list A) :
  NoDup (map fst (groupby key df)).
Proof.
  rewrite groupby_keys. apply sort_values_NoDup, unique_NoDup.
Qed.

Lemma groupby_group_nonempty (key : A -> K) (df : list A) (k : K) (g : list A) :
  In (k, g) (groupby key df) -> (0 < length g)%nat.
Proof.
  rewrite groupby_In, in_map_iff. intros [ (r & <- & Hin) -> ].
  assert (Hr : In r (filter (fun r' => eqb (key r') (key r)) df)).
  { apply filter_In. split; [ exact Hin | apply eqb_refl ]. }
  destruct (filter _ df); [ contradiction | simpl; lia ].
Qed.

(** A frame that holds each key once has one-row groups. *)
Lemma filter_key_NoDup (key : A -> K) (df : list A) (r : A) :
  NoDup (map key df) -> In r df ->
  filter (fun r' => eqb (key r') (key r)) df = [r].
Proof.
  induction df as [ | a df IH ]; simpl; [ contradiction | ].
  intros Hnd Hin. inversion Hnd as [ | ? ? Hnotin Hnd' ]; subst.
  destruct Hin as [ -> | Hin ].
  - rewrite eqb_refl. f_equal.
    clear IH Hnd Hnd'. induction df as [ | b df IHdf ]; simpl; [ reflexivity | ].
    destruct (eqb (key b) (key r)) eqn:E.
    + apply eqb_eq in E. exfalso. apply Hnotin. simpl. left. exact E.
    + apply IHdf. intros Hin. apply Hnotin. simpl. right. exact Hin.
  - destruct (eqb (key a) (key r)) eqn:E.
    + apply eqb_eq in E. exfalso. apply Hnotin. rewrite E.
      apply in_map. exact Hin.
    + apply IH; assumption.
Qed.

End GroupBy.

(** ** The outlier filter *)

(** C6: after cleaning every row has a retail amount strictly below 65000;
    the cleaned table holds exactly the raw rows below the bound; a row with
    retail 70000 is in no cleaned table, and any aggregate computed from the
    cleaned table is the same with or without such a row in the raw table; a
    raw row with retail 64999.99 is kept. *)
Theorem retail_below_65000_after_cleaning (raw : DataFrame) :
  (forall r, In r (df_clean raw) <-> In r raw /\ (Retail r < 65000)%Q) /\
  (forall r, (Retail r == 70000)%Q -> ~ In r (df_clean raw)) /\
  (forall r pre post (T : Type) (aggregate : DataFrame -> T),
      (Retail r == 70000)%Q -> raw = pre ++ r :: post ->
      aggregate (df_clean raw) = aggregate (df_clean (pre ++ post))) /\
  (forall r, In r raw -> (Retail r == 6499999 # 100)%Q -> In r (df_clean raw)).
Proof.
  assert (Hin : forall r, In r (df_clean raw) <-> In r raw /\ (Retail r < 65000)%Q).
  { intros r. unfold df_clean. rewrite filter_In, Qlt_bool_iff. reflexivity. }
  split; [ exact Hin | ].
  split; [ | split ].
  - intros r E Hr. apply Hin in Hr. destruct Hr as [ _ Hlt ].
    rewrite E in Hlt. revert Hlt. unfold Qlt. simpl. lia.
  - intros r pre post T aggregate E ->. f_equal.
    unfold df_clean. rewrite !filter_app. simpl.
    destruct (Qlt_bool (Retail r) 65000) eqn:Hb; [ | reflexivity ].
    apply Qlt_bool_iff in Hb. rewrite E in Hb.
    revert Hb. unfold Qlt. simpl. lia.
  - intros r Hr E. apply Hin. split; [ exact Hr | ].
    rewrite E. unfold Qlt. simpl. lia.
Qed.

(** ** Opening hours and the rate of scripts *)

Lemma weekday_range (d : date) : 0 <= weekday d <= 6.
Proof. unfold weekday. pose proof (Z.mod_pos_bound (toordinal d + 6) 7). lia. Qed.

Lemma with_rate_of_scripts_filter (t : list HoursRow) :
  open_days (with_rate_of_scripts t) = with_rate_of_scripts (drop_zero_hours t).
Proof.
  induction t as [ | r t IH ]; simpl; [ reflexivity | ].
  unfold open_days, drop_zero_hours in *. simpl.
  destruct (no_of_hours_open r =? 0); simpl; rewrite IH; reflexivity.
Qed.

Lemma df_disp_divided_In (df : DataFrame) (r : RateRow) :
  In r (df_disp_divided df) <->
  exists row, In row (df_disp df) /\
    r = mkRateRow (mkHoursRow row (calculate_hours_open row))
                  (true_divide (disp_Sctno row) (calculate_hours_open row)).
Proof.
  unfold df_disp_divided, with_rate_of_scripts, with_no_of_hours_open.
  rewrite map_map, in_map_iff. simpl. split.
  - intros (row & <- & Hin). exists row. auto.
  - intros (row & Hin & ->). exists row. auto.
Qed.

Lemma df_disp_Sctno_pos (df : DataFrame) (row : DispRow) :
  In row (df_disp df) -> 1 <= disp_Sctno row.
Proof.
  unfold df_disp. rewrite in_map_iff. intros ([ k g ] & <- & Hin). simpl.
  apply groupby_group_nonempty in Hin. unfold count. lia.
Qed.

Lemma calculate_hours_open_values (row : DispRow) :
  calculate_hours_open row = 0 \/ calculate_hours_open row = 4 \/
  calculate_hours_open row = 9 \/ calculate_hours_open row = 11.
Proof.
  unfold calculate_hours_open.
  destruct (weekday (disp_Script_Date row) =? 6); [ auto | ].
  destruct (weekday (disp_Script_Date row) =? 5); [ auto | ].
  destruct (year (disp_Script_Date row) <? 2023); auto.
Qed.

(** C7: the hours a row is given depend on its date alone; a Sunday gives 0
    and the row is in no frame the rate is averaged over; a Saturday gives 4
    whatever the year; a weekday gives 9 before 2023 and 11 from 2023 on. *)
Theorem calculate_hours_open_rule (row : DispRow) :
  let d := disp_Script_Date row in
  (forall row', disp_Script_Date row' = d ->
                calculate_hours_open row' = calculate_hours_open row) /\
  (weekday d = 6 ->
   calculate_hours_open row = 0 /\
   forall df r, In r (df_disp_open df) -> hours_row (rate_row r) <> row) /\
  (weekday d = 5 -> calculate_hours_open row = 4) /\
  (0 <= weekday d <= 4 -> year d < 2023 -> calculate_hours_open row = 9) /\
  (0 <= weekday d <= 4 -> 2023 <= year d -> calculate_hours_open row = 11).
Proof.
  simpl. unfold calculate_hours_open.
  split; [ | split; [ | split; [ | split ] ] ].
  - intros row' ->. reflexivity.
  - intros Hw. rewrite Hw. simpl. split; [ reflexivity | ].
    intros df r Hr E. unfold df_disp_open, open_days in Hr.
    apply filter_In in Hr. destruct Hr as [ Hr Hnz ].
    apply df_disp_divided_In in Hr. destruct Hr as (row0 & _ & ->).
    simpl in *. subst row0. unfold calculate_hours_open in Hnz.
    rewrite Hw in Hnz. discriminate.
  - intros Hw. rewrite Hw. reflexivity.
  - intros Hw Hy.
    destruct (Z.eqb_spec (weekday (disp_Script_Date row)) 6); [ lia | ].
    destruct (Z.eqb_spec (weekday (disp_Script_Date row)) 5); [ lia | ].
    destruct (Z.ltb_spec (year (disp_Script_Date row)) 2023); [ reflexivity | lia ].
  - intros Hw Hy.
    destruct (Z.eqb_spec (weekday (disp_Script_Date row)) 6); [ lia | ].
    destruct (Z.eqb_spec (weekday (disp_Script_Date row)) 5); [ lia | ].
    destruct (Z.ltb_spec (year (disp_Script_Date row)) 2023); [ lia | reflexivity ].
Qed.

(** The week of Monday 7 March 2022 and the week of Monday 6 March 2023. *)
Example hours_open_week_2022 :
  map (fun d => calculate_hours_open (mkDispRow (mkdate 2022 3 d) "D1" 1))
      [7; 8; 9; 10; 11; 12; 13] = [9; 9; 9; 9; 9; 4; 0].
Proof. reflexivity. Qed.

Example hours_open_week_2023 :
  map (fun d => calculate_hours_open (mkDispRow (mkdate 2023 3 d) "D1" 1))
      [6; 7; 8; 9; 10; 11; 12] = [11; 11; 11; 11; 11; 4; 0].
Proof. reflexivity. Qed.

(** C10: the published per-dispenser mean of scripts per hour is the same
    whether the rows without opening hours are dropped after the division
    (the script's order) or before it. *)
Theorem df_disp_sr_mean_order_irrelevant (df : DataFrame) :
  df_disp_sr_mean df = df_disp_sr_mean_drop_first df.
Proof.
  unfold df_disp_sr_mean, df_disp_sr_mean_drop_first, df_disp_open, df_disp_divided.
  rewrite with_rate_of_scripts_filter. reflexivity.
Qed.

Lemma float_sum_finite (l : list float64) :
  Forall (fun v => exists q, v = Finite q) l ->
  forall a, exists s, fold_left float_add l (Finite a) = Finite s.
Proof.
  induction 1 as [ | v l (q & ->) _ IH ]; intros a; simpl.
  - exists a. reflexivity.
  - apply IH.
Qed.

Lemma float_mean_finite (l : list float64) :
  Forall (fun v => exists q, v = Finite q) l -> exists m, float_mean l = Finite m.
Proof.
  intros Hl. unfold float_mean.
  destruct (float_sum_finite l Hl 0%Q) as (s & ->). eexists. reflexivity.
Qed.

(** C2, as the script has it: the division runs on every row of the daily
    counts, the rows without opening hours included, where it yields an
    infinity and raises nothing; those rows are dropped after the division
    and before the mean, so every rate that is averaged is a finite quotient
    by 4, 9 or 11 hours and every published mean is finite. *)
Theorem zero_hours_dropped_after_division (df : DataFrame) :
  length (df_disp_divided df) = length (df_disp df) /\
  (forall r, In r (df_disp_divided df) ->
     no_of_hours_open (rate_row r) = 0 -> rate_of_scripts r = PosInf) /\
  (forall r, In r (df_disp_open df) <->
     In r (df_disp_divided df) /\ no_of_hours_open (rate_row r) <> 0) /\
  (forall r, In r (df_disp_open df) ->
     let h := no_of_hours_open (rate_row r) in
     (h = 4 \/ h = 9 \/ h = 11) /\
     rate_of_scripts r =
       Finite (inject_Z (disp_Sctno (hours_row (rate_row r))) / inject_Z h)%Q) /\
  (forall d v, In (d, v) (df_disp_sr_mean df) -> exists q, v = Finite q).
Proof.
  assert (Hopen : forall r, In r (df_disp_open df) <->
            In r (df_disp_divided df) /\ no_of_hours_open (rate_row r) <> 0).
  { intros r. unfold df_disp_open, open_days.
    rewrite filter_In, negb_true_iff, Z.eqb_neq. reflexivity. }
  assert (Hfin : forall r, In r (df_disp_open df) ->
            let h := no_of_hours_open (rate_row r) in
            (h = 4 \/ h = 9 \/ h = 11) /\
            rate_of_scripts r =
              Finite (inject_Z (disp_Sctno (hours_row (rate_row r))) / inject_Z h)%Q).
  { intros r Hr. apply Hopen in Hr. destruct Hr as [ Hr Hnz ].
    apply df_disp_divided_In in Hr. destruct Hr as (row & _ & ->).
    simpl in *. split.
    - destruct (calculate_hours_open_values row) as [ E | E ]; [ contradiction | exact E ].
    - unfold true_divide. apply Z.eqb_neq in Hnz. rewrite Hnz. reflexivity. }
  split; [ | split; [ | split; [ exact Hopen | split; [ exact Hfin | ] ] ] ].
  - unfold df_disp_divided, with_rate_of_scripts, with_no_of_hours_open.
    rewrite !length_map. reflexivity.
  - intros r Hr Hz. apply df_disp_divided_In in Hr.
    destruct Hr as (row & Hrow & ->). simpl in *.
    apply df_disp_Sctno_pos in Hrow. unfold true_divide. rewrite Hz. simpl.
    destruct (Z.eqb_spec (disp_Sctno row) 0); [ lia | ].
    destruct (Z.ltb_spec 0 (disp_Sctno row)); [ reflexivity | lia ].
  - intros d v Hin. unfold df_disp_sr_mean, mean_rate_by_dispenser in Hin.
    apply in_map_iff in Hin. destruct Hin as ([ k g ] & E & Hg).
    inversion E; subst. simpl. apply float_mean_finite.
    apply groupby_In in Hg. destruct Hg as [ _ -> ].
    rewrite Forall_forall. intros v Hv. apply in_map_iff in Hv.
    destruct Hv as (r & <- & Hr). apply filter_In in Hr.
    destruct Hr as [ Hr _ ]. apply Hfin in Hr. destruct Hr as [ _ -> ].
    eexists. reflexivity.
Qed.

(** C2 does not hold as worded: the division of line 222 does meet a row
    without opening hours, the Sunday row of [df_weekend] is divided by 0. *)
Lemma division_meets_zero_hours :
  ~ (forall r, In r (df_disp_divided df_weekend) ->
               no_of_hours_open (rate_row r) <> 0).
Proof.
  intros Hall.
  apply (Hall (mkRateRow (mkHoursRow (mkDispRow (mkdate 2022 3 13) "D2" 1) 0) PosInf)).
  - vm_compute. right. left. reflexivity.
  - reflexivity.
Qed.

(** ** The external doctors *)

Lemma list_remove_raises (v : string) (l : list string) :
  (exists e, list_remove v l = Raise e) <-> ~ In v l.
Proof.
  induction l as [ | a l IH ]; simpl.
  - split; [ tauto | ]. intros _. exists ValueError. reflexivity.
  - destruct (String.eqb_spec a v) as [ E | E ].
    + subst a. split.
      * intros (e & He). discriminate.
      * intros Hn. exfalso. apply Hn. left. reflexivity.
    + split.
      * intros (e & He) [ Heq | Hin ]; [ contradiction | ].
        apply IH; [ | exact Hin ].
        destruct (list_remove v l); simpl in He; [ discriminate | ].
        eexists. reflexivity.
      * intros Hn. destruct IH as [ _ IH ].
        destruct IH as (e & He); [ tauto | ].
        exists e. rewrite He. reflexivity.
Qed.

Lemma list_remove_Ok (v : string) (l l' : list string) :
  NoDup l -> list_remove v l = Ok l' ->
  forall a, In a l' <-> In a l /\ a <> v.
Proof.
  revert l'. induction l as [ | b l IH ]; simpl; intros l' Hnd E a.
  - discriminate.
  - inversion Hnd as [ | ? ? Hnotin Hnd' ]; subst.
    destruct (String.eqb_spec b v) as [ Hb | Hb ].
    + subst b. inversion E; subst l'. split.
      * intros Hin. split; [ right; exact Hin | ].
        intros ->. contradiction.
      * intros [ [ Heq | Hin ] Hne ]; [ congruence | exact Hin ].
    + destruct (list_remove v l) as [ l'' | e ] eqn:Hr; simpl in E; [ | discriminate ].
      inversion E; subst l'. simpl. rewrite (IH l'' Hnd' eq_refl a). split.
      * intros [ <- | [ Hin Hne ] ]; [ split; [ left; reflexivity | exact Hb ] | ].
        split; [ right; exact Hin | exact Hne ].
      * intros [ [ Heq | Hin ] Hne ]; [ left; exact Heq | right; split; assumption ].
Qed.

Lemma isin_In {K} `{Key K} (k : K) (values : list K) :
  isin k values = true <-> In k values.
Proof.
  unfold isin. rewrite existsb_exists. split.
  - intros (a & Hin & E). apply eqb_eq in E. subst a. exact Hin.
  - intros Hin. exists k. split; [ exact Hin | apply eqb_refl ].
Qed.

Lemma not_roster_doctors_In (df : DataFrame) (d : string) :
  In d (unique (map Doctor (filter (fun r => negb (isin (Doctor r) krmc_doctors)) df)))
  <-> ~ In d krmc_doctors /\ exists r, In r df /\ Doctor r = d.
Proof.
  rewrite unique_In, in_map_iff. split.
  - intros (r & <- & Hr). apply filter_In in Hr. destruct Hr as [ Hr Hb ].
    apply negb_true_iff in Hb. split; [ | exists r; auto ].
    intros Hin. apply isin_In in Hin. congruence.
  - intros [ Hn (r & Hr & <-) ]. exists r. split; [ reflexivity | ].
    apply filter_In. split; [ exact Hr | ].
    apply negb_true_iff. destruct (isin (Doctor r) krmc_doctors) eqn:E; [ | reflexivity ].
    apply isin_In in E. contradiction.
Qed.

(** C9: building the list of external doctors raises exactly when no row of
    the table has the doctor "KRMC DISPENSARY"; the exception reaches every
    later frame of the doctor module that is built from the list.  When it is
    not raised the list holds the doctors of the table that are neither on the
    roster nor the dispensary. *)
Theorem external_doctors_raises_iff (df : DataFrame) :
  ((exists e, external_doctors df = Raise e) <->
   ~ exists r, In r df /\ Doctor r = "KRMC DISPENSARY") /\
  (forall e, external_doctors df = Raise e ->
     df_external_doctors df = Raise e /\
     df_external_doctors_monthly_volume df = Raise e /\
     top_5_external_doctors df = Raise e) /\
  (forall l, external_doctors df = Ok l ->
     forall d, In d l <->
       d <> "KRMC DISPENSARY" /\ ~ In d krmc_doctors /\
       exists r, In r df /\ Doctor r = d).
Proof.
  unfold external_doctors. split; [ | split ].
  - rewrite list_remove_raises, not_roster_doctors_In. split.
    + intros Hn Hex. apply Hn. split; [ | exact Hex ].
      unfold krmc_doctors. simpl. intros Hin.
      repeat (destruct Hin as [ Hin | Hin ]; [ discriminate Hin | ]).
      exact Hin.
    + intros Hn [ _ Hex ]. exact (Hn Hex).
  - intros e He.
    unfold top_5_external_doctors, df_external_doctors_monthly_volume,
      df_external_doctors, external_doctors.
    rewrite He. simpl. auto.
  - intros l Hl d.
    rewrite (list_remove_Ok _ _ _ (unique_NoDup _) Hl d), not_roster_doctors_In.
    tauto.
Qed.

(** ** The product charts on the sample tables *)

(** C1, on [df_eleven_products]: the script's list is the ten products with
    the largest volume in a single year.  [Q], whose total volume 4 is the
    tenth largest, is left out, and [P01], whose total volume 3 is the
    smallest of the eleven, is in the list and in the chart's data. *)
Theorem top_10_products_on_eleven_products :
  top_10_products df_eleven_products =
    ["P10"; "P09"; "P08"; "P07"; "P06"; "P05"; "P04"; "P03"; "P02"; "P01"] /\
  top_10_by_total_volume df_eleven_products =
    ["P10"; "P09"; "P08"; "P07"; "P06"; "P05"; "P04"; "P03"; "P02"; "Q"] /\
  line_item_volume df_eleven_products "Q" = 4 /\
  line_item_volume df_eleven_products "P01" = 3 /\
  map (fun r => ps_Item_Description (fst r))
      (df_product_sales_volume_top_10 df_eleven_products) =
    ["P01"; "P02"; "P03"; "P04"; "P05"; "P06"; "P07"; "P08"; "P09"; "P10"].
Proof. vm_compute. repeat split; reflexivity. Qed.

(** C3, on [df_twelve_months]: the traces of 2022 carry their month labels
    in the alphabetical order of the labels, not from Jan to Dec. *)
Theorem year_comparison_traces_on_twelve_months :
  map scatter_x (year_comparison_traces df_twelve_months "ASPIRIN" ["2022"]) =
    [ ["Apr"; "Aug"; "Dec"; "Feb"; "Jan"; "Jul"; "Jun"; "Mar"; "May"; "Nov";
       "Oct"; "Sep"];
      ["Apr"; "Aug"; "Dec"; "Feb"; "Jan"; "Jul"; "Jun"; "Mar"; "May"; "Nov";
       "Oct"; "Sep"] ] /\
  map (fun r => (m_Year r, m_Month r)) (df_product_monthly_volume_year df_twelve_months) =
    map (fun m => ("2022", month_label m)) [1; 2; 3; 4; 5; 6; 7; 8; 9; 10; 11; 12].
Proof. vm_compute. split; reflexivity. Qed.

(** C4 does not hold as worded: on [df_one_payer] the chart ranks ASPIRIN
    (3 line items of 1 script) above PANADO (2 line items of 2 scripts), so
    neither the values nor the order are those of the script volume. *)
Lemma top_5_products_not_by_script_volume :
  let out := temp_top_5_products df_one_payer "DISCOVERY" in
  ~ (forall p v, In (p, v) out -> v = script_volume df_one_payer "DISCOVERY" p) /\
  ~ (forall p v, In (p, v) out -> v = script_volume_dedup df_one_payer "DISCOVERY" p) /\
  ~ StronglySorted (fun a b => script_volume df_one_payer "DISCOVERY" (fst b)
                               <= script_volume df_one_payer "DISCOVERY" (fst a)) out.
Proof.
  assert (E : temp_top_5_products df_one_payer "DISCOVERY" = [("ASPIRIN", 3); ("PANADO", 2)])
    by (vm_compute; reflexivity).
  simpl. rewrite E. split; [ | split ].
  - intros Hall. specialize (Hall "ASPIRIN" 3 (or_introl eq_refl)).
    vm_compute in Hall. discriminate.
  - intros Hall. specialize (Hall "ASPIRIN" 3 (or_introl eq_refl)).
    vm_compute in Hall. discriminate.
  - intros Hs. inversion Hs as [ | ? ? _ Hhd ]; subst.
    inversion Hhd as [ | ? ? Hle _ ]; subst.
    vm_compute in Hle. apply Hle. reflexivity.
Qed.

(** ** The rolling mean *)

Lemma Qsum_from (l : list Q) (a : Q) : (fold_left Qplus l a == a + Qsum l)%Q.
Proof.
  unfold Qsum. revert a. induction l as [ | b l IH ]; intros a; simpl.
  - ring.
  - rewrite (IH (a + b)%Q), (IH (0 + b)%Q). ring.
Qed.

Lemma Qsum_cons (a : Q) (l : list Q) : (Qsum (a :: l) == a + Qsum l)%Q.
Proof. unfold Qsum at 1. simpl. rewrite Qsum_from. ring. Qed.

Lemma Qsum_snoc (l : list Q) (a : Q) : Qsum (l ++ [a]) = (Qsum l + a)%Q.
Proof. unfold Qsum. rewrite fold_left_app. reflexivity. Qed.

(** One step of the loop once the window is full, and while it fills. *)
Lemma roll_mean_full (w : nat) (a b : Q) (incoming outgoing : list Q)
    (i : nat) (sum_x : Q) (nobs : nat) :
  (w <= i)%nat ->
  roll_mean w (a :: incoming) (b :: outgoing) i sum_x nobs =
  (if (w <=? nobs)%nat
   then Some ((sum_x + a - b) / inject_Z (Z.of_nat nobs))%Q else None)
  :: roll_mean w incoming outgoing (S i) (sum_x + a - b)%Q nobs.
Proof.
  intros Hi. apply Nat.leb_le in Hi. cbn [roll_mean]. rewrite Hi. reflexivity.
Qed.

Lemma roll_mean_filling (w : nat) (a : Q) (incoming outgoing : list Q)
    (i : nat) (sum_x : Q) (nobs : nat) :
  (i < w)%nat ->
  roll_mean w (a :: incoming) outgoing i sum_x nobs =
  (if (w <=? S nobs)%nat
   then Some ((sum_x + a) / inject_Z (Z.of_nat (S nobs)))%Q else None)
  :: roll_mean w incoming outgoing (S i) (sum_x + a)%Q (S nobs).
Proof.
  intros Hi. apply Nat.leb_gt in Hi. cbn [roll_mean]. rewrite Hi. reflexivity.
Qed.

Lemma roll_mean_length (w : nat) (incoming : list Q) :
  forall outgoing i sum_x nobs,
    length (roll_mean w incoming outgoing i sum_x nobs) = length incoming.
Proof.
  induction incoming as [ | a incoming IH ]; intros outgoing i sum_x nobs.
  - reflexivity.
  - cbn [roll_mean].
    destruct (w <=? i)%nat; [ destruct outgoing | ]; cbn [length];
      rewrite IH; reflexivity.
Qed.

Lemma firstn_exact {A} (l r : list A) : firstn (length l) (l ++ r) = l.
Proof.
  rewrite firstn_app, firstn_all, Nat.sub_diag. simpl. apply app_nil_r.
Qed.

Lemma skipn_exact {A} (l r : list A) : skipn (length l) (l ++ r) = r.
Proof.
  rewrite skipn_app, skipn_all, Nat.sub_diag. reflexivity.
Qed.

(** The loop's invariant: the series read so far is [pre ++ win], the window
    is [win], it is full as soon as something has left it, and [sum_x] is its
    sum.  Then the [j]-th value still to come, at place [i] of the series, is
    undefined while [i + 1 < w], and the mean of the [w] values that end at
    place [i] afterwards. *)
Lemma roll_mean_window (w : nat) (Hw : (1 <= w)%nat) (rest : list Q) :
  forall (pre win : list Q) (sum_x : Q) (j : nat),
    (length win <= w)%nat ->
    (pre = [] \/ length win = w) ->
    (sum_x == Qsum win)%Q ->
    (j < length rest)%nat ->
    let i := (length pre + length win + j)%nat in
    let out := roll_mean w rest (win ++ rest) (length pre + length win)
                         sum_x (length win) in
    ((i + 1 < w)%nat -> nth_error out j = Some None) /\
    ((w <= i + 1)%nat ->
     exists q, nth_error out j = Some (Some q) /\
               (q == Qmean (firstn w (skipn (i + 1 - w) (pre ++ win ++ rest))))%Q).
Proof.
  induction rest as [ | a rest IH ]; intros pre win sum_x j Hlen Hfull Hsum Hj;
    cbn [length] in Hj; [ lia | ].
  cbv zeta.
  destruct (Nat.le_gt_cases w (length pre + length win)) as [ Hge | Hlt ].
  - (* the window is full: its oldest value leaves *)
    assert (Hwin : length win = w) by (destruct Hfull as [ -> | ]; cbn [length] in *; lia).
    destruct win as [ | b win ]; [ cbn [length] in Hwin; lia | ].
    assert (Hnew : length (win ++ [a]) = w).
    { rewrite length_app. cbn [length] in *. lia. }
    assert (Hsum' : (sum_x + a - b == Qsum (win ++ [a]))%Q).
    { rewrite Qsum_snoc, Hsum, Qsum_cons. ring. }
    assert (HS : pre ++ b :: win ++ a :: rest = (pre ++ [b]) ++ (win ++ [a]) ++ rest).
    { rewrite <- !app_assoc. reflexivity. }
    assert (Hidx : (length (pre ++ [b]) + length (win ++ [a])
                    = S (length pre + length (b :: win)))%nat).
    { rewrite !length_app. cbn [length]. lia. }
    change ((b :: win) ++ a :: rest) with (b :: win ++ a :: rest).
    rewrite (roll_mean_full w a b rest (win ++ a :: rest) _ sum_x _ Hge).
    rewrite Hwin.
    destruct j as [ | j ]; cbn [nth_error].
    + rewrite Nat.leb_refl.
      split; [ lia | ]. intros _. eexists. split; [ reflexivity | ].
      replace (length pre + w + 0 + 1 - w)%nat with (length (pre ++ [b]))
        by (rewrite length_app; cbn [length]; lia).
      rewrite HS, skipn_exact. rewrite <- Hnew at 2. rewrite firstn_exact.
      unfold Qmean. rewrite Hnew, Hsum'. reflexivity.
    + specialize (IH (pre ++ [b]) (win ++ [a]) (sum_x + a - b)%Q j).
      rewrite <- HS, Hidx, Hnew, Hwin in IH.
      replace ((win ++ [a]) ++ rest) with (win ++ a :: rest) in IH
        by (rewrite <- app_assoc; reflexivity).
      replace (length pre + w + S j)%nat with (S (length pre + w) + j)%nat by lia.
      apply IH; first [ lia | exact Hsum' ].
  - (* the window is still filling *)
    assert (Hpre : pre = []) by (destruct Hfull as [ | E ]; [ assumption | lia ]).
    subst pre. cbn [length app Nat.add] in *.
    assert (Hsum' : (sum_x + a == Qsum (win ++ [a]))%Q).
    { rewrite Qsum_snoc, Hsum. reflexivity. }
    assert (Hnew : length (win ++ [a]) = S (length win)).
    { rewrite length_app. cbn [length]. lia. }
    rewrite (roll_mean_filling w a rest (win ++ a :: rest) _ sum_x _ Hlt).
    assert (HS : win ++ a :: rest = (win ++ [a]) ++ rest).
    { rewrite <- app_assoc. reflexivity. }
    destruct j as [ | j ]; cbn [nth_error].
    + rewrite Nat.add_0_r.
      destruct (Nat.leb_spec w (S (length win))) as [ Hw1 | Hw1 ].
      * split; [ lia | ]. intros _. eexists. split; [ reflexivity | ].
        assert (Hw2 : w = S (length win)) by lia.
        replace (length win + 1 - w)%nat with 0%nat by lia. cbn [skipn].
        rewrite HS. rewrite Hw2 at 1. rewrite <- Hnew, firstn_exact.
        unfold Qmean. rewrite Hnew, Hsum'. reflexivity.
      * split; [ reflexivity | lia ].
    + specialize (IH [] (win ++ [a]) (sum_x + a)%Q j).
      cbn [length app Nat.add] in IH. rewrite <- HS, Hnew in IH.
      replace (length win + S j)%nat with (S (length win) + j)%nat by lia.
      apply IH; first [ lia | exact Hsum' | left; reflexivity ].
Qed.

(** C5: for a window [w] from 1 to 365 and a series [S] of any length, the
    moving average has as many points as [S]; its first [w - 1] points are
    undefined; from place [w - 1] on the point at place [i] is the mean of the
    [w] values [S[i-w+1 .. i]]; when [w] exceeds the length every point is
    undefined.  ([rolling_mean] is a total function: nothing is raised.) *)
Theorem rolling_mean_trailing_window (w : nat) (S : list Q) :
  (1 <= w <= 365)%nat ->
  length (rolling_mean w S) = length S /\
  (forall i, (i < w - 1)%nat -> (i < length S)%nat ->
             nth_error (rolling_mean w S) i = Some None) /\
  (forall i, (w - 1 <= i)%nat -> (i < length S)%nat ->
             exists q, nth_error (rolling_mean w S) i = Some (Some q) /\
                       (q == Qmean (firstn w (skipn (i - (w - 1)) S)))%Q) /\
  ((length S < w)%nat -> Forall (fun o => o = None) (rolling_mean w S)).
Proof.
  intros [ Hw _ ].
  assert (Hgen : forall i, (i < length S)%nat ->
            ((i + 1 < w)%nat -> nth_error (rolling_mean w S) i = Some None) /\
            ((w <= i + 1)%nat ->
             exists q, nth_error (rolling_mean w S) i = Some (Some q) /\
                       (q == Qmean (firstn w (skipn (i + 1 - w) S)))%Q)).
  { intros i Hi.
    apply (roll_mean_window w Hw S [] [] 0%Q i); cbn [length]; try lia.
    - left. reflexivity.
    - reflexivity. }
  split; [ apply roll_mean_length | ].
  split; [ | split ].
  - intros i Hi Hn. apply (Hgen i Hn). lia.
  - intros i Hi Hn. destruct (Hgen i Hn) as [ _ Hq ].
    replace (i - (w - 1))%nat with (i + 1 - w)%nat by lia. apply Hq. lia.
  - intros Hshort. rewrite Forall_forall. intros o Ho.
    apply In_nth_error in Ho. destruct Ho as (i & Hi).
    assert (Hn : (i < length S)%nat).
    { rewrite <- (roll_mean_length w S S 0%nat 0%Q 0%nat).
      apply nth_error_Some. unfold rolling_mean in Hi. congruence. }
    destruct (Hgen i Hn) as [ Hnone _ ].
    rewrite Hnone in Hi by lia. congruence.
Qed.

(** ** The gap-filled grid *)

Lemma has_duplicates_NoDup {K} `{Key K} (l : list K) :
  has_duplicates l = false <-> NoDup l.
Proof.
  induction l as [ | k l IH ]; simpl.
  - split; [ constructor | reflexivity ].
  - rewrite orb_false_iff, IH. split.
    + intros [ Hk Hnd ]. constructor; [ | exact Hnd ].
      intros Hin. apply isin_In in Hin. congruence.
    + intros Hnd. inversion Hnd as [ | ? ? Hnotin Hnd' ]; subst.
      split; [ | exact Hnd' ].
      destruct (isin k l) eqn:E; [ | reflexivity ].
      apply isin_In in E. contradiction.
Qed.

Lemma combine_map_r {A B} (f : A -> B) (l : list A) :
  combine l (map f l) = map (fun a => (a, f a)) l.
Proof. induction l as [ | a l IH ]; simpl; [ | rewrite IH ]; reflexivity. Qed.

Lemma flat_map_map {A B C} (f : B -> list C) (g : A -> B) (l : list A) :
  flat_map f (map g l) = flat_map (fun a => f (g a)) l.
Proof. induction l as [ | a l IH ]; simpl; [ | rewrite IH ]; reflexivity. Qed.

Lemma flat_map_singleton {A B} (f : A -> B) (l : list A) :
  flat_map (fun a => [f a]) l = map f l.
Proof. induction l as [ | a l IH ]; simpl; [ | rewrite IH ]; reflexivity. Qed.

Lemma length_unique_distinct {K} `{Key K} (l : list K) :
  length (unique l) = length (distinct l).
Proof.
  apply Permutation_length, NoDup_Permutation.
  - apply unique_NoDup.
  - apply NoDup_nodup.
  - intros k. unfold distinct. rewrite unique_In, nodup_In. reflexivity.
Qed.

Lemma find_key_NoDup {A K} `{Key K} (key : A -> K) (df : list A) (r : A) :
  NoDup (map key df) -> In r df ->
  find (fun r' => eqb (key r') (key r)) df = Some r.
Proof.
  induction df as [ | a df IH ]; simpl; [ contradiction | ].
  intros Hnd Hin. inversion Hnd as [ | ? ? Hnotin Hnd' ]; subst.
  destruct Hin as [ -> | Hin ].
  - rewrite eqb_refl. reflexivity.
  - destruct (eqb (key a) (key r)) eqn:E.
    + apply eqb_eq in E. exfalso. apply Hnotin. rewrite E.
      apply in_map. exact Hin.
    + apply IH; assumption.
Qed.

Lemma find_key_absent {A K} `{Key K} (key : A -> K) (df : list A) (k : K) :
  ~ In k (map key df) -> find (fun r' => eqb (key r') k) df = None.
Proof.
  intros Hn. destruct (find _ df) as [ r | ] eqn:E; [ | reflexivity ].
  apply find_some in E. destruct E as [ Hin Hk ]. apply eqb_eq in Hk.
  exfalso. apply Hn. rewrite <- Hk. apply in_map. exact Hin.
Qed.

Lemma grid_index_NoDup {A B} (l : list A) (l' : list B) :
  NoDup l -> NoDup l' -> NoDup (flat_map (fun a => map (pair a) l') l).
Proof.
  intros Hl Hl'. induction Hl as [ | a l Hnotin Hl IH ]; simpl.
  - constructor.
  - apply NoDup_app.
    + clear -Hl'. induction Hl' as [ | b l' Hb Hl' IH ]; simpl; constructor.
      * rewrite in_map_iff. intros (b' & E & Hin). inversion E; subst. contradiction.
      * exact IH.
    + exact IH.
    + intros [ a' b ] Hin1 Hin2.
      apply in_map_iff in Hin1. destruct Hin1 as (b' & E & _). inversion E; subst.
      apply in_flat_map in Hin2. destruct Hin2 as (a'' & Ha & Hb).
      apply in_map_iff in Hb. destruct Hb as (b'' & E' & _). inversion E'; subst.
      contradiction.
Qed.

Lemma grid_index (t : list DispRow) (cols : list string) (idx : list date) :
  map disp_index
      (flat_map (fun d => map (fun c => mkDispRow d c (cell_value t d c)) cols) idx)
  = flat_map (fun d => map (pair d) cols) idx.
Proof.
  induction idx as [ | d idx IH ]; simpl; [ reflexivity | ].
  rewrite map_app, IH, map_map. reflexivity.
Qed.

Lemma grid_length {A B} (f : A -> list B) (n : nat) (l : list A) :
  (forall a, length (f a) = n) -> length (flat_map f l) = (length l * n)%nat.
Proof.
  intros Hf. induction l as [ | a l IH ]; simpl; [ reflexivity | ].
  rewrite length_app, Hf, IH. reflexivity.
Qed.

(** With each (date, dispenser) pair held once, the grid is the product of
    the sorted dates and the sorted dispensers, a cell value in each place. *)
Lemma df_disp_all_days_cells (t : list DispRow) :
  NoDup (map disp_index t) ->
  df_disp_all_days t =
  Ok (flat_map
        (fun d => map (fun c => mkDispRow d c (cell_value t d c))
                      (sort_values leb (unique (map disp_Dispenser t))))
        (sort_values leb (unique (map disp_Script_Date t)))).
Proof.
  intros Hnd. unfold df_disp_all_days, unstack.
  apply has_duplicates_NoDup in Hnd. rewrite Hnd. cbn [bind]. f_equal.
  unfold stack, fillna. cbn [wide_index wide_columns wide_cells].
  rewrite map_map, combine_map_r, flat_map_map.
  apply flat_map_ext. intros d. cbn [fst snd].
  rewrite map_map, combine_map_r, flat_map_map. cbn [fst snd].
  etransitivity; [ | apply flat_map_singleton ]. apply flat_map_ext. intros c.
  unfold cell_value. destruct (find _ t); reflexivity.
Qed.

(** C8: for a table of daily counts that holds each (date, dispenser) pair
    once, the gap-filled grid is built without an error, has one row for each
    pair of an observed date and a dispenser and no other row, so
    |dates| x |dispensers| rows; every row of the input is in it unchanged, and
    every row at a pair the input lacks carries 0. *)
Theorem df_disp_all_days_grid (t : list DispRow) :
  NoDup (map disp_index t) ->
  exists grid,
    df_disp_all_days t = Ok grid /\
    length grid = (length (distinct (map disp_Script_Date t)) *
                   length (distinct (map disp_Dispenser t)))%nat /\
    NoDup (map disp_index grid) /\
    (forall d c, In (d, c) (map disp_index grid) <->
                 In d (map disp_Script_Date t) /\ In c (map disp_Dispenser t)) /\
    (forall r, In r t -> In r grid) /\
    (forall r, In r grid -> ~ In (disp_index r) (map disp_index t) ->
               disp_Sctno r = 0).
Proof.
  intros Hnd. eexists. split; [ apply df_disp_all_days_cells; exact Hnd | ].
  set (idx := sort_values leb (unique (map disp_Script_Date t))).
  set (cols := sort_values leb (unique (map disp_Dispenser t))).
  assert (Hidx : forall d, In d idx <-> In d (map disp_Script_Date t)).
  { intros d. unfold idx. rewrite sort_values_In, unique_In. reflexivity. }
  assert (Hcols : forall c, In c cols <-> In c (map disp_Dispenser t)).
  { intros c. unfold cols. rewrite sort_values_In, unique_In. reflexivity. }
  pose proof (grid_index t cols idx) as Hkeys.
  assert (Hgrid : forall r,
            In r (flat_map (fun d => map (fun c => mkDispRow d c (cell_value t d c)) cols) idx)
            <-> In (disp_Script_Date r) idx /\ In (disp_Dispenser r) cols /\
                disp_Sctno r = cell_value t (disp_Script_Date r) (disp_Dispenser r)).
  { intros r. rewrite in_flat_map. split.
    - intros (d & Hd & Hr). apply in_map_iff in Hr. destruct Hr as (c & <- & Hc).
      simpl. auto.
    - intros (Hd & Hc & Hv). exists (disp_Script_Date r). split; [ exact Hd | ].
      apply in_map_iff. exists (disp_Dispenser r). split; [ | exact Hc ].
      rewrite <- Hv. destruct r; reflexivity. }
  split; [ | split; [ | split; [ | split ] ] ].
  - rewrite (grid_length _ (length cols)) by (intros d; apply length_map).
    rewrite <- !length_unique_distinct. unfold idx, cols.
    rewrite !sort_values_length. reflexivity.
  - rewrite Hkeys. apply grid_index_NoDup; apply sort_values_NoDup, unique_NoDup.
  - intros d c. rewrite Hkeys, in_flat_map. rewrite <- Hidx, <- Hcols. split.
    + intros (d' & Hd & Hc). apply in_map_iff in Hc.
      destruct Hc as (c' & E & Hc). inversion E; subst. auto.
    + intros [ Hd Hc ]. exists d. split; [ exact Hd | ].
      apply in_map. exact Hc.
  - intros r Hr. apply Hgrid. rewrite Hidx, Hcols.
    split; [ apply in_map; exact Hr | ]. split; [ apply in_map; exact Hr | ].
    unfold cell_value.
    change (disp_Script_Date r, disp_Dispenser r) with (disp_index r).
    rewrite (find_key_NoDup disp_index t r Hnd Hr). reflexivity.
  - intros r Hr Hn. apply Hgrid in Hr. destruct Hr as (_ & _ & ->).
    unfold cell_value.
    change (disp_Script_Date r, disp_Dispenser r) with (disp_index r).
    rewrite (find_key_absent disp_index t _ Hn). reflexivity.
Qed.

(** The daily counts the script builds hold each (date, dispenser) pair
    once, so their grid is always built. *)
Lemma df_disp_index_NoDup (df : DataFrame) : NoDup (map disp_index (df_disp df)).
Proof.
  unfold df_disp. rewrite map_map.
  assert (E : map (fun g : date * string * list Row =>
                     disp_index (mkDispRow (fst (fst g)) (snd (fst g)) (count (snd g))))
                  (groupby (fun r => (Script_Date r, Dispenser r)) (drop_duplicates Sctno df))
              = map fst (groupby (fun r => (Script_Date r, Dispenser r))
                                 (drop_duplicates Sctno df))).
  { apply map_ext. intros [ [ d c ] g ]. reflexivity. }
  rewrite E. apply groupby_NoDup.
Qed.

(** ** The top 5 products of a payer *)

Lemma NoDup_firstn {A} (n : nat) (l : list A) : NoDup l -> NoDup (firstn n l).
Proof.
  intros Hnd. rewrite <- (firstn_skipn n l) in Hnd.
  apply NoDup_app_remove_r in Hnd. exact Hnd.
Qed.

Lemma In_firstn {A} (n : nat) (l : list A) (a : A) : In a (firstn n l) -> In a l.
Proof.
  intros Hin. rewrite <- (firstn_skipn n l). apply in_or_app. left. exact Hin.
Qed.

Lemma StronglySorted_weaken {A} (R R' : A -> A -> Prop) (l : list A) :
  (forall a b, R a b -> R' a b) -> StronglySorted R l -> StronglySorted R' l.
Proof.
  intros HR. induction 1 as [ | a l Hs IH Hall ]; constructor.
  - exact IH.
  - rewrite Forall_forall in *. auto.
Qed.

Lemma StronglySorted_app_inv {A} (R : A -> A -> Prop) (l1 l2 : list A) :
  StronglySorted R (l1 ++ l2) ->
  StronglySorted R l1 /\ forall a b, In a l1 -> In b l2 -> R a b.
Proof.
  induction l1 as [ | c l1 IH ]; simpl; intros Hs.
  - split; [ constructor | contradiction ].
  - apply StronglySorted_inv in Hs. destruct Hs as [ Hs Hall ].
    destruct (IH Hs) as [ Hs1 Hcross ]. rewrite Forall_forall in Hall. split.
    + constructor; [ exact Hs1 | ]. rewrite Forall_forall. intros b Hb.
      apply Hall, in_or_app. left. exact Hb.
    + intros a b [ <- | Ha ] Hb.
      * apply Hall, in_or_app. right. exact Hb.
      * apply Hcross; assumption.
Qed.

Lemma count_pos_In {A} (f : A -> bool) (l : list A) :
  0 < count (filter f l) <-> exists a, In a l /\ f a = true.
Proof.
  unfold count. split.
  - destruct (filter f l) as [ | a l' ] eqn:E; simpl; [ lia | ].
    intros _. exists a. apply filter_In. rewrite E. left. reflexivity.
  - intros (a & Ha). apply filter_In in Ha.
    destruct (filter f l); [ contradiction | simpl; lia ].
Qed.

(** The rows of [df_product_medical_aid]: one per payer and product that
    share a row of the table, with the number of those rows. *)
Lemma df_product_medical_aid_In (df : DataFrame) (m p : string) (v : Z) :
  In (mkMedicalAidRow m p v) (df_product_medical_aid df) <->
  0 < payer_line_items df m p /\ v = payer_line_items df m p.
Proof.
  unfold df_product_medical_aid, payer_line_items, payer_product_rows.
  rewrite in_map_iff, count_pos_In. split.
  - intros ([ [ m' p' ] g ] & E & Hg). simpl in E. inversion E; subst.
    apply groupby_In in Hg. destruct Hg as [ Hk -> ]. split; [ | reflexivity ].
    apply in_map_iff in Hk. destruct Hk as (r & Hr & Hin).
    exists r. split; [ exact Hin | ]. inversion Hr. rewrite !eqb_refl. reflexivity.
  - intros [ (r & Hin & Hr) -> ]. apply andb_true_iff in Hr. destruct Hr as [ Hm Hp ].
    apply eqb_eq in Hm, Hp.
    exists ((m, p), filter (fun r' => eqb (Medical_Aid r', Item_Description r') (m, p)) df).
    split; [ reflexivity | ]. apply groupby_In. split; [ | reflexivity ].
    apply in_map_iff. exists r. rewrite Hm, Hp. auto.
Qed.

Lemma df_product_medical_aid_NoDup (df : DataFrame) :
  NoDup (map (fun r => (ma_Medical_Aid r, ma_Item_Description r))
             (df_product_medical_aid df)).
Proof.
  unfold df_product_medical_aid. rewrite map_map.
  assert (E : map (fun g : string * string * list Row =>
                     (ma_Medical_Aid (mkMedicalAidRow (fst (fst g)) (snd (fst g)) (count (snd g))),
                      ma_Item_Description (mkMedicalAidRow (fst (fst g)) (snd (fst g)) (count (snd g)))))
                  (groupby (fun r => (Medical_Aid r, Item_Description r)) df)
              = map fst (groupby (fun r => (Medical_Aid r, Item_Description r)) df)).
  { apply map_ext. intros [ [ m p ] g ]. reflexivity. }
  rewrite E. apply groupby_NoDup.
Qed.

(** Among the rows of one payer the product names are distinct. *)
Lemma payer_rows_NoDup (t : list MedicalAidRow) (m : string) :
  NoDup (map (fun r => (ma_Medical_Aid r, ma_Item_Description r)) t) ->
  NoDup (map ma_Item_Description (filter (fun r => eqb (ma_Medical_Aid r) m) t)).
Proof.
  induction t as [ | a t IH ]; simpl; intros Hnd; [ constructor | ].
  inversion Hnd as [ | ? ? Hnotin Hnd' ]; subst.
  destruct (String.eqb_spec (ma_Medical_Aid a) m) as [ Hm | Hm ]; [ | auto ].
  simpl. constructor; [ | auto ].
  intros Hin. apply in_map_iff in Hin. destruct Hin as (b & Hb & Hin).
  apply filter_In in Hin. destruct Hin as [ Hin Hbm ].
  apply String.eqb_eq in Hbm. apply Hnotin. apply in_map_iff.
  exists b. split; [ congruence | exact Hin ].
Qed.

(** Summing the counts of a payer's rows per product changes nothing: the
    sums are the line-item counts of the payer's products. *)
Lemma payer_sums_In (df : DataFrame) (m p : string) (v : Z) :
  In (p, v)
     (map (fun g => (fst g, Zsum (map ma_Sctno (snd g))))
          (groupby ma_Item_Description
             (filter (fun r => eqb (ma_Medical_Aid r) m) (df_product_medical_aid df))))
  <-> 0 < payer_line_items df m p /\ v = payer_line_items df m p.
Proof.
  rewrite <- df_product_medical_aid_In.
  set (F := filter (fun r => eqb (ma_Medical_Aid r) m) (df_product_medical_aid df)).
  assert (HF : forall r, In r F <->
                 In r (df_product_medical_aid df) /\ ma_Medical_Aid r = m).
  { intros r. unfold F. rewrite filter_In. unfold eqb. simpl.
    rewrite String.eqb_eq. reflexivity. }
  assert (Hnd : NoDup (map ma_Item_Description F)).
  { apply payer_rows_NoDup, df_product_medical_aid_NoDup. }
  rewrite in_map_iff. split.
  - intros ([ p' g ] & E & Hg). simpl in E. inversion E; subst p' v. clear E.
    apply groupby_In in Hg. destruct Hg as [ Hk -> ].
    apply in_map_iff in Hk. destruct Hk as (r & <- & Hr).
    rewrite (filter_key_NoDup ma_Item_Description F r Hnd Hr).
    apply HF in Hr. destruct Hr as [ Hr <- ].
    unfold Zsum. simpl. destruct r; exact Hr.
  - intros Hin.
    assert (Hr : In (mkMedicalAidRow m p v) F) by (apply HF; auto).
    exists (p, [mkMedicalAidRow m p v]). split; [ reflexivity | ].
    apply groupby_In. split.
    + apply in_map_iff. eexists. split; [ | exact Hr ]. reflexivity.
    + symmetry. apply (filter_key_NoDup ma_Item_Description F _ Hnd Hr).
Qed.

Lemma descending_total {A} (col : A -> Z) (a b : A) :
  descending col a b = true \/ descending col b a = true.
Proof. unfold descending. rewrite !Z.leb_le. lia. Qed.

Lemma descending_trans {A} (col : A -> Z) (a b c : A) :
  descending col a b = true -> descending col b c = true ->
  descending col a c = true.
Proof. unfold descending. rewrite !Z.leb_le. lia. Qed.

(** C4, as the script has it: the top-5 chart of a payer ranks the products
    by their number of line items (rows) for that payer.  Each bar carries the
    row count of its product, the bars stand in falling order of that count,
    no product stands twice, there are at most five, and a product of the
    payer that is left out has no more rows than any product shown. *)
Theorem temp_top_5_products_by_line_items (df : DataFrame) (medical_aid : string) :
  let out := temp_top_5_products df medical_aid in
  (length out <= 5)%nat /\
  NoDup (map fst out) /\
  (forall p v, In (p, v) out ->
               v = payer_line_items df medical_aid p /\ 0 < v) /\
  StronglySorted (fun a b => snd b <= snd a) out /\
  (forall p, 0 < payer_line_items df medical_aid p -> ~ In p (map fst out) ->
             length out = 5%nat /\
             forall q v, In (q, v) out -> payer_line_items df medical_aid p <= v).
Proof.
  cbv zeta. unfold temp_top_5_products, sum_Sctno_descending, head.
  set (sums := map (fun g => (fst g, Zsum (map ma_Sctno (snd g))))
                   (groupby ma_Item_Description
                      (filter (fun r => eqb (ma_Medical_Aid r) medical_aid)
                              (df_product_medical_aid df)))).
  set (sorted := sort_values (descending snd) sums).
  assert (Hsums : forall p v, In (p, v) sums <->
            0 < payer_line_items df medical_aid p /\ v = payer_line_items df medical_aid p).
  { intros p v. apply payer_sums_In. }
  assert (Hin : forall pv, In pv sorted <-> In pv sums).
  { intros pv. apply sort_values_In. }
  assert (Hss : StronglySorted (fun a b : string * Z => snd b <= snd a) sorted).
  { apply StronglySorted_weaken with (R := fun u v => descending snd u v = true).
    - intros a b. unfold descending. apply Z.leb_le.
    - apply sort_values_sorted.
      + apply descending_total.
      + apply descending_trans. }
  split; [ apply firstn_le_length | ].
  split; [ | split; [ | split ] ].
  - rewrite <- firstn_map. apply NoDup_firstn.
    apply (Permutation_NoDup (l := map fst sums)).
    + apply Permutation_map, Permutation_sym, sort_values_perm.
    + unfold sums. rewrite map_map. simpl.
      change (map (fun g : string * list MedicalAidRow => fst g)) with
        (map (@fst string (list MedicalAidRow))).
      apply groupby_NoDup.
  - intros p v Hpv. apply In_firstn, Hin, Hsums in Hpv. lia.
  - rewrite <- (firstn_skipn 5 sorted) in Hss.
    apply StronglySorted_app_inv in Hss. apply Hss.
  - intros p Hp Hnot.
    assert (Hps : In (p, payer_line_items df medical_aid p) sorted).
    { apply Hin, Hsums. auto. }
    rewrite <- (firstn_skipn 5 sorted) in Hps. apply in_app_or in Hps.
    destruct Hps as [ Hps | Hps ].
    { exfalso. apply Hnot. apply in_map_iff.
      exists (p, payer_line_items df medical_aid p). auto. }
    split.
    + apply firstn_length_le.
      destruct (Nat.le_gt_cases 5 (length sorted)) as [ Hle | Hgt ]; [ exact Hle | ].
      rewrite skipn_all2 in Hps by lia. contradiction.
    + intros q v Hq.
      rewrite <- (firstn_skipn 5 sorted) in Hss.
      apply StronglySorted_app_inv in Hss. destruct Hss as [ _ Hcross ].
      apply (Hcross _ _ Hq Hps).
Qed.

(** ** Order of the groups, and of the month labels *)

Lemma leb_refl {K} `{Key K} (a : K) : leb a a = true.
Proof. destruct (leb_total a a); assumption. Qed.

Lemma groupby_keys_sorted {A K} `{Key K} (key : A -> K) (df : list A) :
  StronglySorted (fun a b => leb a b = true) (map fst (groupby key df)).
Proof.
  rewrite groupby_keys. apply sort_values_sorted.
  - apply leb_total.
  - apply leb_trans.
Qed.

Lemma StronglySorted_map {A B} (R : B -> B -> Prop) (f : A -> B) (l : list A) :
  StronglySorted R (map f l) -> StronglySorted (fun a b => R (f a) (f b)) l.
Proof.
  induction l as [ | a l IH ]; simpl; intros Hs; [ constructor | ].
  apply StronglySorted_inv in Hs. destruct Hs as [ Hs Hall ].
  constructor; [ apply IH; exact Hs | ].
  rewrite Forall_forall in *. intros b Hb. apply Hall, in_map. exact Hb.
Qed.

Lemma StronglySorted_map_inv {A B} (R : B -> B -> Prop) (f : A -> B) (l : list A) :
  StronglySorted (fun a b => R (f a) (f b)) l -> StronglySorted R (map f l).
Proof.
  induction 1 as [ | a l Hs IH Hall ]; simpl; constructor; [ exact IH | ].
  rewrite Forall_forall in *. intros b Hb. apply in_map_iff in Hb.
  destruct Hb as (b' & <- & Hb'). apply Hall. exact Hb'.
Qed.

Lemma StronglySorted_filter {A} (R : A -> A -> Prop) (p : A -> bool) (l : list A) :
  StronglySorted R l -> StronglySorted R (filter p l).
Proof.
  induction 1 as [ | a l Hs IH Hall ]; simpl; [ constructor | ].
  destruct (p a); [ | exact IH ].
  constructor; [ exact IH | ].
  rewrite Forall_forall in *. intros b Hb. apply filter_In in Hb. apply Hall, Hb.
Qed.

Lemma StronglySorted_weaken_In {A} (R R' : A -> A -> Prop) (l : list A) :
  (forall a b, In a l -> In b l -> R a b -> R' a b) ->
  StronglySorted R l -> StronglySorted R' l.
Proof.
  intros HR Hs. induction Hs as [ | a l Hs IH Hall ]; constructor.
  - apply IH. intros b c Hb Hc. apply HR; right; assumption.
  - rewrite Forall_forall in *. intros b Hb.
    apply HR; [ left; reflexivity | right; exact Hb | apply Hall; exact Hb ].
Qed.

(** X22: what the year comparison does on every table: each trace carries
    its month labels in ascending string order (the order [groupby] leaves the
    label column in), whatever the order of the months in the calendar. *)
Lemma year_comparison_labels_ascending (df : DataFrame) (item : string)
    (years_to_compare : list string) (trace : Scatter) :
  In trace (year_comparison_traces df item years_to_compare) ->
  StronglySorted (fun a b => String.leb a b = true) (scatter_x trace).
Proof.
  unfold year_comparison_traces. rewrite in_flat_map. intros (yr & _ & Htrace).
  assert (Hx : scatter_x trace =
               map t_Month (filter (fun r => eqb (t_Year r) yr) (temp_df df item))).
  { destruct Htrace as [ <- | [ <- | [] ] ]; reflexivity. }
  rewrite Hx. clear Hx Htrace. apply StronglySorted_map_inv.
  apply StronglySorted_weaken_In
    with (R := fun a b => leb (t_Month a, t_Year a) (t_Month b, t_Year b) = true).
  - intros a b Ha Hb. apply filter_In in Ha, Hb.
    destruct Ha as [ _ Ha ], Hb as [ _ Hb ]. apply eqb_eq in Ha, Hb.
    rewrite Ha, Hb.
    change (leb (t_Month a, yr) (t_Month b, yr))
      with (if eqb (t_Month a) (t_Month b) then leb yr yr
            else leb (t_Month a) (t_Month b)).
    destruct (eqb_spec (t_Month a) (t_Month b)) as [ -> | _ ].
    + intros _. exact (@leb_refl string Key_string (t_Month b)).
    + intros Hle. exact Hle.
  - apply StronglySorted_filter.
    apply (StronglySorted_map (fun a b => leb a b = true)
                              (fun r => (t_Month r, t_Year r))).
    unfold temp_df. rewrite map_map. cbn [t_Month t_Year].
    erewrite map_ext; [ apply groupby_keys_sorted | ].
    intros [ [ m yr' ] g ]. reflexivity.
Qed.

(** ** The per-dispenser moving average *)

Lemma transform_from_group {A B K} `{Key K} (key : A -> K) (f : list A -> list B)
    (d : B) (k : K) (rest : list A) :
  (forall g, length (f g) = length g) ->
  forall seen,
    map snd (filter (fun p => eqb (key (fst p)) k)
                    (combine rest (transform_from key f d (seen ++ rest) seen rest)))
    = skipn (length (filter (fun r => eqb (key r) k) seen))
            (f (filter (fun r => eqb (key r) k) (seen ++ rest))).
Proof.
  intros Hf. induction rest as [ | r rest IH ]; intros seen.
  - simpl. rewrite app_nil_r. symmetry. apply skipn_all2. rewrite Hf. lia.
  - cbn [transform_from combine filter fst].
    specialize (IH (seen ++ [r])). rewrite <- app_assoc in IH. cbn [app] in IH.
    destruct (eqb_spec (key r) k) as [ Hk | Hk ].
    + cbn [map snd]. rewrite IH. clear IH. subst k.
      rewrite (filter_app _ seen [r]), length_app. cbn [filter].
      rewrite eqb_refl. cbn [length].
      set (L := f (filter (fun r' => eqb (key r') (key r)) (seen ++ r :: rest))).
      set (n := length (filter (fun r' => eqb (key r') (key r)) seen)).
      assert (Hn : (n < length L)%nat).
      { unfold L, n. rewrite Hf, filter_app, length_app. cbn [filter].
        rewrite eqb_refl. cbn [length]. lia. }
      replace (n + 1)%nat with (S n) by lia.
      clearbody L n. revert n Hn. induction L as [ | b L IHL ]; intros n Hn.
      * cbn [length] in Hn. lia.
      * destruct n as [ | n ]; [ reflexivity | ].
        cbn [nth skipn]. apply IHL. cbn [length] in Hn. lia.
    + rewrite IH. rewrite (filter_app _ seen [r]). cbn [filter].
      destruct (eqb_spec (key r) k) as [ E | _ ]; [ contradiction | ].
      rewrite app_nil_r. reflexivity.
Qed.

(** X21: the moving averages of one dispenser's rows, read off the grid in
    row order, are the rolling mean of that dispenser's series of counts. *)
Lemma Sctno_moving_avg_per_dispenser (w : nat) (grid : list DispRow) (c : string) :
  map snd (filter (fun p => eqb (disp_Dispenser (fst p)) c)
                  (combine grid (Sctno_moving_avg w grid)))
  = rolling_mean w (map (fun r => inject_Z (disp_Sctno r))
                        (filter (fun r => eqb (disp_Dispenser r) c) grid)).
Proof.
  unfold Sctno_moving_avg, transform.
  rewrite (transform_from_group disp_Dispenser _ None c grid) with (seen := []).
  - reflexivity.
  - intros g. unfold rolling_mean. rewrite roll_mean_length. apply length_map.
Qed.

(** ** Groups partition their frame *)

Lemma Zsum_from (l : list Z) (a : Z) : fold_left Z.add l a = a + Zsum l.
Proof.
  unfold Zsum. revert a. induction l as [ | b l IH ]; intros a; simpl.
  - lia.
  - rewrite (IH (a + b)), (IH b). lia.
Qed.

Lemma Zsum_cons (a : Z) (l : list Z) : Zsum (a :: l) = a + Zsum l.
Proof. unfold Zsum at 1. simpl. apply Zsum_from. Qed.

Lemma Zsum_counts {A} (L : list (list A)) :
  Zsum (map count L) = count (concat L).
Proof.
  induction L as [ | g L IH ]; [ reflexivity | ].
  cbn [map concat]. rewrite Zsum_cons, IH. unfold count.
  rewrite length_app. lia.
Qed.

Lemma Qsum_app (l l' : list Q) : (Qsum (l ++ l') == Qsum l + Qsum l')%Q.
Proof.
  unfold Qsum at 1. rewrite fold_left_app. fold (Qsum l). apply Qsum_from.
Qed.

Lemma Qsum_perm (l l' : list Q) : Permutation l l' -> (Qsum l == Qsum l')%Q.
Proof.
  induction 1 as [ | a l l' _ IH | a b l | l l' l'' _ IH1 _ IH2 ].
  - reflexivity.
  - rewrite !Qsum_cons, IH. reflexivity.
  - rewrite !Qsum_cons. ring.
  - rewrite IH1. exact IH2.
Qed.

Lemma Qsum_concat (L : list (list Q)) : (Qsum (map Qsum L) == Qsum (concat L))%Q.
Proof.
  induction L as [ | g L IH ]; [ reflexivity | ].
  cbn [map concat]. rewrite Qsum_cons, Qsum_app, IH. reflexivity.
Qed.

Lemma Qsum_minus {A} (f g : A -> Q) (l : list A) :
  (Qsum (map (fun a => f a - g a) l) == Qsum (map f l) - Qsum (map g l))%Q.
Proof.
  induction l as [ | a l IH ]; [ reflexivity | ].
  cbn [map]. rewrite !Qsum_cons, IH. ring.
Qed.

Lemma filter_or_perm {A} (p q : A -> bool) (l : list A) :
  (forall a, p a = true -> q a = true -> False) ->
  Permutation (filter (fun a => p a || q a) l) (filter p l ++ filter q l).
Proof.
  intros Hdis. induction l as [ | a l IH ]; simpl; [ apply perm_nil | ].
  destruct (p a) eqn:Hp, (q a) eqn:Hq; simpl.
  - exfalso. apply (Hdis a); assumption.
  - apply perm_skip. exact IH.
  - apply Permutation_cons_app. exact IH.
  - exact IH.
Qed.

(** The rows whose key is one of [ks], gathered key by key. *)
Lemma keys_partition {A K} `{Key K} (key : A -> K) (df : list A) (ks : list K) :
  NoDup ks ->
  Permutation (flat_map (fun k => filter (fun r => eqb (key r) k) df) ks)
              (filter (fun r => isin (key r) ks) df).
Proof.
  induction 1 as [ | k ks Hnotin Hnd IH ]; simpl.
  - rewrite filter_false. apply perm_nil.
  - apply Permutation_sym.
    eapply perm_trans.
    + apply (filter_or_perm (fun r => eqb (key r) k) (fun r => isin (key r) ks)).
      intros r Hk Hin. apply eqb_eq in Hk. apply isin_In in Hin. congruence.
    + apply Permutation_app_head, Permutation_sym. exact IH.
Qed.

(** [groupby] loses no row and repeats none. *)
Lemma groupby_partition {A K} `{Key K} (key : A -> K) (df : list A) :
  Permutation (concat (map snd (groupby key df))) df.
Proof.
  unfold groupby. rewrite map_map. cbn [snd]. rewrite <- flat_map_concat_map.
  eapply perm_trans.
  - apply keys_partition. apply sort_values_NoDup, unique_NoDup.
  - rewrite forallb_filter_id; [ apply Permutation_refl | ].
    apply forallb_forall. intros r Hr. apply isin_In.
    rewrite sort_values_In, unique_In. apply in_map. exact Hr.
Qed.

(** The groups whose key projects on [k'] hold the rows whose key does. *)
Lemma groupby_partition_proj {A K K'} `{Key K} `{Key K'} (key : A -> K)
    (proj : K -> K') (k' : K') (df : list A) :
  Permutation
    (concat (map snd (filter (fun g => eqb (proj (fst g)) k') (groupby key df))))
    (filter (fun r => eqb (proj (key r)) k') df).
Proof.
  unfold groupby. rewrite filter_map_swap, map_map. cbn [fst snd].
  rewrite <- flat_map_concat_map.
  eapply perm_trans.
  - apply keys_partition. apply NoDup_filter, sort_values_NoDup, unique_NoDup.
  - erewrite filter_ext_in; [ apply Permutation_refl | ].
    intros r Hr. cbn beta.
    destruct (eqb (proj (key r)) k') eqn:E.
    + apply isin_In. apply filter_In. split; [ | exact E ].
      rewrite sort_values_In, unique_In. apply in_map. exact Hr.
    + destruct (isin (key r) _) eqn:Hin; [ | reflexivity ].
      apply isin_In, filter_In in Hin. destruct Hin as [ _ Hin ]. congruence.
Qed.

(** ** Conservation of the totals *)

(** X3: the daily gross profits of [df_fa_gp] add up to the gross profit
    over the period, total retail less total cost. *)
Theorem df_fa_gp_sums_to_gross_profit (df : DataFrame) :
  (Qsum (map snd (df_fa_gp df)) == gross_profit_total df)%Q.
Proof.
  unfold df_fa_gp, gross_profit_total. rewrite map_map. cbn [snd].
  rewrite <- (Qsum_minus Retail Cost df).
  change (fun a : Row => (Retail a - Cost a)%Q) with gross_profit.
  rewrite <- (map_map snd (fun g => Qsum (map gross_profit g))).
  rewrite <- (map_map (map gross_profit) Qsum), Qsum_concat, <- concat_map.
  apply Qsum_perm, Permutation_map, groupby_partition.
Qed.

(** X4: the yearly volumes of a product in [df_product_volume] add up to
    its total in [df_product_volume_exc_year], which is the number of its
    line items; all volumes together are the number of rows of the table. *)
Theorem yearly_volumes_add_up (df : DataFrame) :
  Zsum (map Volume (df_product_volume df)) = count df /\
  forall p v, In (p, v) (df_product_volume_exc_year df) ->
    v = Zsum (map Volume (filter (fun r => eqb (pv_Item_Description r) p)
                                 (df_product_volume df))) /\
    v = line_item_volume df p /\ 0 < v.
Proof.
  split.
  - unfold df_product_volume. rewrite map_map. cbn [Volume].
    rewrite <- (map_map snd count), Zsum_counts. unfold count.
    rewrite (Permutation_length (groupby_partition _ df)). reflexivity.
  - intros p v Hin. unfold df_product_volume_exc_year in Hin.
    apply in_map_iff in Hin. destruct Hin as ([ p' g ] & E & Hg).
    cbn [fst snd] in E. inversion E; subst p' v. clear E.
    assert (Hpos : (0 < length g)%nat) by exact (groupby_group_nonempty _ _ _ _ Hg).
    apply groupby_In in Hg. destruct Hg as [ _ -> ].
    split; [ | split; [ reflexivity | unfold count; lia ] ].
    unfold df_product_volume. rewrite filter_map_swap, map_map. cbn [Volume pv_Item_Description].
    rewrite <- (map_map snd count), Zsum_counts. unfold count. f_equal.
    symmetry.
    apply (Permutation_length
             (groupby_partition_proj (fun r => (Item_Description r, Year_str r)) fst p df)).
Qed.

(** ** Scripts per day *)

Lemma drop_duplicates_keys {A K} `{Key K} (key : A -> K) (df : list A) :
  map key (drop_duplicates key df) = unique (map key df).
Proof.
  induction df as [ | r df IH ]; [ reflexivity | ].
  cbn [drop_duplicates map unique]. f_equal.
  rewrite <- IH. symmetry. apply filter_map_swap.
Qed.

Lemma filter_length_le {A} (p : A -> bool) (l : list A) :
  (length (filter p l) <= length l)%nat.
Proof.
  induction l as [ | a l IH ]; simpl; [ lia | ]. destruct (p a); simpl; lia.
Qed.

Lemma filter_comm {A} (p q : A -> bool) (l : list A) :
  filter p (filter q l) = filter q (filter p l).
Proof.
  induction l as [ | a l IH ]; simpl; [ reflexivity | ].
  destruct (p a) eqn:Hp, (q a) eqn:Hq; simpl; rewrite ?Hp, ?Hq, IH; reflexivity.
Qed.

Lemma drop_duplicates_filter_le {A K} `{Key K} (key : A -> K) (p : A -> bool)
    (df : list A) :
  (length (filter p (drop_duplicates key df)) <= length (filter p df))%nat.
Proof.
  induction df as [ | r df IH ]; [ simpl; lia | ].
  cbn [drop_duplicates filter].
  assert (Hle : (length (filter p (filter (fun r' => negb (eqb (key r') (key r)))
                                          (drop_duplicates key df)))
                 <= length (filter p df))%nat).
  { rewrite filter_comm.
    eapply Nat.le_trans; [ apply filter_length_le | exact IH ]. }
  destruct (p r); simpl; lia.
Qed.

(** X5: the daily counts of [df_disp] count scripts, not line items: they
    add up to the number of distinct script identifiers of the table, and the
    count of a (date, dispenser) pair is at least 1 and at most the number of
    line items of that pair. *)
Theorem df_disp_counts_distinct_scripts (df : DataFrame) :
  Zsum (map disp_Sctno (df_disp df)) = Z.of_nat (length (distinct (map Sctno df))) /\
  forall row, In row (df_disp df) ->
    1 <= disp_Sctno row <=
    count (filter (fun r => eqb (Script_Date r, Dispenser r) (disp_index row)) df).
Proof.
  split.
  - unfold df_disp. rewrite map_map. cbn [disp_Sctno].
    rewrite <- (map_map snd count), Zsum_counts. unfold count.
    rewrite (Permutation_length (groupby_partition _ _)).
    rewrite <- length_unique_distinct, <- drop_duplicates_keys, length_map.
    reflexivity.
  - intros row Hrow. unfold df_disp in Hrow. apply in_map_iff in Hrow.
    destruct Hrow as ([ [ d c ] g ] & <- & Hg). cbn [fst snd disp_Sctno disp_index
      disp_Script_Date disp_Dispenser].
    assert (Hpos : (0 < length g)%nat) by exact (groupby_group_nonempty _ _ _ _ Hg).
    apply groupby_In in Hg. destruct Hg as [ _ -> ]. unfold count in *. split; [ lia | ].
    apply inj_le. apply drop_duplicates_filter_le.
Qed.

Lemma calculate_hours_open_zero (row : DispRow) :
  calculate_hours_open row = 0 <-> weekday (disp_Script_Date row) = 6.
Proof.
  unfold calculate_hours_open.
  destruct (Z.eqb_spec (weekday (disp_Script_Date row)) 6) as [ E | E ].
  - tauto.
  - destruct (weekday (disp_Script_Date row) =? 5).
    + split; [ discriminate | contradiction ].
    + destruct (year (disp_Script_Date row) <? 2023);
        (split; [ discriminate | contradiction ]).
Qed.

(** X6: the scripts-per-hour chart has one bar per dispenser who has a daily
    count on a day other than a Sunday, and no other bar: a dispenser seen on
    Sundays only is not in the chart. *)
Theorem df_disp_sr_mean_dispensers (df : DataFrame) :
  NoDup (map fst (df_disp_sr_mean df)) /\
  forall c, In c (map fst (df_disp_sr_mean df)) <->
            exists row, In row (df_disp df) /\ disp_Dispenser row = c /\
                        weekday (disp_Script_Date row) <> 6.
Proof.
  unfold df_disp_sr_mean, mean_rate_by_dispenser. rewrite map_map. cbn [fst].
  change (map (fun g : string * list RateRow => fst g)) with
    (map (@fst string (list RateRow))).
  split; [ apply groupby_NoDup | ].
  intros c. rewrite groupby_keys, sort_values_In, unique_In, in_map_iff. split.
  - intros (r & <- & Hr). unfold df_disp_open, open_days in Hr.
    apply filter_In in Hr. destruct Hr as [ Hr Hnz ].
    apply df_disp_divided_In in Hr. destruct Hr as (row & Hrow & ->).
    cbn in Hnz. exists row. split; [ exact Hrow | ]. split; [ reflexivity | ].
    rewrite <- calculate_hours_open_zero.
    apply negb_true_iff, Z.eqb_neq in Hnz. exact Hnz.
  - intros (row & Hrow & <- & Hw).
    exists (mkRateRow (mkHoursRow row (calculate_hours_open row))
                      (true_divide (disp_Sctno row) (calculate_hours_open row))).
    split; [ reflexivity | ].
    unfold df_disp_open, open_days. apply filter_In. split.
    + apply df_disp_divided_In. exists row. auto.
    + cbn. apply negb_true_iff, Z.eqb_neq.
      rewrite calculate_hours_open_zero. exact Hw.
Qed.

(** ** The grid of the script's own daily counts *)

Lemma StronglySorted_strict {K} `{Key K} (l : list K) :
  StronglySorted (fun a b => leb a b = true) l -> NoDup l ->
  StronglySorted (fun a b => leb a b = true /\ a <> b) l.
Proof.
  induction 1 as [ | a l Hs IH Hall ]; intros Hnd; constructor;
    inversion Hnd as [ | ? ? Hnotin Hnd' ]; subst.
  - apply IH. exact Hnd'.
  - rewrite Forall_forall in *. intros b Hb. split; [ apply Hall; exact Hb | ].
    intros ->. contradiction.
Qed.

Lemma sorted_unique_strict {K} `{Key K} (l : list K) :
  StronglySorted (fun a b => leb a b = true /\ a <> b) (sort_values leb (unique l)).
Proof.
  apply StronglySorted_strict.
  - apply sort_values_sorted; [ apply leb_total | apply leb_trans ].
  - apply sort_values_NoDup, unique_NoDup.
Qed.

Lemma filter_eqb_NoDup {K} `{Key K} (c : K) (l : list K) :
  NoDup l -> In c l -> filter (fun c' => eqb c' c) l = [c].
Proof.
  intros Hnd Hin.
  apply (filter_key_NoDup (fun k => k) l c); [ rewrite map_id; exact Hnd | exact Hin ].
Qed.

Lemma grid_column (t : list DispRow) (cols : list string) (idx : list date)
    (c : string) :
  NoDup cols -> In c cols ->
  filter (fun r => eqb (disp_Dispenser r) c)
         (flat_map (fun d => map (fun c' => mkDispRow d c' (cell_value t d c')) cols) idx)
  = map (fun d => mkDispRow d c (cell_value t d c)) idx.
Proof.
  intros Hnd Hin. induction idx as [ | d idx IH ]; [ reflexivity | ].
  cbn [flat_map map]. rewrite filter_app, IH, filter_map_swap.
  cbn [disp_Dispenser]. rewrite (filter_eqb_NoDup c cols Hnd Hin). reflexivity.
Qed.

(** X7: on the daily counts the script builds, the gap filling raises
    nothing, and in the grid every dispenser has one row for each observed
    date, in ascending date order: each dispenser's rows are a series over the
    same dates. *)
Theorem df_disp_all_days_series (df : DataFrame) :
  exists grid,
    df_disp_all_days (df_disp df) = Ok grid /\
    forall c, In c (map disp_Dispenser (df_disp df)) ->
      let dates := map disp_Script_Date
                       (filter (fun r => eqb (disp_Dispenser r) c) grid) in
      StronglySorted (fun a b => leb a b = true /\ a <> b) dates /\
      forall d, In d dates <-> In d (map disp_Script_Date (df_disp df)).
Proof.
  eexists. split; [ apply df_disp_all_days_cells, df_disp_index_NoDup | ].
  intros c Hc. cbv zeta.
  rewrite grid_column.
  - rewrite map_map. cbn [disp_Script_Date]. rewrite map_id. split.
    + apply sorted_unique_strict.
    + intros d. rewrite sort_values_In, unique_In. reflexivity.
  - apply sort_values_NoDup, unique_NoDup.
  - rewrite sort_values_In, unique_In. exact Hc.
Qed.

(** ** The password gate *)

(** X1: after the user has typed a password, the gate opens exactly when
    the password is the secret.  When it opens nothing of the gate is shown
    and the password is no longer in the session state; when it does not, the
    text input and the error are shown.  A typed password or a secret that is
    not ASCII only makes the callback raise [TypeError]; it raises nothing
    else. *)
Theorem submit_grants_iff_secret (secret p : string) (s : session_state) :
  (ascii_only p && ascii_only secret = false -> submit secret p s = inl TypeError) /\
  (ascii_only p && ascii_only secret = true ->
   exists granted shown s',
     submit secret p s = inr (granted, shown, s') /\
     (granted = true <-> p = secret) /\
     (granted = true -> shown = [] /\ password s' = None) /\
     (granted = false ->
      shown = [text_input_Password; error_Password_incorrect] /\
      password_correct s' = Some false)).
Proof.
  unfold submit, password_entered, compare_digest. cbn [password password_correct].
  split; intros Hascii; rewrite Hascii; [ reflexivity | ].
  destruct (String.eqb_spec p secret) as [ E | E ].
  - do 3 eexists. split; [ reflexivity | ]. cbn.
    intuition (try discriminate; try congruence).
  - do 3 eexists. split; [ reflexivity | ]. cbn.
    intuition (try discriminate; try congruence).
Qed.



(** ** The first rows of a sorted frame *)

Section HeadOfSorted.
Context {A : Type} (le : A -> A -> bool).
Hypothesis le_total : forall a b, le a b = true \/ le b a = true.
Hypothesis le_trans : forall a b c, le a b = true -> le b c = true -> le a c = true.

Lemma head_sort_values_length (n : nat) (l : list A) :
  (length (head n (sort_values le l)) <= n)%nat.
Proof. apply firstn_le_length. Qed.

Lemma head_sort_values_In (n : nat) (l : list A) (a : A) :
  In a (head n (sort_values le l)) -> In a l.
Proof. intros Hin. apply In_firstn in Hin. apply sort_values_In in Hin. exact Hin. Qed.

Lemma head_sort_values_all (n : nat) (l : list A) (a : A) :
  (length l <= n)%nat -> In a l -> In a (head n (sort_values le l)).
Proof.
  intros Hlen Hin. unfold head.
  rewrite firstn_all2 by (rewrite sort_values_length; exact Hlen).
  apply sort_values_In. exact Hin.
Qed.

Lemma head_sort_values_NoDup {B} (f : A -> B) (n : nat) (l : list A) :
  NoDup (map f l) -> NoDup (map f (head n (sort_values le l))).
Proof.
  intros Hnd. unfold head. rewrite <- firstn_map. apply NoDup_firstn.
  apply (Permutation_NoDup (l := map f l)); [ | exact Hnd ].
  apply Permutation_map, Permutation_sym, sort_values_perm.
Qed.

Lemma head_sort_values_sorted (n : nat) (l : list A) :
  StronglySorted (fun a b => le a b = true) (head n (sort_values le l)).
Proof.
  pose proof (sort_values_sorted le le_total le_trans l) as Hs.
  rewrite <- (firstn_skipn n (sort_values le l)) in Hs.
  apply StronglySorted_app_inv in Hs. apply Hs.
Qed.

Lemma head_sort_values_left_out (n : nat) (l : list A) (a : A) :
  In a l -> ~ In a (head n (sort_values le l)) ->
  length (head n (sort_values le l)) = n /\
  forall b, In b (head n (sort_values le l)) -> le b a = true.
Proof.
  intros Hin Hout. unfold head in *.
  apply (sort_values_In le) in Hin.
  rewrite <- (firstn_skipn n (sort_values le l)) in Hin.
  apply in_app_or in Hin. destruct Hin as [ Hin | Hin ]; [ contradiction | ].
  split.
  - apply firstn_length_le.
    destruct (Nat.le_gt_cases n (length (sort_values le l))) as [ Hle | Hgt ];
      [ exact Hle | ].
    rewrite skipn_all2 in Hin by lia. contradiction.
  - intros b Hb.
    pose proof (sort_values_sorted le le_total le_trans l) as Hs.
    rewrite <- (firstn_skipn n (sort_values le l)) in Hs.
    apply StronglySorted_app_inv in Hs. destruct Hs as [ _ Hcross ].
    apply Hcross; assumption.
Qed.

End HeadOfSorted.

Lemma descending_Q_total {A} (col : A -> Q) (a b : A) :
  descending_Q col a b = true \/ descending_Q col b a = true.
Proof.
  unfold descending_Q. rewrite !Qle_bool_iff.
  destruct (Qlt_le_dec (col a) (col b)) as [ Hlt | Hle ].
  - right. apply Qlt_le_weak. exact Hlt.
  - left. exact Hle.
Qed.

Lemma descending_Q_trans {A} (col : A -> Q) (a b c : A) :
  descending_Q col a b = true -> descending_Q col b c = true ->
  descending_Q col a c = true.
Proof.
  unfold descending_Q. rewrite !Qle_bool_iff. intros H1 H2.
  eapply Qle_trans; eassumption.
Qed.

(** ** Merged frames and product lists *)

Lemma merge_In {A B K} `{Key K} (keyL : A -> K) (keyR : B -> K)
    (left : list A) (right : list B) (l : A) (r : B) :
  In (l, r) (merge keyL keyR left right) <->
  In l left /\ In r right /\ keyR r = keyL l.
Proof.
  unfold merge. rewrite in_flat_map. split.
  - intros (l' & Hl & Hr). apply in_map_iff in Hr.
    destruct Hr as (r' & E & Hr). inversion E; subst.
    apply filter_In in Hr. destruct Hr as [ Hr Hk ]. apply eqb_eq in Hk. auto.
  - intros (Hl & Hr & Hk). exists l. split; [ exact Hl | ].
    apply in_map, filter_In. split; [ exact Hr | ]. apply eqb_eq. exact Hk.
Qed.

(** Two frames built from the same groups merge group by group. *)
Lemma merge_same_groups {G A B K} `{Key K} (kg : G -> K) (fa : G -> A) (fb : G -> B)
    (keyL : A -> K) (keyR : B -> K) (groups : list G) :
  (forall g, keyL (fa g) = kg g) -> (forall g, keyR (fb g) = kg g) ->
  NoDup (map kg groups) ->
  merge keyL keyR (map fa groups) (map fb groups)
  = map (fun g => (fa g, fb g)) groups.
Proof.
  intros HL HR Hnd. unfold merge. rewrite flat_map_map.
  assert (Hsub : forall l, incl l groups ->
            flat_map (fun g => map (fun r => (fa g, r))
                                   (filter (fun r => eqb (keyR r) (keyL (fa g)))
                                           (map fb groups))) l
            = map (fun g => (fa g, fb g)) l).
  { induction l as [ | g l IH ]; intros Hincl; [ reflexivity | ].
    cbn [flat_map map]. rewrite IH by (intros x Hx; apply Hincl; right; exact Hx).
    rewrite filter_map_swap.
    erewrite (filter_ext (fun g' => eqb (keyR (fb g')) (keyL (fa g))));
      [ | intros g'; rewrite HR, HL; reflexivity ].
    rewrite (filter_key_NoDup kg groups g Hnd) by (apply Hincl; left; reflexivity).
    reflexivity. }
  apply Hsub, incl_refl.
Qed.

Lemma drop_duplicates_In {A K} `{Key K} (key : A -> K) (df : list A) (a : A) :
  In a (drop_duplicates key df) -> In a df.
Proof.
  induction df as [ | r df IH ]; cbn [drop_duplicates]; [ contradiction | ].
  intros [ <- | Hin ]; [ left; reflexivity | ].
  apply filter_In in Hin. right. apply IH, Hin.
Qed.

Lemma product_groups_NoDup (df : DataFrame) :
  NoDup (map (@fst (string * string) (list Row))
             (groupby (fun r => (Item_Description r, Year_str r)) df)).
Proof. apply groupby_NoDup. Qed.

(** The merged per-year frame, group by group. *)
Lemma df_product_sales_volume_groups (df : DataFrame) :
  df_product_sales_volume df =
  map (fun g : string * string * list Row =>
         (mkProductSales (fst (fst g)) (snd (fst g))
                         (Qsum (map Retail (snd g))) (Qsum (map Cost (snd g))),
          mkProductVolume (fst (fst g)) (snd (fst g)) (count (snd g))))
      (groupby (fun r => (Item_Description r, Year_str r)) df).
Proof.
  unfold df_product_sales_volume, df_product_sales, df_product_volume.
  apply (merge_same_groups (@fst (string * string) (list Row))).
  - intros [ [ p y ] g ]. reflexivity.
  - intros [ [ p y ] g ]. reflexivity.
  - apply product_groups_NoDup.
Qed.

(** X8: the merge of the per-year sales and volumes keeps one row for each
    (product, year) pair of the table and makes up none: a merged row joins
    the sales and the volume of the same product and year, a year in which the
    product has a line item, and carries the sums and the count of exactly the
    line items of that product and year. *)
Theorem df_product_sales_volume_one_row_per_year (df : DataFrame) :
  NoDup (map (fun r => (ps_Item_Description (fst r), ps_Year (fst r)))
             (df_product_sales_volume df)) /\
  (forall r, In r df ->
     exists s v, In (s, v) (df_product_sales_volume df) /\
                 ps_Item_Description s = Item_Description r /\
                 ps_Year s = Year_str r) /\
  (forall s v, In (s, v) (df_product_sales_volume df) ->
     let g := filter (fun r => eqb (Item_Description r) (ps_Item_Description s)
                               && eqb (Year_str r) (ps_Year s)) df in
     pv_Item_Description v = ps_Item_Description s /\ pv_Year v = ps_Year s /\
     g <> [] /\
     ps_Retail s = Qsum (map Retail g) /\ ps_Cost s = Qsum (map Cost g) /\
     Volume v = count g).
Proof.
  rewrite df_product_sales_volume_groups. split; [ | split ].
  - rewrite map_map. cbn [fst ps_Item_Description ps_Year].
    erewrite map_ext; [ apply product_groups_NoDup | ].
    intros [ [ p y ] g ]. reflexivity.
  - intros r Hr.
    do 2 eexists. split.
    + apply in_map_iff.
      exists ((Item_Description r, Year_str r),
              filter (fun r' => eqb (Item_Description r', Year_str r')
                                    (Item_Description r, Year_str r)) df).
      split; [ reflexivity | ]. apply groupby_In. split; [ | reflexivity ].
      apply (in_map (fun r => (Item_Description r, Year_str r))). exact Hr.
    + split; reflexivity.
  - intros s v Hin. apply in_map_iff in Hin.
    destruct Hin as ([ [ p y ] g ] & E & Hg). cbn [fst snd] in E.
    inversion E; subst s v. clear E. cbn [ps_Item_Description ps_Year pv_Item_Description
      pv_Year ps_Retail ps_Cost Volume].
    pose proof (groupby_group_nonempty _ _ _ _ Hg) as Hpos.
    apply groupby_In in Hg. destruct Hg as [ _ Hgeq ].
    change (fun r : Row => eqb (Item_Description r) p && eqb (Year_str r) y)
      with (fun r : Row => eqb (Item_Description r, Year_str r) (p, y)).
    rewrite <- Hgeq.
    repeat split; try reflexivity.
    intros ->. simpl in Hpos. lia.
Qed.

Lemma df_product_sales_volume_items (df : DataFrame) (p : string) :
  In p (map (fun r => ps_Item_Description (fst r)) (df_product_sales_volume df)) <->
  exists r, In r df /\ Item_Description r = p.
Proof.
  rewrite df_product_sales_volume_groups, map_map. cbn [fst ps_Item_Description].
  rewrite in_map_iff. split.
  - intros ([ [ p' y ] g ] & E & Hg). cbn [fst] in E. subst p'.
    apply groupby_In in Hg. destruct Hg as [ Hk _ ].
    apply in_map_iff in Hk. destruct Hk as (r & E & Hr). inversion E.
    exists r. auto.
  - intros (r & Hr & <-).
    exists ((Item_Description r, Year_str r),
            filter (fun r' => eqb (Item_Description r', Year_str r')
                                  (Item_Description r, Year_str r)) df).
    split; [ reflexivity | ]. apply groupby_In. split; [ | reflexivity ].
    apply (in_map (fun r => (Item_Description r, Year_str r))). exact Hr.
Qed.

(** X9: the product select box offers every product of the table, each
    once, and nothing else. *)
Theorem products_each_once (df : DataFrame) :
  NoDup (products df) /\
  forall p, In p (products df) <-> exists r, In r df /\ Item_Description r = p.
Proof.
  unfold products. rewrite drop_duplicates_keys. split.
  - apply unique_NoDup.
  - intros p. rewrite unique_In, <- df_product_sales_volume_items.
    split; apply Permutation_in, Permutation_map.
    + apply sort_values_perm.
    + apply Permutation_sym, sort_values_perm.
Qed.

Lemma df_product_sales_volume_exc_year_items (df : DataFrame) (p : string) :
  In p (map (fun r => ps_Item_Description (fst r))
            (df_product_sales_volume_exc_year df)) <->
  exists r, In r df /\ Item_Description r = p.
Proof.
  unfold df_product_sales_volume_exc_year, df_product_sales, df_product_volume.
  rewrite in_map_iff. split.
  - intros ([ s v ] & <- & Hin). apply merge_In in Hin. destruct Hin as (Hs & _ & _).
    apply in_map_iff in Hs. destruct Hs as ([ [ p y ] g ] & <- & Hg).
    apply groupby_In in Hg. destruct Hg as [ Hk _ ].
    apply in_map_iff in Hk. destruct Hk as (r & E & Hr). inversion E.
    exists r. auto.
  - intros (r & Hr & <-).
    set (g := ((Item_Description r, Year_str r),
               filter (fun r' => eqb (Item_Description r', Year_str r')
                                     (Item_Description r, Year_str r)) df)).
    assert (Hg : In g (groupby (fun r => (Item_Description r, Year_str r)) df)).
    { apply groupby_In. split; [ | reflexivity ].
      apply (in_map (fun r => (Item_Description r, Year_str r))). exact Hr. }
    eexists (_, _). split; [ | apply merge_In; split; [ | split ] ].
    2:{ apply in_map_iff. exists g. split; [ reflexivity | exact Hg ]. }
    2:{ apply in_map_iff. exists g. split; [ reflexivity | exact Hg ]. }
    + reflexivity.
    + reflexivity.
Qed.

(** X10: the list behind the top-10 volume chart holds at most ten names,
    no name twice, and only products of the table; a table with at most ten
    distinct products has all of them in the list, without padding. *)
Theorem top_10_products_at_most_ten (df : DataFrame) :
  (length (top_10_products df) <= 10)%nat /\
  NoDup (top_10_products df) /\
  (forall p, In p (top_10_products df) -> exists r, In r df /\ Item_Description r = p) /\
  ((length (distinct (map Item_Description df)) <= 10)%nat ->
   forall r, In r df -> In (Item_Description r) (top_10_products df)).
Proof.
  unfold top_10_products, head. rewrite <- firstn_map, drop_duplicates_keys.
  set (sorted := sort_values (descending (fun r : ProductSales * ProductVolume =>
                                            Volume (snd r)))
                             (df_product_sales_volume_exc_year df)).
  assert (Hitems : forall p, In p (unique (map (fun r : ProductSales * ProductVolume =>
                                                  ps_Item_Description (fst r)) sorted))
                             <-> exists r, In r df /\ Item_Description r = p).
  { intros p. rewrite unique_In, <- df_product_sales_volume_exc_year_items.
    split; apply Permutation_in, Permutation_map.
    - apply sort_values_perm.
    - apply Permutation_sym, sort_values_perm. }
  split; [ apply firstn_le_length | ].
  split; [ apply NoDup_firstn, unique_NoDup | ].
  split.
  - intros p Hp. apply Hitems. eapply In_firstn. exact Hp.
  - intros Hlen r Hr. rewrite firstn_all2.
    + apply Hitems. exists r. auto.
    + rewrite (Permutation_length
                 (l' := distinct (map Item_Description df))); [ exact Hlen | ].
      apply NoDup_Permutation.
      * apply unique_NoDup.
      * apply NoDup_nodup.
      * intros p. rewrite Hitems. unfold distinct. rewrite nodup_In, in_map_iff.
        split; intros (r' & H1 & H2); exists r'; auto.
Qed.

Lemma df_products_gross_profit_In (df : DataFrame) (row : ProductGrossProfit) :
  In row (df_products_gross_profit df) <->
  let g := filter (fun r => eqb (Item_Description r) (gp_Item_Description row)) df in
  g <> [] /\
  row = mkProductGrossProfit (gp_Item_Description row)
          (Qsum (map Retail g)) (Qsum (map Cost g))
          (Qsum (map Retail g) - Qsum (map Cost g))%Q.
Proof.
  unfold df_products_gross_profit. rewrite in_map_iff. cbv zeta. split.
  - intros ([ p g ] & <- & Hg). cbn [fst snd gp_Item_Description].
    pose proof (groupby_group_nonempty _ _ _ _ Hg) as Hpos.
    apply groupby_In in Hg. destruct Hg as [ _ -> ]. split; [ | reflexivity ].
    intros E. rewrite E in Hpos. simpl in Hpos. lia.
  - intros [ Hne Hrow ].
    exists (gp_Item_Description row,
            filter (fun r => eqb (Item_Description r) (gp_Item_Description row)) df).
    split; [ symmetry; exact Hrow | ].
    apply groupby_In. split; [ | reflexivity ].
    destruct (filter _ df) as [ | r g ] eqn:E; [ contradiction | ].
    assert (Hr : In r (filter (fun r => eqb (Item_Description r) (gp_Item_Description row)) df))
      by (rewrite E; left; reflexivity).
    apply filter_In in Hr. destruct Hr as [ Hr Hk ]. apply eqb_eq in Hk.
    rewrite <- Hk. apply in_map. exact Hr.
Qed.

(** X11: the top-10 gross-profit chart shows at most ten products, none
    twice; the bar of a product is the sum of the retail amounts of its line
    items less the sum of their costs; the bars stand in falling order of
    gross profit, and a product that is left out has a gross profit no greater
    than any bar shown. *)
Theorem df_products_gross_profit_top_10_ranked (df : DataFrame) :
  let out := df_products_gross_profit_top_10 df in
  let rows p := filter (fun r => eqb (Item_Description r) p) df in
  let gp p := (Qsum (map Retail (rows p)) - Qsum (map Cost (rows p)))%Q in
  (length out <= 10)%nat /\
  NoDup (map gp_Item_Description out) /\
  (forall row, In row out ->
     rows (gp_Item_Description row) <> [] /\
     Gross_Profit row = gp (gp_Item_Description row)) /\
  StronglySorted (fun a b => (Gross_Profit b <= Gross_Profit a)%Q) out /\
  (forall r, In r df -> ~ In (Item_Description r) (map gp_Item_Description out) ->
     length out = 10%nat /\
     forall row, In row out -> (gp (Item_Description r) <= Gross_Profit row)%Q).
Proof.
  cbv zeta. unfold df_products_gross_profit_top_10.
  split; [ apply head_sort_values_length | ].
  split; [ | split; [ | split ] ].
  - apply head_sort_values_NoDup. unfold df_products_gross_profit.
    rewrite map_map. cbn [gp_Item_Description].
    change (map (fun g : string * list Row => fst g)) with
      (map (@fst string (list Row))).
    apply groupby_NoDup.
  - intros row Hrow. apply head_sort_values_In in Hrow.
    apply df_products_gross_profit_In in Hrow. cbv zeta in Hrow.
    destruct Hrow as [ Hne Hrow ]. split; [ exact Hne | ].
    rewrite Hrow at 1. reflexivity.
  - eapply StronglySorted_weaken;
      [ | apply head_sort_values_sorted;
          [ apply descending_Q_total | apply descending_Q_trans ] ].
    intros a b. unfold descending_Q. apply Qle_bool_iff.
  - intros r Hr Hout.
    set (p := Item_Description r).
    set (g := filter (fun r' => eqb (Item_Description r') p) df).
    set (row := mkProductGrossProfit p (Qsum (map Retail g)) (Qsum (map Cost g))
                  (Qsum (map Retail g) - Qsum (map Cost g))%Q).
    assert (Hrow : In row (df_products_gross_profit df)).
    { apply df_products_gross_profit_In. cbv zeta. cbn [gp_Item_Description row].
      split; [ | reflexivity ].
      intros E. assert (Hin : In r g).
      { apply filter_In. split; [ exact Hr | apply eqb_refl ]. }
      fold g in E. rewrite E in Hin. contradiction. }
    destruct (head_sort_values_left_out (descending_Q Gross_Profit)
                (descending_Q_total _) (descending_Q_trans _) 10 _ row Hrow)
      as [ Hlen Hle ].
    { intros Hin. apply Hout. apply in_map_iff. exists row. split; [ reflexivity | exact Hin ]. }
    split; [ exact Hlen | ].
    intros row' Hrow'. specialize (Hle row' Hrow').
    unfold descending_Q in Hle. apply Qle_bool_iff in Hle. exact Hle.
Qed.

(** ** Counts summed again by one of their keys *)

(** A frame of counts per key, summed by a part of the key, counts the rows
    of the table that carry that part. *)
Lemma regroup_counts {A R K} `{Key K} (key : A -> K) (proj : K -> string)
    (mk : K * list A -> R) (rkey : R -> string) (Sctno : R -> Z) (df : list A) :
  (forall g, rkey (mk g) = proj (fst g)) ->
  (forall g, Sctno (mk g) = count (snd g)) ->
  forall m v,
    In (m, v) (map (fun g => (fst g, Zsum (map Sctno (snd g))))
                   (groupby rkey (map mk (groupby key df))))
    <-> 0 < count (filter (fun r => eqb (proj (key r)) m) df) /\
        v = count (filter (fun r => eqb (proj (key r)) m) df).
Proof.
  intros Hkey Hcount m v.
  assert (Hsum : Zsum (map Sctno (filter (fun r => eqb (rkey r) m)
                                         (map mk (groupby key df))))
                 = count (filter (fun r => eqb (proj (key r)) m) df)).
  { rewrite filter_map_swap, map_map.
    erewrite map_ext; [ | intros g; apply Hcount ].
    rewrite <- (map_map snd count), Zsum_counts. unfold count. f_equal.
    erewrite filter_ext; [ | intros g; rewrite Hkey; reflexivity ].
    apply (Permutation_length (groupby_partition_proj key proj m df)). }
  rewrite in_map_iff. split.
  - intros ([ m' g ] & E & Hg). cbn [fst snd] in E. inversion E; subst m' v. clear E.
    apply groupby_In in Hg. destruct Hg as [ Hm -> ]. rewrite Hsum.
    split; [ | reflexivity ].
    apply count_pos_In. apply in_map_iff in Hm. destruct Hm as (row & <- & Hrow).
    apply in_map_iff in Hrow. destruct Hrow as ([ k g ] & <- & Hg).
    apply groupby_In in Hg. destruct Hg as [ Hk _ ].
    apply in_map_iff in Hk. destruct Hk as (r & <- & Hr).
    exists r. split; [ exact Hr | ]. rewrite Hkey. apply eqb_refl.
  - intros [ Hpos -> ]. apply count_pos_In in Hpos. destruct Hpos as (r & Hr & Hm).
    apply eqb_eq in Hm.
    exists (m, filter (fun row => eqb (rkey row) m) (map mk (groupby key df))).
    cbn [fst snd]. rewrite Hsum. split; [ reflexivity | ].
    apply groupby_In. split; [ | reflexivity ].
    apply in_map_iff.
    exists (mk (key r, filter (fun r' => eqb (key r') (key r)) df)).
    split; [ rewrite Hkey; exact Hm | ].
    apply in_map, groupby_In. split; [ apply in_map; exact Hr | reflexivity ].
Qed.

Lemma regroup_counts_NoDup {R} (rkey : R -> string) (Sctno : R -> Z)
    (t : list R) :
  NoDup (map fst (map (fun g => (fst g, Zsum (map Sctno (snd g)))) (groupby rkey t))).
Proof.
  rewrite map_map. cbn [fst].
  change (map (fun g : string * list R => fst g)) with (map (@fst string (list R))).
  apply groupby_NoDup.
Qed.

(** X12: the payer select box offers every payer of the table, each once,
    in falling order of the number of the payer's line items. *)
Theorem medical_aids_by_line_items (df : DataFrame) :
  let rows m := count (filter (fun r => eqb (Medical_Aid r) m) df) in
  NoDup (medical_aids df) /\
  (forall m, In m (medical_aids df) <-> exists r, In r df /\ Medical_Aid r = m) /\
  StronglySorted (fun a b => rows b <= rows a) (medical_aids df).
Proof.
  cbv zeta. unfold medical_aids, sum_Sctno_descending, df_product_medical_aid.
  set (sums := map (fun g => (fst g, Zsum (map ma_Sctno (snd g))))
                   (groupby ma_Medical_Aid
                      (map (fun g : string * string * list Row =>
                              mkMedicalAidRow (fst (fst g)) (snd (fst g)) (count (snd g)))
                           (groupby (fun r => (Medical_Aid r, Item_Description r)) df)))).
  assert (Hsums : forall m v, In (m, v) sums <->
            0 < count (filter (fun r => eqb (Medical_Aid r) m) df) /\
            v = count (filter (fun r => eqb (Medical_Aid r) m) df)).
  { intros m v.
    apply (regroup_counts (fun r => (Medical_Aid r, Item_Description r)) fst
             (fun g : string * string * list Row =>
                mkMedicalAidRow (fst (fst g)) (snd (fst g)) (count (snd g)))
             ma_Medical_Aid ma_Sctno df); intros [ [ m' p ] g ]; reflexivity. }
  split; [ | split ].
  - apply (Permutation_NoDup (l := map fst sums)).
    + apply Permutation_map, Permutation_sym, sort_values_perm.
    + apply regroup_counts_NoDup.
  - intros m. rewrite in_map_iff. split.
    + intros ([ m' v ] & <- & Hin). apply sort_values_In, Hsums in Hin.
      destruct Hin as [ Hpos _ ]. apply count_pos_In in Hpos.
      destruct Hpos as (r & Hr & Hm). apply eqb_eq in Hm. exists r. auto.
    + intros (r & Hr & <-).
      exists (Medical_Aid r, count (filter (fun r' => eqb (Medical_Aid r') (Medical_Aid r)) df)).
      split; [ reflexivity | ]. apply sort_values_In, Hsums.
      split; [ | reflexivity ]. apply count_pos_In.
      exists r. split; [ exact Hr | apply eqb_refl ].
  - apply StronglySorted_map_inv.
    eapply StronglySorted_weaken_In;
      [ | apply sort_values_sorted; [ apply descending_total | apply descending_trans ] ].
    intros [ a va ] [ b vb ] Ha Hb. cbn [fst].
    apply sort_values_In, Hsums in Ha. apply sort_values_In, Hsums in Hb.
    destruct Ha as [ _ <- ], Hb as [ _ <- ]. unfold descending. cbn [snd].
    apply Z.leb_le.
Qed.

(** ** The external doctors' ranking *)

(** X13: when the list of external doctors is built without an error, the
    top-5 list holds at most five doctors, none twice, each of them off the
    roster, other than the dispensary and with a line item in the table; they
    stand in falling order of their number of line items over the whole
    period, and an external doctor that is left out has no more line items
    than any doctor listed. *)
Theorem top_5_external_doctors_ranked (df : DataFrame) (top : list string) :
  top_5_external_doctors df = Ok top ->
  let rows d := count (filter (fun r => eqb (Doctor r) d) df) in
  let external d := d <> "KRMC DISPENSARY" /\ ~ In d krmc_doctors in
  (length top <= 5)%nat /\
  NoDup top /\
  (forall d, In d top -> external d /\ 0 < rows d) /\
  StronglySorted (fun a b => rows b <= rows a) top /\
  (forall d, external d -> 0 < rows d -> ~ In d top ->
             length top = 5%nat /\ forall e, In e top -> rows d <= rows e).
Proof.
  unfold top_5_external_doctors, df_external_doctors_monthly_volume,
    df_external_doctors.
  destruct (external_doctors df) as [ ext | e ] eqn:Hext; [ | discriminate ].
  cbn [bind]. intros Htop.
  apply (f_equal (fun r => match r with Ok a => a | Raise _ => [] end)) in Htop.
  cbv beta iota in Htop. subst top. cbv zeta.
  unfold sum_Sctno_descending.
  set (E := filter (fun r => isin (Doctor r) ext) df).
  set (sums := map (fun g => (fst g, Zsum (map dm_Sctno (snd g))))
                   (groupby dm_Doctor
                      (map (fun g : string * string * list Row =>
                              mkDoctorMonth (fst (fst g)) (snd (fst g)) (count (snd g)))
                           (groupby (fun r => (Script_Date_Month r, Doctor r)) E)))).
  assert (Hext_In : forall d, In d ext <->
            d <> "KRMC DISPENSARY" /\ ~ In d krmc_doctors /\
            exists r, In r df /\ Doctor r = d).
  { intros d. unfold external_doctors in Hext.
    rewrite (list_remove_Ok _ _ _ (unique_NoDup _) Hext d), not_roster_doctors_In.
    tauto. }
  assert (HE : forall d, In d ext ->
            filter (fun r => eqb (Doctor r) d) E = filter (fun r => eqb (Doctor r) d) df).
  { intros d Hd. unfold E. rewrite filter_comm.
    rewrite forallb_filter_id; [ reflexivity | ].
    apply forallb_forall. intros r Hr. apply filter_In in Hr.
    destruct Hr as [ _ Hr ]. apply eqb_eq in Hr. apply isin_In. rewrite Hr. exact Hd. }
  assert (Hsums : forall d v, In (d, v) sums <->
            In d ext /\ v = count (filter (fun r => eqb (Doctor r) d) df)).
  { intros d v. unfold sums.
    rewrite (regroup_counts (fun r => (Script_Date_Month r, Doctor r)) snd
               (fun g : string * string * list Row =>
                  mkDoctorMonth (fst (fst g)) (snd (fst g)) (count (snd g)))
               dm_Doctor dm_Sctno E)
      by (intros [ [ m' p ] g ]; reflexivity).
    cbn [snd]. split.
    - intros [ Hpos -> ].
      assert (Hd : In d ext).
      { apply count_pos_In in Hpos. destruct Hpos as (r & Hr & Hk).
        apply eqb_eq in Hk. apply filter_In in Hr. destruct Hr as [ _ Hr ].
        apply isin_In in Hr. rewrite <- Hk. exact Hr. }
      rewrite (HE d Hd). auto.
    - intros [ Hd -> ]. rewrite (HE d Hd). split; [ | reflexivity ].
      apply count_pos_In. apply Hext_In in Hd. destruct Hd as (_ & _ & r & Hr & Hk).
      exists r. split; [ exact Hr | ]. apply eqb_eq. exact Hk. }
  assert (Hnd : NoDup (map fst sums)) by apply regroup_counts_NoDup.
  assert (Hpos : forall d, In d ext -> 0 < count (filter (fun r => eqb (Doctor r) d) df)).
  { intros d Hd. apply count_pos_In. apply Hext_In in Hd.
    destruct Hd as (_ & _ & r & Hr & Hk). exists r. split; [ exact Hr | ].
    apply eqb_eq. exact Hk. }
  split; [ rewrite length_map; apply head_sort_values_length | ].
  split; [ apply head_sort_values_NoDup; exact Hnd | ].
  split; [ | split ].
  - intros d Hd. apply in_map_iff in Hd. destruct Hd as ([ d' v ] & <- & Hin).
    apply head_sort_values_In, Hsums in Hin. destruct Hin as [ Hin _ ]. cbn [fst].
    split; [ | apply Hpos; exact Hin ].
    apply Hext_In in Hin. tauto.
  - apply StronglySorted_map_inv.
    eapply StronglySorted_weaken_In;
      [ | apply head_sort_values_sorted;
          [ apply descending_total | apply descending_trans ] ].
    intros [ a va ] [ b vb ] Ha Hb. cbn [fst].
    apply head_sort_values_In, Hsums in Ha. apply head_sort_values_In, Hsums in Hb.
    destruct Ha as [ _ -> ], Hb as [ _ -> ]. unfold descending. cbn [snd].
    apply Z.leb_le.
  - intros d [ Hkd Hroster ] Hrows Hout.
    assert (Hd : In d ext).
    { apply Hext_In. split; [ exact Hkd | ]. split; [ exact Hroster | ].
      apply count_pos_In in Hrows. destruct Hrows as (r & Hr & Hk).
      apply eqb_eq in Hk. exists r. auto. }
    destruct (head_sort_values_left_out (descending (@snd string Z))
                (descending_total _) (descending_trans _) 5 sums
                (d, count (filter (fun r => eqb (Doctor r) d) df)))
      as [ Hlen Hle ].
    { apply Hsums. auto. }
    { intros Hin. apply Hout. apply in_map_iff. eexists. split; [ | exact Hin ]. reflexivity. }
    split; [ rewrite length_map; exact Hlen | ].
    intros e He. apply in_map_iff in He. destruct He as ([ e' v ] & <- & Hin).
    cbn [fst]. specialize (Hle _ Hin). unfold descending in Hle. cbn [snd] in Hle.
    apply Z.leb_le in Hle.
    apply head_sort_values_In, Hsums in Hin. destruct Hin as [ _ -> ]. exact Hle.
Qed.

(** ** The monthly charts of a product *)

Lemma NoDup_map_injective {A B} (f : A -> B) (l : list A) :
  (forall a b, f a = f b -> a = b) -> NoDup l -> NoDup (map f l).
Proof.
  intros Hinj. induction 1 as [ | a l Hnotin Hnd IH ]; simpl; constructor.
  - intros Hin. apply in_map_iff in Hin. destruct Hin as (b & E & Hb).
    apply Hinj in E. subst b. contradiction.
  - exact IH.
Qed.

(** In a strictly ascending list of pairs, the pairs with a given second
    part have strictly ascending first parts, and likewise with the parts
    exchanged. *)
Lemma sorted_pairs_fixed_snd {K1 K2} `{Key K1} `{Key K2} (c : K2) (l : list (K1 * K2)) :
  StronglySorted (fun a b => leb a b = true /\ a <> b) l ->
  StronglySorted (fun a b => leb a b = true /\ a <> b)
                 (map fst (filter (fun k => eqb (snd k) c) l)).
Proof.
  intros Hs. apply StronglySorted_map_inv.
  eapply StronglySorted_weaken_In; [ | apply StronglySorted_filter; exact Hs ].
  intros [ a1 a2 ] [ b1 b2 ] Ha Hb. apply filter_In in Ha, Hb.
  destruct Ha as [ _ Ha ], Hb as [ _ Hb ]. cbn [fst snd] in *.
  apply eqb_eq in Ha, Hb. subst a2 b2.
  change (leb (a1, c) (b1, c)) with (if eqb a1 b1 then leb c c else leb a1 b1).
  intros [ Hle Hne ]. destruct (eqb_spec a1 b1) as [ -> | Hab ].
  - exfalso. apply Hne. reflexivity.
  - auto.
Qed.

Lemma sorted_pairs_fixed_fst {K1 K2} `{Key K1} `{Key K2} (c : K1) (l : list (K1 * K2)) :
  StronglySorted (fun a b => leb a b = true /\ a <> b) l ->
  StronglySorted (fun a b => leb a b = true /\ a <> b)
                 (map snd (filter (fun k => eqb (fst k) c) l)).
Proof.
  intros Hs. apply StronglySorted_map_inv.
  eapply StronglySorted_weaken_In; [ | apply StronglySorted_filter; exact Hs ].
  intros [ a1 a2 ] [ b1 b2 ] Ha Hb. apply filter_In in Ha, Hb.
  destruct Ha as [ _ Ha ], Hb as [ _ Hb ]. cbn [fst snd] in *.
  apply eqb_eq in Ha, Hb. subst a1 b1.
  change (leb (c, a2) (c, b2)) with (if eqb c c then leb a2 b2 else leb c c).
  rewrite eqb_refl. intros [ Hle Hne ]. split; [ exact Hle | ].
  intros ->. apply Hne. reflexivity.
Qed.

Lemma groupby_keys_strict {A K} `{Key K} (key : A -> K) (df : list A) :
  StronglySorted (fun a b => leb a b = true /\ a <> b) (map fst (groupby key df)).
Proof. rewrite groupby_keys. apply sorted_unique_strict. Qed.

(** X14: the "Monthly Volume" line of a product has one point for each
    month bucket in which the product has a line item and no other point; the
    buckets stand in strictly ascending order of their ["YYYY-MM"] string, and
    the value of a point is the number of line items of the product in the
    bucket. *)
Theorem monthly_volume_of_item_series (df : DataFrame) (item : string) :
  let series := monthly_volume_of_item df item in
  StronglySorted (fun a b => String.leb a b = true /\ a <> b)
                 (map pm_Script_Date_Month series) /\
  (forall r, In r df -> Item_Description r = item ->
             In (Script_Date_Month r) (map pm_Script_Date_Month series)) /\
  (forall row, In row series ->
     pm_Item_Description row = item /\
     0 < pm_value row /\
     pm_value row =
       count (filter (fun r => eqb (Script_Date_Month r) (pm_Script_Date_Month row)
                               && eqb (Item_Description r) item) df)).
Proof.
  cbv zeta. unfold monthly_volume_of_item, df_product_monthly_volume, monthly.
  split; [ | split ].
  - rewrite filter_map_swap, map_map. cbn [pm_Script_Date_Month pm_Item_Description].
    pose proof (sorted_pairs_fixed_snd item _
                  (groupby_keys_strict (fun r => (Script_Date_Month r, Item_Description r)) df))
      as Hs.
    rewrite filter_map_swap, map_map in Hs. exact Hs.
  - intros r Hr <-. apply in_map_iff.
    eexists. split; [ | apply filter_In; split ].
    2:{ apply in_map_iff.
        exists ((Script_Date_Month r, Item_Description r),
                filter (fun r' => eqb (Script_Date_Month r', Item_Description r')
                                      (Script_Date_Month r, Item_Description r)) df).
        split; [ reflexivity | ]. apply groupby_In. split; [ | reflexivity ].
        apply (in_map (fun r => (Script_Date_Month r, Item_Description r))). exact Hr. }
    + reflexivity.
    + cbn [pm_Item_Description snd fst]. apply eqb_refl.
  - intros row Hrow. apply filter_In in Hrow. destruct Hrow as [ Hrow Hitem ].
    apply eqb_eq in Hitem. apply in_map_iff in Hrow.
    destruct Hrow as ([ [ sdm p ] g ] & <- & Hg). cbn [fst snd pm_Item_Description
      pm_value pm_Script_Date_Month] in *. subst p.
    pose proof (groupby_group_nonempty _ _ _ _ Hg) as Hpos.
    apply groupby_In in Hg. destruct Hg as [ _ -> ].
    split; [ reflexivity | ]. split; [ unfold count; lia | reflexivity ].
Qed.

Lemma product_month_groups_NoDup (df : DataFrame) :
  NoDup (map (fun g : string * string * list Row =>
                (dt_month (fst (fst g)), (snd (fst g), fst (fst g))))
             (groupby (fun r => (Script_Date_Month r, Item_Description r)) df)).
Proof.
  rewrite <- (map_map fst (fun k : string * string => (dt_month (fst k), (snd k, fst k)))).
  apply NoDup_map_injective; [ | apply groupby_NoDup ].
  intros [ a1 a2 ] [ b1 b2 ] E. cbn [fst snd] in E. inversion E. reflexivity.
Qed.

Lemma df_product_monthly_volume_quantity_groups (df : DataFrame) :
  df_product_monthly_volume_quantity df =
  map (fun g : string * string * list Row =>
         (mkProductMonth (fst (fst g)) (snd (fst g)) (count (snd g))
                         (dt_month (fst (fst g))),
          mkProductMonth (fst (fst g)) (snd (fst g)) (Qsum (map Qty (snd g)))
                         (dt_month (fst (fst g)))))
      (groupby (fun r => (Script_Date_Month r, Item_Description r)) df).
Proof.
  unfold df_product_monthly_volume_quantity, df_product_monthly_volume,
    df_product_monthly_qty, monthly.
  apply (merge_same_groups
           (fun g : string * string * list Row =>
              (dt_month (fst (fst g)), (snd (fst g), fst (fst g))))).
  - intros g. reflexivity.
  - intros g. reflexivity.
  - apply product_month_groups_NoDup.
Qed.

(** X15: the monthly-average chart of a product carries the month numbers
    on its x axis in strictly ascending numeric order, one point for each
    month number in which the product has a bucket and no other point. *)
Theorem monthly_average_of_item_months (df : DataFrame) (item : string) :
  let months := map fst (monthly_average_of_item df item) in
  StronglySorted Z.lt months /\
  forall m, In m months <->
            exists r, In r df /\ Item_Description r = item /\
                      dt_month (Script_Date_Month r) = m.
Proof.
  cbv zeta. unfold monthly_average_of_item. rewrite map_map. cbn [fst].
  change (map (fun g : Z * list (ProductMonth Z * ProductMonth Q) => fst g))
    with (map (@fst Z (list (ProductMonth Z * ProductMonth Q)))).
  split.
  - eapply StronglySorted_weaken; [ | apply groupby_keys_strict ].
    intros a b [ Hle Hne ]. apply Z.leb_le in Hle. lia.
  - intros m. rewrite groupby_keys, sort_values_In, unique_In.
    rewrite df_product_monthly_volume_quantity_groups, filter_map_swap, map_map.
    cbn [fst pm_Month pm_Item_Description]. rewrite in_map_iff. split.
    + intros ([ [ sdm p ] g ] & <- & Hg). cbn [fst snd] in *.
      apply filter_In in Hg. destruct Hg as [ Hg Hp ]. cbn [fst snd] in Hp.
      apply eqb_eq in Hp. subst p. apply groupby_In in Hg. destruct Hg as [ Hk _ ].
      apply in_map_iff in Hk. destruct Hk as (r & E & Hr). inversion E.
      exists r. auto.
    + intros (r & Hr & <- & <-).
      exists ((Script_Date_Month r, Item_Description r),
              filter (fun r' => eqb (Script_Date_Month r', Item_Description r')
                                    (Script_Date_Month r, Item_Description r)) df).
      split; [ reflexivity | ]. apply filter_In. split.
      * apply groupby_In. split; [ | reflexivity ].
        apply (in_map (fun r => (Script_Date_Month r, Item_Description r))). exact Hr.
      * cbn [fst snd]. apply eqb_refl.
Qed.

(** ** The month bucket and its month number *)

Lemma digits_no_dash (d : Decimal.uint) :
  Forall (fun c => c <> "-"%char) (list_ascii_of_string (NilEmpty.string_of_uint d)).
Proof. induction d; simpl; constructor; (discriminate || assumption). Qed.

Lemma astype_str_no_dash (n : Z) :
  0 <= n -> Forall (fun c => c <> "-"%char) (list_ascii_of_string (astype_str n)).
Proof.
  intros Hn. unfold astype_str. destruct n as [ | p | p ]; [ | | lia ].
  - simpl. constructor; [ discriminate | constructor ].
  - unfold Z.to_int, NilZero.string_of_int, NilZero.string_of_uint.
    destruct (Pos.to_uint p) eqn:E; try (rewrite <- E; apply digits_no_dash).
    simpl. constructor; [ discriminate | constructor ].
Qed.

(** In a string that starts with a dash-free part and a dash, the first dash
    is the one after that part. *)
Lemma index_first_dash (Y rest : string) :
  Forall (fun c => c <> "-"%char) (list_ascii_of_string Y) ->
  String.index 0 "-" (Y ++ String "-" rest) = Some (String.length Y).
Proof.
  induction Y as [ | a Y IH ]; intros Hno.
  - cbn [String.append String.length String.index].
    rewrite (proj2 (prefix_correct "-" (String "-" rest))); [ reflexivity | ].
    destruct rest; reflexivity.
  - cbn [list_ascii_of_string] in Hno. inversion Hno as [ | ? ? Ha Hno' ]; subst.
    cbn [String.append String.length String.index].
    destruct (prefix "-" (String a (Y ++ String "-" rest))) eqn:Hp.
    + apply prefix_correct in Hp. cbn in Hp. inversion Hp. congruence.
    + rewrite (IH Hno'). reflexivity.
Qed.

Lemma substring_after (Y rest : string) (n m : nat) :
  substring (String.length Y + n) m (Y ++ rest) = substring n m rest.
Proof. induction Y as [ | a Y IH ]; [ reflexivity | exact IH ]. Qed.

(** X16: for a date of a four-digit year, the month number read back from
    the ["YYYY-MM"] bucket of the date is the month of the date. *)
Theorem dt_month_period_M_str (d : date) :
  1000 <= year d <= 9999 -> 1 <= month d <= 12 ->
  dt_month (period_M_str d) = month d.
Proof.
  intros Hy Hm. unfold dt_month, period_M_str. cbv zeta.
  set (M := ((if (month d <? 10)%Z then "0" else "") ++ astype_str (month d))%string).
  change ("-" ++ M)%string with (String "-" M).
  rewrite index_first_dash by (apply astype_str_no_dash; lia).
  replace (S (String.length (astype_str (year d))))
    with (String.length (astype_str (year d)) + 1)%nat by lia.
  rewrite substring_after. cbn [substring]. unfold M. clear M.
  destruct d as [ y m dd ]. cbn [month] in *.
  assert (Hcases : m = 1 \/ m = 2 \/ m = 3 \/ m = 4 \/ m = 5 \/ m = 6 \/
                   m = 7 \/ m = 8 \/ m = 9 \/ m = 10 \/ m = 11 \/ m = 12) by lia.
  repeat (destruct Hcases as [ -> | Hcases ]; [ reflexivity | ]).
  subst m. reflexivity.
Qed.

(** ** The roster doctors *)

(** X17: the moving averages of one roster doctor's rows, read off
    [df_int_docs_gp] in row order, are the rolling mean of that doctor's daily
    gross profits; the doctor's rows stand in strictly ascending date order,
    and the frame holds roster doctors only. *)
Theorem doctor_gross_profit_moving_avg_per_doctor (w : nat) (df : DataFrame)
    (doctor : string) :
  let series := filter (fun r => eqb (dd_Doctor r) doctor) (df_int_docs_gp df) in
  map snd (filter (fun p => eqb (dd_Doctor (fst p)) doctor)
                  (combine (df_int_docs_gp df) (doctor_gross_profit_moving_avg w df)))
  = rolling_mean w (map dd_gross_profit series) /\
  StronglySorted (fun a b => leb a b = true /\ a <> b) (map dd_Script_Date series) /\
  (forall row, In row (df_int_docs_gp df) -> In (dd_Doctor row) krmc_doctors).
Proof.
  cbv zeta. split; [ | split ].
  - unfold doctor_gross_profit_moving_avg, transform.
    rewrite (transform_from_group dd_Doctor _ None doctor (df_int_docs_gp df))
      with (seen := []).
    + reflexivity.
    + intros g. unfold rolling_mean. rewrite roll_mean_length. apply length_map.
  - unfold df_int_docs_gp. rewrite filter_map_swap, map_map.
    cbn [dd_Script_Date dd_Doctor].
    pose proof (sorted_pairs_fixed_fst doctor _
                  (groupby_keys_strict (fun r => (Doctor r, Script_Date r))
                     (filter (fun r => isin (Doctor r) krmc_doctors) df))) as Hs.
    rewrite filter_map_swap, map_map in Hs. exact Hs.
  - intros row Hrow. unfold df_int_docs_gp in Hrow. apply in_map_iff in Hrow.
    destruct Hrow as ([ [ d day ] g ] & <- & Hg). cbn [dd_Doctor fst].
    apply groupby_In in Hg. destruct Hg as [ Hk _ ].
    apply in_map_iff in Hk. destruct Hk as (r & E & Hr). inversion E; subst.
    apply filter_In in Hr. destruct Hr as [ _ Hr ]. apply isin_In in Hr. exact Hr.
Qed.

Lemma filter_nil_all {A} (p : A -> bool) (l : list A) :
  (forall a, In a l -> p a = false) -> filter p l = [].
Proof.
  induction l as [ | a l IH ]; intros Hall; [ reflexivity | ].
  simpl. rewrite (Hall a) by (left; reflexivity).
  apply IH. intros b Hb. apply Hall. right. exact Hb.
Qed.

Lemma filter_filter_andb {A} (p q : A -> bool) (l : list A) :
  filter p (filter q l) = filter (fun a => q a && p a) l.
Proof.
  induction l as [ | a l IH ]; [ reflexivity | ].
  simpl. destruct (q a); simpl; [ destruct (p a) | ]; rewrite IH; reflexivity.
Qed.

Lemma df_krmc_doctors_top_5_Doctor (df : DataFrame) (krmc_doctor : string)
    (row : DoctorItem) :
  In row (df_krmc_doctors_top_5 df krmc_doctor) -> di_Doctor row = krmc_doctor.
Proof.
  unfold df_krmc_doctors_top_5, df_krmc_doctors. intros Hrow.
  apply in_map_iff in Hrow. destruct Hrow as ([ [ d p ] g ] & <- & Hg).
  cbn [di_Doctor fst]. apply groupby_In in Hg. destruct Hg as [ Hk _ ].
  apply in_map_iff in Hk. destruct Hk as (r & E & Hr). inversion E; subst.
  apply filter_In in Hr. destruct Hr as [ _ Hr ]. apply eqb_eq in Hr. exact Hr.
Qed.

Lemma dict_get_of_keys {V} (f : string -> V) (keys : list string) (k : string)
    (default : V) :
  dict_get (map (fun key => (key, f key)) keys) k default
  = if isin k keys then f k else default.
Proof.
  unfold dict_get, isin. induction keys as [ | a keys IH ]; [ reflexivity | ].
  cbn [map find fst existsb].
  rewrite (eqb_sym k a).
  destruct (eqb_spec a k) as [ -> | Hne ]; [ reflexivity | ]. exact IH.
Qed.

(** X18: the loop over the roster reads a frame that holds the selected
    doctor only, so the entry of every other doctor in [doctor_items_dict] is
    the empty list (as is the default of a doctor off the roster). *)
Theorem doctor_items_dict_other_doctors (df : DataFrame) (krmc_doctor doctor : string) :
  doctor <> krmc_doctor ->
  doctor_top_5 df krmc_doctor doctor = [] /\
  dict_get (doctor_items_dict df krmc_doctor) doctor [] = [].
Proof.
  intros Hne.
  assert (Hempty : doctor_top_5 df krmc_doctor doctor = []).
  { unfold doctor_top_5. rewrite filter_nil_all; [ reflexivity | ].
    intros row Hrow. apply df_krmc_doctors_top_5_Doctor in Hrow.
    apply eqb_neq. congruence. }
  split; [ exact Hempty | ].
  unfold doctor_items_dict.
  rewrite (dict_get_of_keys (fun d => map fst (doctor_top_5 df krmc_doctor d))).
  rewrite Hempty. destruct (isin doctor krmc_doctors); reflexivity.
Qed.

(** X19: the top-5 products of the selected doctor are ranked by the number
    of the doctor's line items of each product: each bar carries that count,
    the bars stand in falling order, there are at most five, no product
    twice, and a product of the doctor that is left out has no more line items
    than any product shown.  For a roster doctor the entry of
    [doctor_items_dict] is the list of these products. *)
Theorem doctor_top_5_by_line_items (df : DataFrame) (krmc_doctor : string) :
  let out := doctor_top_5 df krmc_doctor krmc_doctor in
  let rows p := count (filter (fun r => eqb (Doctor r) krmc_doctor
                                        && eqb (Item_Description r) p) df) in
  (length out <= 5)%nat /\
  NoDup (map fst out) /\
  (forall p v, In (p, v) out -> v = rows p /\ 0 < v) /\
  StronglySorted (fun a b => snd b <= snd a) out /\
  (forall p, 0 < rows p -> ~ In p (map fst out) ->
             length out = 5%nat /\ forall q v, In (q, v) out -> rows p <= v) /\
  (In krmc_doctor krmc_doctors ->
   dict_get (doctor_items_dict df krmc_doctor) krmc_doctor [] = map fst out).
Proof.
  cbv zeta. unfold doctor_top_5, sum_Sctno_descending.
  rewrite forallb_filter_id
    by (apply forallb_forall; intros row Hrow; apply eqb_eq;
        apply (df_krmc_doctors_top_5_Doctor df krmc_doctor row Hrow)).
  unfold df_krmc_doctors_top_5.
  set (sums := map (fun g => (fst g, Zsum (map di_Sctno (snd g))))
                   (groupby di_Item_Description
                      (map (fun g : string * string * list Row =>
                              mkDoctorItem (fst (fst g)) (snd (fst g)) (count (snd g)))
                           (groupby (fun r => (Doctor r, Item_Description r))
                                    (df_krmc_doctors df krmc_doctor))))).
  assert (Hsums : forall p v, In (p, v) sums <->
            0 < count (filter (fun r => eqb (Doctor r) krmc_doctor
                                        && eqb (Item_Description r) p) df) /\
            v = count (filter (fun r => eqb (Doctor r) krmc_doctor
                                        && eqb (Item_Description r) p) df)).
  { intros p v. unfold sums.
    rewrite (regroup_counts (fun r => (Doctor r, Item_Description r)) snd
               (fun g : string * string * list Row =>
                  mkDoctorItem (fst (fst g)) (snd (fst g)) (count (snd g)))
               di_Item_Description di_Sctno (df_krmc_doctors df krmc_doctor))
      by (intros [ [ d' p' ] g ]; reflexivity).
    cbn [snd]. unfold df_krmc_doctors. rewrite filter_filter_andb. reflexivity. }
  assert (Hnd : NoDup (map fst sums)) by apply regroup_counts_NoDup.
  split; [ apply head_sort_values_length | ].
  split; [ apply head_sort_values_NoDup; exact Hnd | ].
  split; [ | split; [ | split ] ].
  - intros p v Hin. apply head_sort_values_In, Hsums in Hin. lia.
  - eapply StronglySorted_weaken;
      [ | apply head_sort_values_sorted;
          [ apply descending_total | apply descending_trans ] ].
    intros a b. unfold descending. apply Z.leb_le.
  - intros p Hp Hout.
    destruct (head_sort_values_left_out (descending (@snd string Z))
                (descending_total _) (descending_trans _) 5 sums
                (p, count (filter (fun r => eqb (Doctor r) krmc_doctor
                                            && eqb (Item_Description r) p) df)))
      as [ Hlen Hle ].
    { apply Hsums. auto. }
    { intros Hin. apply Hout. apply in_map_iff. eexists. split; [ | exact Hin ]. reflexivity. }
    split; [ exact Hlen | ].
    intros q v Hq. specialize (Hle _ Hq). unfold descending in Hle. cbn [snd] in Hle.
    apply Z.leb_le in Hle. exact Hle.
  - intros Hroster. unfold doctor_items_dict.
    rewrite (dict_get_of_keys (fun d => map fst (doctor_top_5 df krmc_doctor d))).
    apply isin_In in Hroster. rewrite Hroster.
    unfold doctor_top_5, sum_Sctno_descending.
    rewrite forallb_filter_id
      by (apply forallb_forall; intros row Hrow; apply eqb_eq;
          apply (df_krmc_doctors_top_5_Doctor df krmc_doctor row Hrow)).
    reflexivity.
Qed.

(** ** The months of the roster doctors' chart *)

Lemma codes_leb_total (a b : option nat) : codes_leb a b = true \/ codes_leb b a = true.
Proof.
  destruct a as [ i | ], b as [ j | ]; simpl; auto.
  rewrite !Nat.leb_le. lia.
Qed.

Lemma codes_leb_trans (a b c : option nat) :
  codes_leb a b = true -> codes_leb b c = true -> codes_leb a c = true.
Proof.
  destruct a as [ i | ], b as [ j | ], c as [ k | ]; simpl; auto; try discriminate.
  rewrite !Nat.leb_le. lia.
Qed.

Lemma category_code_month_label (m : Z) :
  1 <= m <= 12 ->
  category_code month_categories (month_label m) = Some (Z.to_nat (m - 1)).
Proof.
  intros Hm.
  assert (Hcases : m = 1 \/ m = 2 \/ m = 3 \/ m = 4 \/ m = 5 \/ m = 6 \/
                   m = 7 \/ m = 8 \/ m = 9 \/ m = 10 \/ m = 11 \/ m = 12) by lia.
  repeat (destruct Hcases as [ -> | Hcases ]; [ reflexivity | ]).
  subst m. reflexivity.
Qed.

(** X20: the "Top 5 Products by Month" chart of a roster doctor carries its
    rows in calendar order: the month labels stand by their place among the
    categories Jan to Dec (a label that is no category would come last), and
    the label of month number m, from 1 to 12, has place m - 1.  Every row is
    one of the doctor's listed products, and its label is the label of the
    month number of a bucket in which the doctor has a line item of the
    product. *)
Theorem top_5_products_by_month_calendar_order (df : DataFrame) (krmc_doctor : string) :
  let out := top_5_products_by_month df krmc_doctor in
  StronglySorted
    (fun a b => codes_leb (category_code month_categories (im_Month a))
                          (category_code month_categories (im_Month b)) = true) out /\
  (forall m, 1 <= m <= 12 ->
             category_code month_categories (month_label m) = Some (Z.to_nat (m - 1))) /\
  (forall row, In row out ->
     In (im_Item_Description row)
        (dict_get (doctor_items_dict df krmc_doctor) krmc_doctor []) /\
     exists r, In r df /\ Doctor r = krmc_doctor /\
               Item_Description r = im_Item_Description row /\
               im_Month row = month_label (dt_month (Script_Date_Month r))).
Proof.
  cbv zeta. unfold top_5_products_by_month. split; [ | split ].
  - apply sort_values_sorted.
    + intros a b. apply codes_leb_total.
    + intros a b c. apply codes_leb_trans.
  - apply category_code_month_label.
  - intros row Hrow. apply sort_values_In, filter_In in Hrow.
    destruct Hrow as [ Hrow Hitem ]. apply isin_In in Hitem.
    split; [ exact Hitem | ]. clear Hitem.
    apply in_map_iff in Hrow. destruct Hrow as ([ [ p lbl ] g ] & <- & Hg).
    cbn [im_Item_Description im_Month fst snd].
    apply groupby_In in Hg. destruct Hg as [ Hk _ ].
    apply in_map_iff in Hk. destruct Hk as (rowB & E & HrowB). inversion E; subst p lbl.
    clear E. apply filter_In in HrowB. destruct HrowB as [ HrowB Hdoc ].
    apply eqb_eq in Hdoc. unfold df_int_docs_ma in HrowB.
    apply in_map_iff in HrowB. destruct HrowB as (rowN & <- & HrowN).
    cbn [dmm_Item_Description dmm_Month dmm_Doctor] in *.
    apply sort_values_In, in_map_iff in HrowN.
    destruct HrowN as ([ [ m [ d p ] ] gB ] & <- & HgB).
    cbn [dmm_Item_Description dmm_Month dmm_Doctor fst snd] in *. subst d.
    apply groupby_In in HgB. destruct HgB as [ HkB _ ].
    apply in_map_iff in HkB. destruct HkB as (bucket & E & Hbucket).
    inversion E; subst m p. clear E.
    unfold df_int_docs_ma_buckets in Hbucket. apply in_map_iff in Hbucket.
    destruct Hbucket as ([ [ sdm [ d p ] ] gA ] & <- & HgA).
    cbn [db_Month db_Doctor db_Item_Description fst snd] in *.
    apply groupby_In in HgA. destruct HgA as [ HkA _ ].
    apply in_map_iff in HkA. destruct HkA as (r & E & Hr). inversion E; subst sdm d p.
    apply filter_In in Hr. destruct Hr as [ Hr _ ].
    exists r. repeat split; auto.
Qed.

(** ** The daily gross profit *)

(** X23: [df_fa_gp] has one row for each date of the table, in strictly
    ascending date order, and the moving average of the gross profit has one
    point for each of these dates, whatever the window. *)
Theorem df_fa_gp_one_row_per_date (rolling_window : nat) (df : DataFrame) :
  StronglySorted (fun a b => leb a b = true /\ a <> b) (map fst (df_fa_gp df)) /\
  (forall d, In d (map fst (df_fa_gp df)) <-> exists r, In r df /\ Script_Date r = d) /\
  length (gross_profit_moving_avg rolling_window df)
  = length (distinct (map Script_Date df)).
Proof.
  assert (Hkeys : map fst (df_fa_gp df) = map fst (groupby Script_Date df)).
  { unfold df_fa_gp. rewrite map_map. reflexivity. }
  split; [ | split ].
  - rewrite Hkeys. apply groupby_keys_strict.
  - intros d. rewrite Hkeys, groupby_keys, sort_values_In, unique_In, in_map_iff.
    split; intros (r & H1 & H2); exists r; auto.
  - unfold gross_profit_moving_avg, rolling_mean.
    rewrite roll_mean_length, length_map, <- (length_map fst), Hkeys, groupby_keys.
    rewrite sort_values_length. apply length_unique_distinct.
Qed.

(** ** The theorems on sample inputs *)

(** C5 at a window of 2 over four values. *)
Lemma rolling_mean_window_2 :
  let S := [1%Q; 2%Q; 4%Q; 8%Q] in
  length (rolling_mean 2 S) = length S /\
  (forall i, (i < 2 - 1)%nat -> (i < length S)%nat ->
             nth_error (rolling_mean 2 S) i = Some None) /\
  (forall i, (2 - 1 <= i)%nat -> (i < length S)%nat ->
             exists q, nth_error (rolling_mean 2 S) i = Some (Some q) /\
                       (q == Qmean (firstn 2 (skipn (i - (2 - 1)) S)))%Q) /\
  ((length S < 2)%nat -> Forall (fun o => o = None) (rolling_mean 2 S)).
Proof.
  apply (rolling_mean_trailing_window 2 [1%Q; 2%Q; 4%Q; 8%Q]). lia.
Defined.

(** C8 at the daily counts of [df_weekend]: three dates, two dispensers. *)
Lemma df_weekend_grid :
  let t := [ mkDispRow (mkdate 2022 3 12) "D1" 1;
             mkDispRow (mkdate 2022 3 13) "D2" 1;
             mkDispRow (mkdate 2022 3 14) "D1" 2 ] in
  df_disp df_weekend = t /\
  exists grid,
    df_disp_all_days t = Ok grid /\
    length grid = (length (distinct (map disp_Script_Date t)) *
                   length (distinct (map disp_Dispenser t)))%nat /\
    NoDup (map disp_index grid) /\
    (forall d c, In (d, c) (map disp_index grid) <->
                 In d (map disp_Script_Date t) /\ In c (map disp_Dispenser t)) /\
    (forall r, In r t -> In r grid) /\
    (forall r, In r grid -> ~ In (disp_index r) (map disp_index t) ->
               disp_Sctno r = 0).
Proof.
  split; [ vm_compute; reflexivity | ].
  apply (df_disp_all_days_grid
           [ mkDispRow (mkdate 2022 3 12) "D1" 1;
             mkDispRow (mkdate 2022 3 13) "D2" 1;
             mkDispRow (mkdate 2022 3 14) "D1" 2 ]).
  apply has_duplicates_NoDup. vm_compute. reflexivity.
Defined.


(** X13 on [df_weekend], whose only external doctor is MOLEFE. *)
Lemma top_5_external_doctors_of_weekend :
  top_5_external_doctors df_weekend = Ok ["MOLEFE"] /\
  let rows d := count (filter (fun r => eqb (Doctor r) d) df_weekend) in
  let external d := d <> "KRMC DISPENSARY" /\ ~ In d krmc_doctors in
  (length ["MOLEFE"] <= 5)%nat /\
  NoDup ["MOLEFE"] /\
  (forall d, In d ["MOLEFE"] -> external d /\ 0 < rows d) /\
  StronglySorted (fun a b => rows b <= rows a) ["MOLEFE"] /\
  (forall d, external d -> 0 < rows d -> ~ In d ["MOLEFE"] ->
             length ["MOLEFE"] = 5%nat /\ forall e, In e ["MOLEFE"] -> rows d <= rows e).
Proof.
  split; [ vm_compute; reflexivity | ].
  apply (top_5_external_doctors_ranked df_weekend ["MOLEFE"]).
  vm_compute. reflexivity.
Defined.

(** X16 on 7 March 2022. *)
Lemma dt_month_of_march_2022 :
  dt_month (period_M_str (mkdate 2022 3 7)) = 3.
Proof.
  apply (dt_month_period_M_str (mkdate 2022 3 7)); simpl; lia.
Defined.

(** X18 on [df_weekend] with SMITH selected: the entry of WISE is empty. *)
Lemma doctor_items_of_wise_with_smith_selected :
  doctor_top_5 df_weekend "SMITH" "WISE" = [] /\
  dict_get (doctor_items_dict df_weekend "SMITH") "WISE" [] = [].
Proof.
  apply (doctor_items_dict_other_doctors df_weekend "SMITH" "WISE").
  discriminate.
Defined.

(** X22 on the volume trace of 2022 of [df_twelve_months]. *)
Lemma year_comparison_labels_of_twelve_months :
  StronglySorted (fun a b => String.leb a b = true)
    ["Apr"; "Aug"; "Dec"; "Feb"; "Jan"; "Jul"; "Jun"; "Mar"; "May"; "Nov";
     "Oct"; "Sep"].
Proof.
  apply (year_comparison_labels_ascending df_twelve_months "ASPIRIN" ["2022"]
           (mkScatter ["Apr"; "Aug"; "Dec"; "Feb"; "Jan"; "Jul"; "Jun"; "Mar";
                       "May"; "Nov"; "Oct"; "Sep"]
                      (map t_Sctno (temp_df df_twelve_months "ASPIRIN"))
                      "Volume 2022" false)).
  vm_compute. left. reflexivity.
Defined.
